(** * TransitLens: the cleaning pipeline of [utils.py] and the aggregations
      of the dashboard pages, embedded as Rocq functions.

    A cell of a text column of the frame is a Python [str], modelled as
    a byte string, or the float NaN that [pd.read_csv] leaves in an empty
    field, modelled as [None].  A pandas column of timestamps may hold the
    missing value [NaT]; it is modelled as [option Timestamp].  The float column
    [Amount_Clean] is modelled by exact rationals together with the three
    special values of a Python float; rounding to binary64 is not
    modelled. *)

From Stdlib Require Import List ZArith QArith Qreduction Qpower String Ascii Bool Lia.
From Stdlib Require Import Permutation Sorted.
Import ListNotations.

Local Open Scope string_scope.
Local Open Scope list_scope.
Local Open Scope Z_scope.

(* ================================================================== *)
(** ** Python results: a value or a raised exception                    *)
(* ================================================================== *)

Inductive exn : Type :=
| ValueError.

Inductive outcome (A : Type) : Type :=
| Returned (a : A)
| Raised (e : exn).

Arguments Returned {A} a.
Arguments Raised {A} e.

Definition bind {A B : Type} (m : outcome A) (k : A -> outcome B) : outcome B :=
  match m with
  | Returned a => k a
  | Raised e => Raised e
  end.

Notation "x <- m ;; k" := (bind m (fun x => k))
  (at level 61, m at next level, right associativity).

(** A statement applied to a whole column raises as soon as one cell does. *)
Fixpoint mapM {A B : Type} (f : A -> outcome B) (l : list A) : outcome (list B) :=
  match l with
  | [] => Returned []
  | x :: xs => y <- f x ;; ys <- mapM f xs ;; Returned (y :: ys)
  end.

(* ================================================================== *)
(** ** Characters and strings                                           *)
(* ================================================================== *)

Definition code (c : ascii) : Z := Z.of_N (N_of_ascii c).

Definition is_digit (c : ascii) : bool := (48 <=? code c) && (code c <=? 57).

Definition digit_val (c : ascii) : Z := code c - 48.

(** ASCII part of Python's whitespace class (used by [\s] and by [float]). *)
Definition is_space (c : ascii) : bool :=
  ((9 <=? code c) && (code c <=? 13)) || ((28 <=? code c) && (code c <=? 32)).

Definition to_lower (c : ascii) : ascii :=
  if (65 <=? code c) && (code c <=? 90)
  then ascii_of_N (N_of_ascii c + 32)
  else c.

Fixpoint lower (s : string) : string :=
  match s with
  | EmptyString => EmptyString
  | String c s' => String (to_lower c) (lower s')
  end.

(** [s.replace(old, new)] for a one-character [old]. *)
Fixpoint str_replace (old : ascii) (new : string) (s : string) : string :=
  match s with
  | EmptyString => EmptyString
  | String c s' =>
      if Ascii.eqb c old then new ++ str_replace old new s'
      else String c (str_replace old new s')
  end.

Definition digit_char (d : Z) : ascii := ascii_of_N (Z.to_N (48 + d)).

Definition pad2 (n : Z) : string :=
  String (digit_char (n / 10 mod 10)) (String (digit_char (n mod 10)) "").

Definition pad4 (n : Z) : string :=
  String (digit_char (n / 1000 mod 10))
    (String (digit_char (n / 100 mod 10)) (pad2 n)).

(* ================================================================== *)
(** ** Calendar                                                         *)
(* ================================================================== *)

Record Timestamp : Type := mkTimestamp {
  year : Z; month : Z; day : Z; hour : Z; minute : Z; second : Z
}.

(** [datetime.date] *)
Record date : Type := mkDate { d_year : Z; d_month : Z; d_day : Z }.

Definition is_leap (y : Z) : bool :=
  (y mod 4 =? 0) && (negb (y mod 100 =? 0) || (y mod 400 =? 0)).

Definition days_in_month (y m : Z) : Z :=
  if m =? 2 then (if is_leap y then 29 else 28)
  else if (m =? 4) || (m =? 6) || (m =? 9) || (m =? 11) then 30
  else 31.

Definition days_before_year (y : Z) : Z :=
  let p := y - 1 in p * 365 + p / 4 - p / 100 + p / 400.

Fixpoint days_before_month_aux (y : Z) (n : nat) : Z :=
  match n with
  | O => 0
  | S k => days_before_month_aux y k + days_in_month y (Z.of_nat n)
  end.

Definition days_before_month (y m : Z) : Z :=
  days_before_month_aux y (Z.to_nat (m - 1)).

(** [date.toordinal()] *)
Definition ymd2ord (y m d : Z) : Z :=
  days_before_year y + days_before_month y m + d.

(** Monday is 0. *)
Definition weekday (y m d : Z) : Z := (ymd2ord y m d + 6) mod 7.

Definition day_names : list string :=
  ["Monday"; "Tuesday"; "Wednesday"; "Thursday"; "Friday"; "Saturday"; "Sunday"].

Definition day_name (t : Timestamp) : string :=
  nth (Z.to_nat (weekday (year t) (month t) (day t))) day_names "".

Definition isoweek1monday (y : Z) : Z :=
  let firstday := ymd2ord y 1 1 in
  let firstweekday := (firstday + 6) mod 7 in
  let week1monday := firstday - firstweekday in
  if 3 <? firstweekday then week1monday + 7 else week1monday.

(** [isocalendar().week] *)
Definition iso_week (t : Timestamp) : Z :=
  let today := ymd2ord (year t) (month t) (day t) in
  let week := (today - isoweek1monday (year t)) / 7 in
  if week <? 0 then (today - isoweek1monday (year t - 1)) / 7 + 1
  else if (52 <=? week) && (isoweek1monday (year t + 1) <=? today) then 1
  else week + 1.

(** [to_period("M").astype(str)]; the missing timestamp prints as "NaT". *)
Definition month_str (t : Timestamp) : string :=
  pad4 (year t) ++ "-" ++ pad2 (month t).

Definition date_of (t : Timestamp) : date :=
  mkDate (year t) (month t) (day t).

Definition date_eqb (a b : date) : bool :=
  (d_year a =? d_year b) && (d_month a =? d_month b) && (d_day a =? d_day b).

Definition date_leb (a b : date) : bool :=
  (d_year a <? d_year b)
  || ((d_year a =? d_year b)
      && ((d_month a <? d_month b)
          || ((d_month a =? d_month b) && (d_day a <=? d_day b)))).

(** Seconds since the start of the proleptic calendar: the order of
    timestamps. *)
Definition ts_key (t : Timestamp) : Z :=
  ((ymd2ord (year t) (month t) (day t) * 24 + hour t) * 60 + minute t) * 60
  + second t.

(* ================================================================== *)
(** ** [pd.to_datetime(col, format="%m/%d/%Y %I:%M:%S %p")]             *)
(* ================================================================== *)

(** The format is compiled to a regular expression, one group per
    directive, and matched with backtracking; a parser here returns every
    way to match a prefix, in the order the regex engine tries them. *)
Definition parser (A : Type) : Type := string -> list (A * string).

Definition p_ret {A : Type} (a : A) : parser A := fun s => [(a, s)].

Definition p_bind {A B : Type} (p : parser A) (k : A -> parser B) : parser B :=
  fun s => flat_map (fun r => k (fst r) (snd r)) (p s).

Definition p_alt {A : Type} (p q : parser A) : parser A :=
  fun s => p s ++ q s.

Notation "x <~ p ;; k" := (p_bind p (fun x => k))
  (at level 61, p at next level, right associativity).

Definition p_sat (f : ascii -> bool) : parser ascii :=
  fun s =>
    match s with
    | String c s' => if f c then [(c, s')] else []
    | EmptyString => []
    end.

(** One decimal digit whose value lies in [lo..hi]. *)
Definition p_digit (lo hi : Z) : parser Z :=
  c <~ p_sat (fun c => is_digit c && (lo <=? digit_val c) && (digit_val c <=? hi)) ;;
  p_ret (digit_val c).

Definition p_lit (a : ascii) : parser unit :=
  _ <~ p_sat (Ascii.eqb a) ;; p_ret tt.

(** A letter of the pattern under [re.IGNORECASE]. *)
Definition p_lit_ci (a : ascii) : parser unit :=
  _ <~ p_sat (fun c => Ascii.eqb (to_lower c) (to_lower a)) ;; p_ret tt.

Definition p_two (lo1 hi1 lo2 hi2 : Z) : parser Z :=
  a <~ p_digit lo1 hi1 ;; b <~ p_digit lo2 hi2 ;; p_ret (10 * a + b).

(** [\s*], longest match first. *)
Fixpoint p_spaces_star (s : string) : list (unit * string) :=
  match s with
  | String c s' =>
      if is_space c then p_spaces_star s' ++ [(tt, s)] else [(tt, s)]
  | EmptyString => [(tt, s)]
  end.

(** [\s+]: a blank of the format matches any run of whitespace. *)
Definition p_spaces_plus : parser unit :=
  fun s =>
    match s with
    | String c s' => if is_space c then p_spaces_star s' else []
    | EmptyString => []
    end.

(** %m and %I: [1[0-2]|0[1-9]|[1-9]] *)
Definition re_m : parser Z :=
  p_alt (p_two 1 1 0 2) (p_alt (p_two 0 0 1 9) (p_digit 1 9)).

(** %d: [3[01]|[12]\d|0[1-9]|[1-9]| [1-9]] *)
Definition re_d : parser Z :=
  p_alt (p_two 3 3 0 1)
    (p_alt (p_two 1 2 0 9)
       (p_alt (p_two 0 0 1 9)
          (p_alt (p_digit 1 9)
             (_ <~ p_lit " " ;; p_digit 1 9)))).

(** %Y: [\d\d\d\d] *)
Definition re_Y : parser Z :=
  a <~ p_digit 0 9 ;; b <~ p_digit 0 9 ;; c <~ p_digit 0 9 ;; d <~ p_digit 0 9 ;;
  p_ret (1000 * a + 100 * b + 10 * c + d).

(** %M: [[0-5]\d|\d] *)
Definition re_M : parser Z := p_alt (p_two 0 5 0 9) (p_digit 0 9).

(** %S: [6[01]|[0-5]\d|\d] *)
Definition re_S : parser Z :=
  p_alt (p_two 6 6 0 1) (p_alt (p_two 0 5 0 9) (p_digit 0 9)).

(** %p: [am|pm], ignoring case; [true] stands for PM. *)
Definition re_p : parser bool :=
  p_alt (_ <~ p_lit_ci "a" ;; _ <~ p_lit_ci "m" ;; p_ret false)
        (_ <~ p_lit_ci "p" ;; _ <~ p_lit_ci "m" ;; p_ret true).

Record fields : Type := mkFields {
  f_m : Z; f_d : Z; f_Y : Z; f_I : Z; f_M : Z; f_S : Z; f_p : bool
}.

Definition format_regex : parser fields :=
  m <~ re_m ;; _ <~ p_lit "/" ;;
  d <~ re_d ;; _ <~ p_lit "/" ;;
  Y <~ re_Y ;; _ <~ p_spaces_plus ;;
  I <~ re_m ;; _ <~ p_lit ":" ;;
  M <~ re_M ;; _ <~ p_lit ":" ;;
  S <~ re_S ;; _ <~ p_spaces_plus ;;
  p <~ re_p ;;
  p_ret (mkFields m d Y I M S p).

(** [format_regex.match(val)] with [exact=True]: the first match is taken
    and must consume the whole string. *)
Definition regex_match (val : string) : option fields :=
  match format_regex val with
  | (f, EmptyString) :: _ => Some f
  | _ => None
  end.

Definition next_day (y m d : Z) : Z * Z * Z :=
  if d <? days_in_month y m then (y, m, d + 1)
  else if m <? 12 then (y, m + 1, 1)
  else (y + 1, 1, 1).

(** The matched fields are turned into a point in time; a seconds field
    of 60 or 61 is carried into the next minute.  A result past year 9999
    is out of bounds.  (The narrower bounds of nanosecond timestamps are
    not modelled.) *)
Definition carry (y m d H M S : Z) : Timestamp :=
  if S <? 60 then mkTimestamp y m d H M S
  else if M <? 59 then mkTimestamp y m d H (M + 1) (S - 60)
  else if H <? 23 then mkTimestamp y m d (H + 1) 0 (S - 60)
  else let '(y', m', d') := next_day y m d in mkTimestamp y' m' d' 0 0 (S - 60).

Definition strptime (val : string) : option Timestamp :=
  match regex_match val with
  | None => None
  | Some f =>
      (* date(year, month, day) must exist *)
      if (1 <=? f_Y f) && (f_d f <=? days_in_month (f_Y f) (f_m f)) then
        let H := if f_p f
                 then (if f_I f =? 12 then 12 else f_I f + 12)
                 else (if f_I f =? 12 then 0 else f_I f) in
        let t := carry (f_Y f) (f_m f) (f_d f) H (f_M f) (f_S f) in
        if year t <=? 9999 then Some t else None
      else None
  end.

(** Strings that pandas reads as the missing timestamp instead of
    matching them against the format. *)
Definition nat_strings : list string := ["NaT"; "nat"; "NAT"; "nan"; "NaN"; "NAN"].

Definition is_nat_string (val : string) : bool :=
  (String.length val =? 0)%nat || existsb (String.eqb val) nat_strings.

Definition to_datetime_value (val : string) : outcome (option Timestamp) :=
  if is_nat_string val then Returned None
  else match strptime val with
       | Some t => Returned (Some t)
       | None => Raised ValueError
       end.

Definition to_datetime (col : list string) : outcome (list (option Timestamp)) :=
  mapM to_datetime_value col.

(* ================================================================== *)
(** ** Python floats and [astype(float)]                                *)
(* ================================================================== *)

Inductive pyfloat : Type :=
| Finite (q : Q)
| PosInf
| NegInf
| NaN.

Definition fzero : pyfloat := Finite 0.

(** Addition of floats, exact on finite values. *)
Definition fadd (a b : pyfloat) : pyfloat :=
  match a, b with
  | NaN, _ | _, NaN => NaN
  | PosInf, NegInf | NegInf, PosInf => NaN
  | PosInf, _ | _, PosInf => PosInf
  | NegInf, _ | _, NegInf => NegInf
  | Finite x, Finite y => Finite (Qred (x + y))
  end.

Definition fneg (a : pyfloat) : pyfloat :=
  match a with
  | Finite x => Finite (Qred (- x))
  | PosInf => NegInf
  | NegInf => PosInf
  | NaN => NaN
  end.

Definition is_nan (a : pyfloat) : bool :=
  match a with NaN => true | _ => false end.

(** [0 <= a] as Python evaluates it: false on NaN. *)
Definition fle0 (a : pyfloat) : bool :=
  match a with
  | Finite x => Qle_bool 0 x
  | PosInf => true
  | NegInf | NaN => false
  end.

Fixpoint lstrip (s : string) : string :=
  match s with
  | String c s' => if is_space c then lstrip s' else s
  | EmptyString => EmptyString
  end.

Fixpoint rstrip (s : string) : string :=
  match s with
  | String c s' =>
      match rstrip s' with
      | EmptyString => if is_space c then EmptyString else String c EmptyString
      | r => String c r
      end
  | EmptyString => EmptyString
  end.

Definition strip (s : string) : string := rstrip (lstrip s).

(** [digitpart ::= digit (["_"] digit)*]: the value read so far, the number
    of digits read, and the rest of the input; at least one digit. *)
Fixpoint digits_more (acc : Z) (n : Z) (s : string) : Z * Z * string :=
  match s with
  | String c s' =>
      if is_digit c then digits_more (10 * acc + digit_val c) (n + 1) s'
      else if Ascii.eqb c "_" then
        match s' with
        | String c' s'' =>
            if is_digit c' then digits_more (10 * acc + digit_val c') (n + 1) s''
            else (acc, n, s)
        | EmptyString => (acc, n, s)
        end
      else (acc, n, s)
  | EmptyString => (acc, n, s)
  end.

Definition digitpart (acc : Z) (s : string) : option (Z * Z * string) :=
  match s with
  | String c s' =>
      if is_digit c then Some (digits_more (10 * acc + digit_val c) 1 s')
      else None
  | EmptyString => None
  end.

(** The optional exponent [("e"|"E") ["+"|"-"] digitpart]. *)
Definition exponent (s : string) : option (Z * string) :=
  match s with
  | String c s' =>
      if Ascii.eqb (to_lower c) "e" then
        match s' with
        | String "+" s'' =>
            match digitpart 0 s'' with
            | Some (e, _, r) => Some (e, r)
            | None => None
            end
        | String "-" s'' =>
            match digitpart 0 s'' with
            | Some (e, _, r) => Some (- e, r)
            | None => None
            end
        | _ =>
            match digitpart 0 s' with
            | Some (e, _, r) => Some (e, r)
            | None => None
            end
        end
      else None
  | EmptyString => Some (0, s)
  end.

(** [mant * 10 ^ e] as a reduced fraction. *)
Definition decimal (mant e : Z) : Q := Qred (inject_Z mant * Qpower 10 e).

(** An unsigned decimal literal: [digitpart ["." [digitpart]] [exponent]]
    or ["." digitpart [exponent]]. *)
Definition unsigned_number (s : string) : option Q :=
  let finish (mant nfrac : Z) (r : string) : option Q :=
    match exponent r with
    | Some (e, EmptyString) => Some (decimal mant (e - nfrac))
    | _ => None
    end in
  match s with
  | String "." s' =>
      match digitpart 0 s' with
      | Some (m, n, r) => finish m n r
      | None => None
      end
  | _ =>
      match digitpart 0 s with
      | Some (m, _, String "." r) =>
          match digitpart m r with
          | Some (m', n', r') => finish m' n' r'
          | None => finish m 0 r
          end
      | Some (m, _, r) => finish m 0 r
      | None => None
      end
  end.

Definition unsigned_float (s : string) : option pyfloat :=
  let l := lower s in
  if String.eqb l "inf" || String.eqb l "infinity" then Some PosInf
  else if String.eqb l "nan" then Some NaN
  else match unsigned_number s with
       | Some q => Some (Finite q)
       | None => None
       end.

(** Python's [float(str)]: surrounding whitespace, an optional sign, then
    a decimal literal or one of [inf], [infinity], [nan]. *)
Definition float_of_str (s : string) : outcome pyfloat :=
  let body := strip s in
  let r := match body with
           | String "-" s' => option_map fneg (unsigned_float s')
           | String "+" s' => unsigned_float s'
           | _ => unsigned_float body
           end in
  match r with
  | Some f => Returned f
  | None => Raised ValueError
  end.

(** A cell of a text column (dtype [object]): a string, or the float NaN
    of a missing field. *)
Definition cell : Type := option string.

Definition Text (s : string) : cell := Some s.

Coercion Text : string >-> cell.

(** [Series.str.replace(old, new)] on one cell: NaN stays NaN. *)
Definition cell_str_replace (old : ascii) (new : string) (c : cell) : cell :=
  option_map (str_replace old new) c.

(** [float(x)] on one cell of the column: a string is parsed, the float
    NaN is already a float. *)
Definition float_of_cell (c : cell) : outcome pyfloat :=
  match c with
  | Some s => float_of_str s
  | None => Returned NaN
  end.

(** [str(x)] on one cell: the float NaN prints as "nan". *)
Definition str_of_cell (c : cell) : string :=
  match c with
  | Some s => s
  | None => "nan"
  end.

Definition astype_float (col : list cell) : outcome (list pyfloat) :=
  mapM float_of_cell col.

(* ================================================================== *)
(** ** utils.py: [clean_raw_data]                                       *)
(* ================================================================== *)

(** One row of the frame read from the export, restricted to the four
    columns that [clean_raw_data] selects.  The three text columns hold
    cells.  In the Date column an empty field is converted to NaT exactly
    like the empty text (see [is_nat_string]) and is written as that
    text. *)
Record RawRecord : Type := mkRaw {
  raw_Date : string;
  raw_Location : cell;
  raw_Amount : cell;
  raw_Transit_Agency : cell
}.

(** One row of the cleaned frame.  The columns derived from a missing
    [Date] are missing too ([None]), except [Month], whose string is
    "NaT". *)
Record Trip : Type := mkTrip {
  Date : option Timestamp;
  Location : cell;
  Amount : cell;
  Transit_Agency : cell;
  Day_of_Week : option string;
  Hour : option Z;
  Month : string;
  Week : option Z;
  Year : option Z;
  Date_Only : option date;
  Amount_Clean : pyfloat
}.

(** The frame after [df["Date"] = pd.to_datetime(...)]. *)
Record DatedRecord : Type := mkDated {
  c_Date : option Timestamp;
  c_Location : cell;
  c_Amount : cell;
  c_Transit_Agency : cell
}.

(** The dictionary passed to [df.replace]. *)
Definition synonyms : list (string * string) :=
  [("Zone17", "Aldershot GO");
   ("Zone20", "Square One");
   ("Zone27", "University of Waterloo")].

Fixpoint lookup (k : string) (d : list (string * string)) : option string :=
  match d with
  | [] => None
  | (k', v) :: d' => if String.eqb k k' then Some v else lookup k d'
  end.

(** [replace] on one string: a value equal to a key becomes that key's
    value. *)
Definition replace_value (v : string) : string :=
  match lookup v synonyms with
  | Some v' => v'
  | None => v
  end.

(** [replace] on one cell: NaN is equal to no key and stays NaN. *)
Definition replace_cell (c : cell) : cell := option_map replace_value c.

(** [df.replace({...})] is called on the frame, not on one column: every
    string cell of every column is looked up.  The [Date] column holds
    timestamps by then and has no cell equal to a key. *)
Definition df_replace (df : list DatedRecord) : list DatedRecord :=
  map (fun r => mkDated (c_Date r)
                        (replace_cell (c_Location r))
                        (replace_cell (c_Amount r))
                        (replace_cell (c_Transit_Agency r))) df.

Definition set_dates (df : list RawRecord) (dates : list (option Timestamp))
  : list DatedRecord :=
  map (fun rd => mkDated (snd rd) (raw_Location (fst rd)) (raw_Amount (fst rd))
                         (raw_Transit_Agency (fst rd)))
      (combine df dates).

Definition month_of (d : option Timestamp) : string :=
  match d with
  | Some t => month_str t
  | None => "NaT"
  end.

(** The six derived columns and [Amount_Clean] added to a row. *)
Definition add_columns (r : DatedRecord) (amount_clean : pyfloat) : Trip :=
  mkTrip (c_Date r) (c_Location r) (c_Amount r) (c_Transit_Agency r)
         (option_map day_name (c_Date r))
         (option_map hour (c_Date r))
         (month_of (c_Date r))
         (option_map iso_week (c_Date r))
         (option_map year (c_Date r))
         (option_map date_of (c_Date r))
         amount_clean.

(** [.replace("-", "").replace("$", "")] on a string. *)
Definition clean_amount (a : string) : string :=
  str_replace "$" "" (str_replace "-" "" a).

(** [.str.replace("-", "").str.replace("$", "")] on a cell of the column:
    a missing Amount stays NaN. *)
Definition clean_amount_cell (c : cell) : cell :=
  cell_str_replace "$" "" (cell_str_replace "-" "" c).

Definition clean_raw_data (df : list RawRecord) : outcome (list Trip) :=
  dates <- to_datetime (map raw_Date df) ;;
  let df := df_replace (set_dates df dates) in
  amounts <- astype_float (map (fun r => clean_amount_cell (c_Amount r)) df) ;;
  Returned (map (fun ra => add_columns (fst ra) (snd ra)) (combine df amounts)).

(** The same cleaning, one row at a time. *)
Definition clean_row (r : RawRecord) : outcome Trip :=
  d <- to_datetime_value (raw_Date r) ;;
  let r' := mkDated d (replace_cell (raw_Location r))
                      (replace_cell (raw_Amount r))
                      (replace_cell (raw_Transit_Agency r)) in
  a <- float_of_cell (clean_amount_cell (c_Amount r')) ;;
  Returned (add_columns r' a).

(* ================================================================== *)
(** ** pandas Series operations used by the pages                       *)
(* ================================================================== *)

(** A Series is its index paired with its values, in order. *)

(** One step of a sum that skips missing values ([skipna]). *)
Definition nanadd (acc x : pyfloat) : pyfloat :=
  if is_nan x then acc else fadd acc x.

(** [Series.sum()] *)
Definition series_sum (l : list pyfloat) : pyfloat :=
  fold_left nanadd l fzero.

Section Grouping.
Variable K : Type.
Variable eqb : K -> K -> bool.

(** Add [x] to the running sum of group [k]; a key seen for the first
    time opens a group after the existing ones. *)
Fixpoint group_add (k : K) (x : pyfloat) (acc : list (K * pyfloat))
  : list (K * pyfloat) :=
  match acc with
  | [] => [(k, nanadd fzero x)]
  | (k', v) :: acc' =>
      if eqb k k' then (k', nanadd v x) :: acc'
      else (k', v) :: group_add k x acc'
  end.

(** One pass over the rows, accumulating into [init]. *)
Definition group_sums (init : list (K * pyfloat)) (rows : list (K * pyfloat))
  : list (K * pyfloat) :=
  fold_left (fun acc kx => group_add (fst kx) (snd kx) acc) rows init.

Fixpoint count_add (k : K) (acc : list (K * Z)) : list (K * Z) :=
  match acc with
  | [] => [(k, 1)]
  | (k', n) :: acc' =>
      if eqb k k' then (k', n + 1) :: acc' else (k', n) :: count_add k acc'
  end.

Definition group_counts (keys : list K) : list (K * Z) :=
  fold_left (fun acc k => count_add k acc) keys [].

Fixpoint find_key {V : Type} (k : K) (l : list (K * V)) : option V :=
  match l with
  | [] => None
  | (k', v) :: l' => if eqb k k' then Some v else find_key k l'
  end.
End Grouping.

Arguments group_add {K} eqb k x acc.
Arguments group_sums {K} eqb init rows.
Arguments count_add {K} eqb k acc.
Arguments group_counts {K} eqb keys.
Arguments find_key {K} eqb {V} k l.

Section Sorting.
Variable A : Type.
Variable leb : A -> A -> bool.

Fixpoint insert_by (x : A) (l : list A) : list A :=
  match l with
  | [] => [x]
  | y :: l' => if leb x y then x :: l else y :: insert_by x l'
  end.

(** A stable sort: of two elements that compare equal, the one that
    came first stays first. *)
Definition sort_by (l : list A) : list A := fold_right insert_by [] l.
End Sorting.

Arguments insert_by {A} leb x l.
Arguments sort_by {A} leb l.

(** [groupby(key)[value].sum()]: groups in sorted key order. *)
Definition groupby_sum (rows : list (string * pyfloat)) : list (string * pyfloat) :=
  sort_by (fun a b => String.leb (fst a) (fst b)) (group_sums String.eqb [] rows).

(** [value_counts()] on the present values of a column (the missing ones
    are dropped first, see [dropna]); most frequent first, ties in order
    of first appearance. *)
Definition value_counts (keys : list string) : list (string * Z) :=
  sort_by (fun a b => snd b <=? snd a) (group_counts String.eqb keys).

(** [reindex(index)]: a label absent from the Series gets NaN. *)
Definition reindex (index : list string) (s : list (string * pyfloat))
  : list (string * pyfloat) :=
  map (fun k => (k, match find_key String.eqb k s with
                    | Some v => v
                    | None => NaN
                    end)) index.

Definition fillna (v : pyfloat) (s : list (string * pyfloat)) : list (string * pyfloat) :=
  map (fun kv => (fst kv, if is_nan (snd kv) then v else snd kv)) s.

(** The rows whose key is present, as (key, value) pairs. *)
Fixpoint dropna_keys {V : Type} (rows : list (option string * V)) : list (string * V) :=
  match rows with
  | [] => []
  | (Some k, v) :: rows' => (k, v) :: dropna_keys rows'
  | (None, _) :: rows' => dropna_keys rows'
  end.

(** The present cells of a column. *)
Fixpoint dropna {A : Type} (col : list (option A)) : list A :=
  match col with
  | [] => []
  | Some v :: col' => v :: dropna col'
  | None :: col' => dropna col'
  end.

Definition is_none {A : Type} (o : option A) : bool :=
  match o with Some _ => false | None => true end.

(** The distinct values of a column in order of first appearance. *)
Fixpoint distinct {A : Type} (eqb : A -> A -> bool) (l : list A) : list A :=
  match l with
  | [] => []
  | x :: l' => x :: filter (fun y => negb (eqb x y)) (distinct eqb l')
  end.

(** Equality of two cells as [Series.unique()] sees it: the missing value
    is one value. *)
Definition cell_eqb {A : Type} (eqb : A -> A -> bool) (a b : option A) : bool :=
  match a, b with
  | Some x, Some y => eqb x y
  | None, None => true
  | _, _ => false
  end.

(** [Series.unique()] on a text column: the distinct values in order of
    first appearance, the missing value among them when it occurs. *)
Definition unique (col : list cell) : list cell :=
  distinct (cell_eqb String.eqb) col.

(** [sort_values("Date")]: ascending, missing timestamps last.  Rows with
    the same Date are kept in their order. *)
Definition Date_leb (a b : Trip) : bool :=
  match Date a, Date b with
  | Some x, Some y => ts_key x <=? ts_key y
  | _, None => true
  | None, Some _ => false
  end.

Definition sort_values_Date (df : list Trip) : list Trip := sort_by Date_leb df.

(* ================================================================== *)
(** ** pages/3 Spending Insights                                        *)
(* ================================================================== *)

Definition day_order : list string :=
  ["Monday"; "Tuesday"; "Wednesday"; "Thursday"; "Friday"; "Saturday"; "Sunday"].

(** [df.groupby("Month")["Amount_Clean"].sum()] *)
Definition monthly_spending (df : list Trip) : list (string * pyfloat) :=
  groupby_sum (map (fun t => (Month t, Amount_Clean t)) df).

(** [df.groupby("Day_of_Week")["Amount_Clean"].sum().reindex(day_order)] *)
Definition day_spending (df : list Trip) : list (string * pyfloat) :=
  reindex day_order
    (groupby_sum (dropna_keys (map (fun t => (Day_of_Week t, Amount_Clean t)) df))).

(* ================================================================== *)
(** ** pages/1 Travel Patterns                                          *)
(* ================================================================== *)

Definition count_series (s : list (string * Z)) : list (string * pyfloat) :=
  map (fun kn => (fst kn, Finite (inject_Z (snd kn)))) s.

(** [df["Day_of_Week"].value_counts().reindex(day_order).fillna(0)] *)
Definition day_counts (df : list Trip) : list (string * pyfloat) :=
  fillna fzero
    (reindex day_order
       (count_series
          (value_counts
             (map fst (dropna_keys (map (fun t => (Day_of_Week t, tt)) df)))))).

(* ================================================================== *)
(** ** transit_tool.py: [get_spendings_data]                            *)
(* ================================================================== *)

(** [t + pd.DateOffset(months=months)]: the month is moved and the day
    is clamped to the length of the new month. *)
Definition shift_month (t : Timestamp) (months : Z) : Timestamp :=
  let dy := (month t + months) / 12 in
  let m := (month t + months) mod 12 in
  let dy := if m =? 0 then dy - 1 else dy in
  let m := if m =? 0 then 12 else m in
  let y := year t + dy in
  mkTimestamp y m (Z.min (day t) (days_in_month y m))
              (hour t) (minute t) (second t).

(** Months counted from year 0. *)
Definition month_index (t : Timestamp) : Z := year t * 12 + (month t - 1).

(** The label of a monthly bin: midnight of the last day of the month. *)
Definition month_end (k : Z) : Timestamp :=
  let y := k / 12 in
  let m := k mod 12 + 1 in
  mkTimestamp y m (days_in_month y m) 0 0 0.

Fixpoint dropna_dates {V : Type} (rows : list (option Timestamp * V))
  : list (Timestamp * V) :=
  match rows with
  | [] => []
  | (Some t, v) :: rows' => (t, v) :: dropna_dates rows'
  | (None, _) :: rows' => dropna_dates rows'
  end.

Definition list_min (l : list Z) : option Z :=
  match l with
  | [] => None
  | x :: xs => Some (fold_left Z.min xs x)
  end.

Definition list_max (l : list Z) : option Z :=
  match l with
  | [] => None
  | x :: xs => Some (fold_left Z.max xs x)
  end.

(** [groupby(pd.Grouper(freq="M"))[...].sum()] on a frame indexed by
    timestamps: one bin per calendar month from the first to the last
    month present, empty months included; rows without a timestamp are
    left out. *)
Definition grouper_month_sum (rows : list (Timestamp * pyfloat))
  : list (Timestamp * pyfloat) :=
  let keyed := map (fun r => (month_index (fst r), snd r)) rows in
  match list_min (map fst keyed), list_max (map fst keyed) with
  | Some lo, Some hi =>
      let bins := map (fun i => (lo + Z.of_nat i, fzero))
                      (seq 0 (Z.to_nat (hi - lo + 1))) in
      map (fun kv => (month_end (fst kv), snd kv)) (group_sums Z.eqb bins keyed)
  | _, _ => []
  end.

Definition get_spendings_data (df : list Trip)
  : list (Timestamp * pyfloat) * pyfloat :=
  let dates := map (fun t => option_map (fun d => shift_month d (-1)) (Date t)) df in
  let out := grouper_month_sum
               (dropna_dates (combine dates (map Amount_Clean df))) in
  let num_amount_spent := series_sum (map Amount_Clean df) in
  (out, num_amount_spent).

(* ================================================================== *)
(** ** pages/2 Route Analysis: trip sequences                           *)
(* ================================================================== *)

(** [a == b] on two cells of [Date_Only]; the missing date equals nothing. *)
Definition Date_Only_eqb (a b : option date) : bool :=
  match a, b with
  | Some x, Some y => date_eqb x y
  | _, _ => false
  end.

(** [from_loc != to_loc] on two cells: two strings differ when they are
    not the same text; the float NaN differs from every value, itself
    included. *)
Definition cell_neqb (a b : cell) : bool :=
  match a, b with
  | Some x, Some y => negb (String.eqb x y)
  | _, _ => true
  end.

(** [f"{from_loc} → {to_loc}"] on two strings. *)
Definition arrow (from_loc to_loc : string) : string :=
  from_loc ++ " → " ++ to_loc.

(** The body of the loop for one [i]. *)
Definition trip_at (df_sorted : list Trip) (i : nat) : list string :=
  match nth_error df_sorted i, nth_error df_sorted (i + 1) with
  | Some a, Some b =>
      if Date_Only_eqb (Date_Only a) (Date_Only b) then
        if cell_neqb (Location a) (Location b)
        then [arrow (str_of_cell (Location a)) (str_of_cell (Location b))]
        else []
      else []
  | _, _ => []
  end.

Definition trips (df : list Trip) : list string :=
  let df_sorted := sort_values_Date df in
  flat_map (trip_at df_sorted) (seq 0 (List.length df_sorted - 1)).

(** [pd.Series(trips).value_counts().head(10)] *)
Definition trip_counts (df : list Trip) : list (string * Z) :=
  firstn 10 (value_counts (trips df)).

(* ================================================================== *)
(** ** pages/4 Data Explorer: the filters                               *)
(* ================================================================== *)

(** [str.contains(pat, case=False)] treats [pat] as a regular expression.
    The fragment modelled: ordinary characters, [.], and a backslash
    before a character that is neither a letter nor a digit.  Any other
    pattern is outside the model ([None]); Python then either raises
    [re.error] or matches with operators that are not modelled.  Matching
    folds the case of ASCII letters only. *)
Inductive atom : Type :=
| Lit (c : ascii)
| AnyChar.

Definition is_special (c : ascii) : bool :=
  existsb (Ascii.eqb c)
    ["."; "^"; "$"; "*"; "+"; "?"; "{"; "}"; "["; "]"; "\"; "|"; "("; ")"]%char.

Definition is_alnum (c : ascii) : bool :=
  is_digit c
  || ((65 <=? code c) && (code c <=? 90))
  || ((97 <=? code c) && (code c <=? 122)).

Fixpoint re_compile (pat : string) : option (list atom) :=
  match pat with
  | EmptyString => Some []
  | String c rest =>
      if Ascii.eqb c "." then option_map (cons AnyChar) (re_compile rest)
      else if Ascii.eqb c "\" then
        match rest with
        | String c' rest' =>
            if is_alnum c' then None
            else option_map (cons (Lit c')) (re_compile rest')
        | EmptyString => None
        end
      else if is_special c then None
      else option_map (cons (Lit c)) (re_compile rest)
  end.

Definition newline : ascii := ascii_of_N 10.

Fixpoint match_here (p : list atom) (s : string) : bool :=
  match p, s with
  | [], _ => true
  | Lit c :: p', String d s' =>
      Ascii.eqb (to_lower c) (to_lower d) && match_here p' s'
  | AnyChar :: p', String d s' =>
      negb (Ascii.eqb d newline) && match_here p' s'
  | _ :: _, EmptyString => false
  end.

(** [re.search]: a match starting at some position. *)
Fixpoint re_search (p : list atom) (s : string) : bool :=
  match_here p s
  || match s with
     | String _ s' => re_search p s'
     | EmptyString => false
     end.

(** The date filter applies when the widget returned two dates. *)
Definition filter_dates (date_range : list date) (df : list Trip) : list Trip :=
  match date_range with
  | [start_date; end_date] =>
      filter (fun t => match option_map date_of (Date t) with
                       | Some d => date_leb start_date d && date_leb d end_date
                       | None => false
                       end) df
  | _ => df
  end.

(** [cell == s] for a string [s]: false on a missing cell. *)
Definition cell_is (s : string) (c : cell) : bool :=
  match c with
  | Some x => String.eqb x s
  | None => false
  end.

(** A match function applied to a cell with [na=False]: false on a
    missing cell. *)
Definition cell_matches (m : string -> bool) (c : cell) : bool :=
  match c with
  | Some x => m x
  | None => false
  end.

Definition filter_agency (selected_agency : string) (df : list Trip) : list Trip :=
  if negb (String.eqb selected_agency "All")
  then filter (fun t => cell_is selected_agency (Transit_Agency t)) df
  else df.

Definition filter_location (location_search : string) (df : list Trip)
  : option (list Trip) :=
  if negb (String.eqb location_search "")
  then match re_compile location_search with
       | Some p => Some (filter (fun t => cell_matches (re_search p) (Location t)) df)
       | None => None
       end
  else Some df.

(** The block under "# Apply filters": the filtered copy of [df]. *)
Definition apply_filters (df : list Trip) (date_range : list date)
    (selected_agency location_search : string) : option (list Trip) :=
  let filtered_df := df in
  let filtered_df := filter_dates date_range filtered_df in
  let filtered_df := filter_agency selected_agency filtered_df in
  filter_location location_search filtered_df.

(** The same block for any regular-expression library.  [re_engine pat]
    stands for [re.compile(pat, re.IGNORECASE)]: the [search] of the
    compiled pattern, or [None] when the library rejects the pattern and
    raises [re.error].  Nothing is assumed of it.  The pattern is compiled
    before any row is looked at, also when no row is left. *)
Definition filter_location_with (re_engine : string -> option (string -> bool))
    (location_search : string) (df : list Trip) : option (list Trip) :=
  if negb (String.eqb location_search "")
  then match re_engine location_search with
       | Some m => Some (filter (fun t => cell_matches m (Location t)) df)
       | None => None
       end
  else Some df.

(** The result of the block, or [None] when [re.error] is raised. *)
Definition apply_filters_with (re_engine : string -> option (string -> bool))
    (df : list Trip) (date_range : list date)
    (selected_agency location_search : string) : option (list Trip) :=
  let filtered_df := df in
  let filtered_df := filter_dates date_range filtered_df in
  let filtered_df := filter_agency selected_agency filtered_df in
  filter_location_with re_engine location_search filtered_df.

(** The modelled fragment as such a library. *)
Definition fragment_engine (pat : string) : option (string -> bool) :=
  option_map re_search (re_compile pat).

(* ================================================================== *)
(** ** Notions used to state the properties                             *)
(* ================================================================== *)

Fixpoint has_char (c : ascii) (s : string) : bool :=
  match s with
  | EmptyString => false
  | String d s' => Ascii.eqb d c || has_char c s'
  end.

(** The text of an amount, once stripped, is [nan] in some casing, with
    an optional plus sign. *)
Definition spells_nan (s : string) : bool :=
  let b := lower (strip s) in
  String.eqb b "nan" || String.eqb b "+nan".

(** A date string that [to_datetime] accepts: a missing-value spelling or
    a match of the format. *)
Definition date_text_accepted (s : string) : Prop :=
  is_nat_string s = true \/ exists t, strptime s = Some t.

Definition or_zero (o : option pyfloat) : pyfloat :=
  match o with Some v => v | None => fzero end.

(** The values of the rows whose key is [k], in row order. *)
Definition group_values {K : Type} (eqb : K -> K -> bool) (k : K)
    (rows : list (K * pyfloat)) : list pyfloat :=
  map snd (filter (fun r => eqb (fst r) k) rows).

(** The trip's Date falls in month [m] of year [y]. *)
Definition in_month (y m : Z) (t : Trip) : bool :=
  match Date t with
  | Some d => (year d =? y) && (month d =? m)
  | None => false
  end.

(** The trip's Date falls in the month numbered [k] (see [month_index]). *)
Definition in_month_index (k : Z) (t : Trip) : bool :=
  match Date t with
  | Some d => month_index d =? k
  | None => false
  end.

(** The sum of Amount_Clean over the trips whose Date falls in the month
    numbered [k]. *)
Definition month_total (df : list Trip) (k : Z) : pyfloat :=
  series_sum (map Amount_Clean (filter (in_month_index k) df)).

(** Calendar order on dates. *)
Definition date_lt (a b : date) : Prop :=
  d_year a < d_year b
  \/ (d_year a = d_year b
      /\ (d_month a < d_month b
          \/ (d_month a = d_month b /\ d_day a < d_day b))).

Definition date_le (a b : date) : Prop :=
  d_year a < d_year b
  \/ (d_year a = d_year b
      /\ (d_month a < d_month b
          \/ (d_month a = d_month b /\ d_day a <= d_day b))).

(** The compiled form of a search text taken literally. *)
Fixpoint lits (pat : string) : list atom :=
  match pat with
  | EmptyString => []
  | String c pat' => Lit c :: lits pat'
  end.

(** [pat] occurs in [s] when the case of ASCII letters is ignored. *)
Definition ci_substring (pat s : string) : Prop :=
  exists pre mid post, s = (pre ++ mid ++ post)%string /\ lower mid = lower pat.

(** A search text without regular-expression metacharacters. *)
Fixpoint no_special (s : string) : bool :=
  match s with
  | EmptyString => true
  | String c s' => negb (is_special c) && no_special s'
  end.

Definition is_modelled (pat : string) : bool :=
  match re_compile pat with Some _ => true | None => false end.

(** The conjunction of the active filters: a date range counts when two
    dates are given, an agency when it is not "All", a search text when it
    is not empty. *)
Definition satisfies (date_range : list date) (selected_agency location_search : string)
    (t : Trip) : Prop :=
  (forall start_date end_date, date_range = [start_date; end_date] ->
     exists d, option_map date_of (Date t) = Some d
               /\ date_le start_date d /\ date_le d end_date)
  /\ (selected_agency <> "All" -> Transit_Agency t = Some selected_agency)
  /\ (location_search <> "" ->
      exists loc, Location t = Some loc /\ ci_substring location_search loc).

(** A cleaned table used in examples. *)
Definition sample_df : list Trip :=
  match clean_raw_data
          [mkRaw "01/05/2024 08:15:00 AM" "Zone17" "$3.25" "GO";
           mkRaw "01/05/2024 05:40:00 PM" "Union Station" "-$3.25" "GO";
           mkRaw "03/09/2024 09:00:00 AM" "Square One" "$10" "MiWay";
           mkRaw "05/20/2024 07:30:00 PM" "Union Station" "$20" "TTC"] with
  | Returned t => t
  | Raised _ => []
  end.

(** Three trips in January, March and May 2024. *)
Definition three_months_df : list Trip :=
  match clean_raw_data
          [mkRaw "01/15/2024 08:00:00 AM" "Union Station" "$10" "GO";
           mkRaw "03/15/2024 08:00:00 AM" "Union Station" "$20" "GO";
           mkRaw "05/15/2024 08:00:00 AM" "Union Station" "$30" "GO"] with
  | Returned t => t
  | Raised _ => []
  end.

(* ================================================================== *)
(** ** Further notions used to state the properties                     *)
(* ================================================================== *)

(** A timestamp that names a real calendar date and time of day. *)
Definition valid_ts (t : Timestamp) : Prop :=
  1 <= year t <= 9999
  /\ 1 <= month t <= 12
  /\ 1 <= day t <= days_in_month (year t) (month t)
  /\ 0 <= hour t <= 23
  /\ 0 <= minute t <= 59
  /\ 0 <= second t <= 59.

(* ================================================================== *)
(** ** transit_tool.py: [map_frequent_stops]                            *)
(* ================================================================== *)

(** [Series.nlargest(n)] with [keep="first"]: the [n] largest values,
    largest first, equal values in their order in the Series. *)
Definition nlargest (n : nat) (s : list (string * Z)) : list (string * Z) :=
  firstn n (sort_by (fun a b => snd b <=? snd a) s).

(** The Series drawn by the bar chart, and the number of distinct stops. *)
Definition map_frequent_stops (df : list Trip) : list (string * Z) * Z :=
  let location_counts := nlargest 10 (value_counts (dropna (map Location df))) in
  let number_unique_stops := Z.of_nat (List.length (unique (map Location df))) in
  (location_counts, number_unique_stops).

(** [Series.sum()] on a Series of counts. *)
Definition sum_counts {K : Type} (s : list (K * Z)) : Z :=
  fold_right Z.add 0 (map snd s).

(** The number of cells of a column equal to [k]. *)
Definition occurrences {K : Type} (eqb : K -> K -> bool) (k : K) (col : list K) : Z :=
  Z.of_nat (List.length (filter (eqb k) col)).

Definition count_of (k : string) (col : list string) : Z :=
  occurrences String.eqb k col.

(* ================================================================== *)
(** ** pages/1 Travel Patterns: weekend split and hours                 *)
(* ================================================================== *)

(** [Series.isin(values)]: a missing cell is in no list. *)
Definition isin (values : list string) (cell : option string) : bool :=
  match cell with
  | Some v => existsb (String.eqb v) values
  | None => false
  end.

Definition weekdays : list string :=
  ["Monday"; "Tuesday"; "Wednesday"; "Thursday"; "Friday"].

(** [weekday_mask.sum()] *)
Definition weekday_trips (df : list Trip) : Z :=
  Z.of_nat (List.length (filter (fun t => isin weekdays (Day_of_Week t)) df)).

(** [len(df) - weekday_trips] *)
Definition weekend_trips (df : list Trip) : Z :=
  Z.of_nat (List.length df) - weekday_trips df.

(** [df["Hour"].value_counts().sort_index()] *)
Definition hour_counts (df : list Trip) : list (Z * Z) :=
  sort_by (fun a b => fst a <=? fst b)
    (sort_by (fun a b => snd b <=? snd a)
       (group_counts Z.eqb (dropna (map Hour df)))).

(** [pd.Series(index=range(24), data=0)] after [update(hour_counts)]:
    the count of every hour that [hour_counts] lists, 0 elsewhere. *)
Definition all_hours (df : list Trip) : list (Z * Z) :=
  map (fun h => (h, match find_key Z.eqb h (hour_counts df) with
                    | Some n => n
                    | None => 0
                    end))
      (map Z.of_nat (seq 0 24)).

(** [s[i:j]] *)
Definition slice {A : Type} (i j : nat) (l : list A) : list A :=
  firstn (j - i) (skipn i l).

Definition morning_rush (df : list Trip) : Z := sum_counts (slice 6 10 (all_hours df)).

Definition evening_rush (df : list Trip) : Z := sum_counts (slice 16 20 (all_hours df)).

Definition off_peak (df : list Trip) : Z :=
  sum_counts (all_hours df) - morning_rush df - evening_rush df.

(** The number of rows whose Day_of_Week is [w]. *)
Definition rows_on (w : string) (df : list Trip) : Z :=
  Z.of_nat (List.length
              (filter (fun t => match Day_of_Week t with
                                | Some v => String.eqb w v
                                | None => false
                                end) df)).

(** The number of rows whose Hour lies in [lo..hi]. *)
Definition rows_between (lo hi : Z) (df : list Trip) : Z :=
  Z.of_nat (List.length
              (filter (fun t => match Hour t with
                                | Some h => (lo <=? h) && (h <=? hi)
                                | None => false
                                end) df)).

(** The number of rows with, and without, a Date. *)
Definition dated_rows (df : list Trip) : Z :=
  Z.of_nat (List.length (filter (fun t => match Date t with
                                          | Some _ => true
                                          | None => false
                                          end) df)).

Definition undated_rows (df : list Trip) : Z :=
  Z.of_nat (List.length (filter (fun t => match Date t with
                                          | Some _ => false
                                          | None => true
                                          end) df)).

(* ================================================================== *)
(** ** pages/2 Route Analysis: [categorize_location]                    *)
(* ================================================================== *)

(** [str.upper()], on ASCII letters. *)
Definition to_upper (c : ascii) : ascii :=
  if (97 <=? code c) && (code c <=? 122)
  then ascii_of_N (N_of_ascii c - 32)
  else c.

Fixpoint upper (s : string) : string :=
  match s with
  | EmptyString => EmptyString
  | String c s' => String (to_upper c) (upper s')
  end.

Fixpoint startswith (p s : string) : bool :=
  match p, s with
  | EmptyString, _ => true
  | String a p', String b s' => Ascii.eqb a b && startswith p' s'
  | String _ _, EmptyString => false
  end.

(** [needle in hay] *)
Fixpoint str_in (needle hay : string) : bool :=
  startswith needle hay
  || match hay with
     | String _ hay' => str_in needle hay'
     | EmptyString => false
     end.

Definition categorize_location (loc : string) : string :=
  let loc_upper := upper loc in
  if str_in "STATION" loc_upper then "Subway/Train Station"
  else if str_in " AT " loc_upper then "Bus Stop"
  else if str_in "GO" loc_upper then "GO Transit"
  else "Other".

(** [df_copy["Location"].apply(categorize_location)] on one cell: the
    function starts with [str(loc)]. *)
Definition Location_Type (t : Trip) : string :=
  categorize_location (str_of_cell (Location t)).

(** [df_copy["Location_Type"].value_counts()] *)
Definition type_counts (df : list Trip) : list (string * Z) :=
  value_counts (map Location_Type df).

(* ================================================================== *)
(** ** pages/4 Data Explorer: the default date range                    *)
(* ================================================================== *)

(** [df["Date"].min()] and [df["Date"].max()]: missing timestamps are
    skipped; of several equal timestamps the first is kept. *)
Definition Date_min (df : list Trip) : option Timestamp :=
  match dropna (map Date df) with
  | [] => None
  | x :: xs => Some (fold_left (fun m y => if ts_key y <? ts_key m then y else m) xs x)
  end.

Definition Date_max (df : list Trip) : option Timestamp :=
  match dropna (map Date df) with
  | [] => None
  | x :: xs => Some (fold_left (fun m y => if ts_key m <? ts_key y then y else m) xs x)
  end.

(** The initial value of the date widget: [(min_date, max_date)]. *)
Definition default_date_range (df : list Trip) : option (list date) :=
  match Date_min df, Date_max df with
  | Some lo, Some hi => Some [date_of lo; date_of hi]
  | _, _ => None
  end.

Definition has_Date (t : Trip) : bool :=
  match Date t with Some _ => true | None => false end.

(* ================================================================== *)
(** ** pages/4 Data Explorer: the table view                            *)
(* ================================================================== *)

(** [dt.strftime("%Y-%m-%d %H:%M")] *)
Definition strftime (t : Timestamp) : string :=
  pad4 (year t) ++ "-" ++ pad2 (month t) ++ "-" ++ pad2 (day t)
  ++ " " ++ pad2 (hour t) ++ ":" ++ pad2 (minute t).

(** A row of [display_df]: the formatted Date (missing for a missing
    timestamp), Location, Transit Agency and Amount. *)
Record DisplayRow : Type := mkDisplay {
  disp_Date : option string;
  disp_Location : cell;
  disp_Transit_Agency : cell;
  disp_Amount : cell
}.

Definition display_row (t : Trip) : DisplayRow :=
  mkDisplay (option_map strftime (Date t)) (Location t) (Transit_Agency t) (Amount t).

(** [sort_values("Date", ascending=False)] on the formatted column:
    descending as text, missing values last.  The sort of the model keeps
    rows with the same text in their order; nothing proved below depends
    on the order of such rows. *)
Definition disp_Date_geb (a b : DisplayRow) : bool :=
  match disp_Date a, disp_Date b with
  | Some x, Some y => String.leb y x
  | _, None => true
  | None, Some _ => false
  end.

Definition display_df (filtered_df : list Trip) : list DisplayRow :=
  sort_by disp_Date_geb (map display_row filtered_df).

(** A timestamp cut to the minute, as one number. *)
Definition minute_key (t : Timestamp) : Z :=
  (((year t * 100 + month t) * 100 + day t) * 100 + hour t) * 100 + minute t.

(** [a] is not older than [b], to the minute; a row without a Date comes
    after every row with one. *)
Definition newest_first (a b : Trip) : bool :=
  match Date a, Date b with
  | Some x, Some y => minute_key y <=? minute_key x
  | _, None => true
  | None, Some _ => false
  end.

(* ================================================================== *)
(** ** transit_tool.py: [get_tap_data]                                  *)
(* ================================================================== *)

(** [Series.nunique()]: missing values are not counted. *)
Definition nunique {A : Type} (eqb : A -> A -> bool) (col : list (option A)) : Z :=
  Z.of_nat (List.length (distinct eqb (dropna col))).

(** [groupby(pd.Grouper(key="Date", freq="M"))[...].count()]: one bin per
    calendar month from the first to the last month present, empty
    months included; rows without a timestamp are left out, and a bin
    counts the values that are not NaN. *)
Definition grouper_month_count (rows : list (Timestamp * pyfloat))
  : list (Timestamp * Z) :=
  let keyed := map (fun r => (month_index (fst r), snd r)) rows in
  match list_min (map fst keyed), list_max (map fst keyed) with
  | Some lo, Some hi =>
      let bins := map (fun i => (lo + Z.of_nat i, 0))
                      (seq 0 (Z.to_nat (hi - lo + 1))) in
      let counted := map fst (filter (fun r => negb (is_nan (snd r))) keyed) in
      map (fun kv => (month_end (fst kv), snd kv))
          (fold_left (fun acc k => count_add Z.eqb k acc) counted bins)
  | _, _ => []
  end.

(** The Series drawn by the bar chart, and the number of days travelled. *)
Definition get_tap_data (df : list Trip) : list (Timestamp * Z) * Z :=
  let unique_days_travelled :=
    nunique date_eqb (map (fun t => option_map date_of (Date t)) df) in
  let counts := grouper_month_count
                  (dropna_dates (combine (map Date df) (map Amount_Clean df))) in
  (counts, unique_days_travelled).

(** The months, numbered as by [month_index], of the dated rows. *)
Definition date_months (df : list Trip) : list Z :=
  map month_index (dropna (map Date df)).

(** The number of rows of month [k] whose Amount_Clean is not NaN. *)
Definition taps_in_month (df : list Trip) (k : Z) : Z :=
  Z.of_nat (List.length
              (filter (fun t => in_month_index k t
                                && negb (is_nan (Amount_Clean t))) df)).

(* ================================================================== *)
(** ** The "days" metrics of the dashboard and of the Data Explorer     *)
(* ================================================================== *)

(** transit_tool.py: [df["Date_Only"].nunique()] *)
Definition unique_days (df : list Trip) : Z :=
  nunique date_eqb (map Date_Only df).

(** pages/4: [len(filtered_df['Date_Only'].unique())] *)
Definition date_range_days (filtered_df : list Trip) : Z :=
  Z.of_nat (List.length (distinct (cell_eqb date_eqb) (map Date_Only filtered_df))).

(* ================================================================== *)
(** ** pages/4 Data Explorer: the busiest hours of the summary          *)
(* ================================================================== *)

(** [filtered_df["Hour"].value_counts().head(5).sort_index()] *)
Definition busiest_hours (filtered_df : list Trip) : list (Z * Z) :=
  sort_by (fun a b => fst a <=? fst b)
    (firstn 5
       (sort_by (fun a b => snd b <=? snd a)
          (group_counts Z.eqb (dropna (map Hour filtered_df))))).

(** The body of the loop: the hour on a 12-hour clock and its period. *)
Definition hour_label (hour : Z) : Z * string :=
  let period := if hour <? 12 then "AM" else "PM" in
  let display_hour := if hour <=? 12 then hour else hour - 12 in
  let display_hour := if display_hour =? 0 then 12 else display_hour in
  (display_hour, period).

(** The lines written: the label of each hour with its count. *)
Definition busiest_hours_lines (filtered_df : list Trip)
  : list ((Z * string) * Z) :=
  map (fun hc => (hour_label (fst hc), snd hc)) (busiest_hours filtered_df).

(* ================================================================== *)
(** ** pages/1 Travel Patterns: the day by hour heatmap                 *)
(* ================================================================== *)

Definition key2_eqb (a b : string * Z) : bool :=
  String.eqb (fst a) (fst b) && (snd a =? snd b).

(** Order of the two-level index: by the first key, then by the second. *)
Definition key2_leb (a b : string * Z) : bool :=
  match String.compare (fst a) (fst b) with
  | Lt => true
  | Eq => snd a <=? snd b
  | Gt => false
  end.

(** A row takes part in a group only when both keys are present. *)
Fixpoint dropna_pairs (rows : list (option string * option Z)) : list (string * Z) :=
  match rows with
  | [] => []
  | (Some d, Some h) :: rows' => (d, h) :: dropna_pairs rows'
  | _ :: rows' => dropna_pairs rows'
  end.

(** [groupby([k1, k2]).size()]: the number of rows of each pair of keys
    that occurs, in index order. *)
Definition groupby2_size (rows : list (option string * option Z))
  : list ((string * Z) * Z) :=
  sort_by (fun a b => key2_leb (fst a) (fst b))
          (group_counts key2_eqb (dropna_pairs rows)).

(** A frame with labelled rows and columns. *)
Record Frame (V : Type) : Type := mkFrame {
  f_columns : list Z;
  f_rows : list (string * list V)
}.

Arguments mkFrame {V} f_columns f_rows.
Arguments f_columns {V} f.
Arguments f_rows {V} f.

(** [Series.unstack(fill_value=v)]: the first level labels the rows, the
    second the columns, both sorted; a pair that does not occur gets the
    fill value. *)
Definition unstack (fill_value : Z) (s : list ((string * Z) * Z)) : Frame Z :=
  let index := sort_by String.leb (distinct String.eqb (map (fun e => fst (fst e)) s)) in
  let columns := sort_by Z.leb (distinct Z.eqb (map (fun e => snd (fst e)) s)) in
  mkFrame columns
    (map (fun d => (d, map (fun h => match find_key key2_eqb (d, h) s with
                                     | Some n => n
                                     | None => fill_value
                                     end) columns)) index).

(** [DataFrame.reindex(index)]: a label absent from the frame gets a row
    of NaN; the counts become floats. *)
Definition reindex_rows (index : list string) (f : Frame Z) : Frame pyfloat :=
  mkFrame (f_columns f)
    (map (fun d => (d, match find_key String.eqb d (f_rows f) with
                       | Some row => map (fun n => Finite (inject_Z n)) row
                       | None => map (fun _ => NaN) (f_columns f)
                       end)) index).

(** [df.groupby(["Day_of_Week", "Hour"]).size().unstack(fill_value=0)
       .reindex(day_order)] *)
Definition heatmap_data (df : list Trip) : Frame pyfloat :=
  reindex_rows day_order
    (unstack 0 (groupby2_size (map (fun t => (Day_of_Week t, Hour t)) df))).

(** The number of rows of weekday [d] and hour [h]. *)
Definition rows_at (d : string) (h : Z) (df : list Trip) : Z :=
  Z.of_nat (List.length
              (filter (fun t => match Day_of_Week t, Hour t with
                                | Some w, Some x => String.eqb d w && (h =? x)
                                | _, _ => false
                                end) df)).

(* ================================================================== *)
(** ** pages/3 Spending Insights: cumulative spending                   *)
(* ================================================================== *)

(** [Series.cumsum()]: the running sum; a NaN cell stays NaN and is left
    out of the running sum. *)
Fixpoint cumsum_from (acc : pyfloat) (l : list pyfloat) : list pyfloat :=
  match l with
  | [] => []
  | x :: l' =>
      if is_nan x then NaN :: cumsum_from acc l'
      else fadd acc x :: cumsum_from (fadd acc x) l'
  end.

Definition cumsum (l : list pyfloat) : list pyfloat := cumsum_from fzero l.

(** [df.sort_values("Date")] with the column [Cumulative_Spending]
    beside each row. *)
Definition cumulative_spending (df : list Trip) : list (Trip * pyfloat) :=
  let df_sorted := sort_values_Date df in
  combine df_sorted (cumsum (map Amount_Clean df_sorted)).

(** [a <= b] as Python evaluates it: false when either side is NaN. *)
Definition fle (a b : pyfloat) : bool :=
  match a, b with
  | NaN, _ | _, NaN => false
  | NegInf, _ => true
  | _, PosInf => true
  | Finite x, Finite y => Qle_bool x y
  | _, _ => false
  end.

(* ================================================================== *)
(** ** pages/1 Travel Patterns: trips per month                         *)
(* ================================================================== *)

(** [df.groupby("Month").size()]: the number of rows of each Month
    label, in label order. *)
Definition monthly_trips (df : list Trip) : list (string * Z) :=
  sort_by (fun a b => String.leb (fst a) (fst b))
          (group_counts String.eqb (map Month df)).

(* ================================================================== *)
(** ** pages/2 Route Analysis: location visit history                   *)
(* ================================================================== *)

(** [dt.strftime("%Y-%m-%d")] *)
Definition strftime_day (t : Timestamp) : string :=
  pad4 (year t) ++ "-" ++ pad2 (month t) ++ "-" ++ pad2 (day t).

Record VisitStats : Type := mkVisits {
  First_Visit : option string;
  Last_Visit : option string;
  Total_Visits : Z
}.

(** [df.groupby("Location").agg({"Date": ["min", "max", "count"]})]: one
    row per Location, in label order; rows whose Location is missing
    belong to no group; the three aggregates are taken over the rows of
    the group and skip missing Dates. *)
Definition location_agg (df : list Trip)
  : list (string * (option Timestamp * option Timestamp * Z)) :=
  map (fun loc =>
         let g := filter (fun t => cell_is loc (Location t)) df in
         (loc, (Date_min g, Date_max g, dated_rows g)))
      (sort_by String.leb (distinct String.eqb (dropna (map Location df)))).

(** The table shown: the 15 locations with most dated visits, the two
    dates formatted, a missing one staying missing. *)
Definition location_stats (df : list Trip) : list (string * VisitStats) :=
  map (fun e => (fst e, mkVisits (option_map strftime_day (fst (fst (snd e))))
                                 (option_map strftime_day (snd (fst (snd e))))
                                 (snd (snd e))))
      (firstn 15
         (sort_by (fun a b => snd (snd b) <=? snd (snd a)) (location_agg df))).

(** A day as one number. *)
Definition day_key (t : Timestamp) : Z :=
  (year t * 100 + month t) * 100 + day t.

(* ================================================================== *)
(** * Properties                                                        *)
(* ================================================================== *)

(** ** Exceptions and column-wise statements *)

Lemma exn_unique (e : exn) : e = ValueError.
Proof. destruct e; reflexivity. Qed.

Lemma mapM_Forall2 {A B : Type} (f : A -> outcome B) :
  forall l l', mapM f l = Returned l' ->
               Forall2 (fun x y => f x = Returned y) l l'.
Proof.
  induction l as [|x xs IH]; intros l' H; simpl in H.
  - inversion H; constructor.
  - destruct (f x) as [y|e] eqn:Hx; simpl in H; [|discriminate].
    destruct (mapM f xs) as [ys|e] eqn:Hxs; simpl in H; [|discriminate].
    inversion H; subst. constructor; auto.
Qed.

Lemma mapM_raises {A B : Type} (f : A -> outcome B) :
  forall l x e, In x l -> f x = Raised e -> mapM f l = Raised ValueError.
Proof.
  induction l as [|y ys IH]; intros x e Hin Hx; [contradiction|].
  simpl. destruct Hin as [->|Hin].
  - rewrite Hx. simpl. now rewrite (exn_unique e).
  - destruct (f y) as [b|e'] eqn:Hy; simpl.
    + now rewrite (IH x e Hin Hx).
    + now rewrite (exn_unique e').
Qed.

Lemma Forall2_length_eq {A B : Type} (R : A -> B -> Prop) :
  forall l l', Forall2 R l l' -> List.length l' = List.length l.
Proof. induction 1; simpl; congruence. Qed.

(** ** The frame is cleaned row by row *)

Lemma clean_raw_data_rowwise :
  forall df, clean_raw_data df = mapM clean_row df.
Proof.
  unfold clean_raw_data, to_datetime, astype_float.
  induction df as [|r df IH]; [reflexivity|].
  simpl. unfold clean_row at 1.
  destruct (to_datetime_value (raw_Date r)) as [d|e]; simpl; [|reflexivity].
  rewrite <- IH.
  destruct (mapM to_datetime_value (map raw_Date df)) as [dates|e]; simpl.
  - destruct (float_of_cell (clean_amount_cell (replace_cell (raw_Amount r))))
      as [a|e]; simpl; [|reflexivity].
    destruct (mapM float_of_cell _) as [amounts|e]; simpl; reflexivity.
  - destruct (float_of_cell _) as [a|e']; simpl;
      [reflexivity | now rewrite (exn_unique e), (exn_unique e')].
Qed.

Lemma clean_raw_data_rows :
  forall df t, clean_raw_data df = Returned t ->
               Forall2 (fun r x => clean_row r = Returned x) df t.
Proof. intros df t H. rewrite clean_raw_data_rowwise in H. now apply mapM_Forall2. Qed.

(** ** Dates: [clean_raw_data] and unparseable date strings *)

Lemma to_datetime_value_Returned :
  forall s d, to_datetime_value s = Returned d ->
              (is_nat_string s = true /\ d = None)
              \/ (is_nat_string s = false /\ exists t, strptime s = Some t /\ d = Some t).
Proof.
  unfold to_datetime_value. intros s d H.
  destruct (is_nat_string s).
  - left. inversion H; auto.
  - right. split; [reflexivity|].
    destruct (strptime s) as [t|]; [|discriminate].
    exists t. inversion H; auto.
Qed.

Lemma clean_row_Date :
  forall r x, clean_row r = Returned x ->
              to_datetime_value (raw_Date r) = Returned (Date x).
Proof.
  unfold clean_row. intros r x H.
  destruct (to_datetime_value (raw_Date r)) as [d|e]; simpl in H; [|discriminate].
  destruct (float_of_cell _) as [a|e]; simpl in H; [|discriminate].
  inversion H; reflexivity.
Qed.

Lemma clean_row_bad_date :
  forall r, is_nat_string (raw_Date r) = false -> strptime (raw_Date r) = None ->
            clean_row r = Raised ValueError.
Proof.
  intros r Hn Hp. unfold clean_row, to_datetime_value. now rewrite Hn, Hp.
Qed.

(** C1 (amended).  A row whose Date string is neither empty nor one of the
    missing-value spellings ([NaT], [nan], ...) and does not match the
    format MM/DD/YYYY hh:mm:ss AM|PM makes [clean_raw_data] raise, and no
    table is returned.  When a table is returned it has one row per input
    row, and each row's Date is the parsed timestamp, or is missing when
    the Date string was empty or a missing-value spelling. *)
Theorem clean_raw_data_date_fail_fast :
  forall df,
    (forall r, In r df ->
               is_nat_string (raw_Date r) = false ->
               strptime (raw_Date r) = None ->
               clean_raw_data df = Raised ValueError)
    /\ (forall t, clean_raw_data df = Returned t ->
          List.length t = List.length df
          /\ Forall2 (fun r x =>
                        (is_nat_string (raw_Date r) = true /\ Date x = None)
                        \/ (is_nat_string (raw_Date r) = false
                            /\ exists d, strptime (raw_Date r) = Some d
                                         /\ Date x = Some d)) df t).
Proof.
  intros df. split.
  - intros r Hin Hn Hp. rewrite clean_raw_data_rowwise.
    apply (mapM_raises clean_row df r ValueError Hin).
    now apply clean_row_bad_date.
  - intros t H. apply clean_raw_data_rows in H. split.
    + exact (Forall2_length_eq _ _ _ H).
    + induction H as [|r x df' t' Hrx _ IH]; constructor; auto.
      apply to_datetime_value_Returned. now apply clean_row_Date.
Qed.

Lemma clean_raw_data_date_fail_fast_witness :
  clean_raw_data
    [mkRaw "01/05/2024 08:15:00 AM" "Zone17" "$3.25" "GO";
     mkRaw "2024-01-05 17:40" "Union Station" "-$3.25" "GO"]
  = Raised ValueError.
Proof.
  apply (proj1 (clean_raw_data_date_fail_fast _)
               (mkRaw "2024-01-05 17:40" "Union Station" "-$3.25" "GO")).
  - simpl; auto.
  - reflexivity.
  - vm_compute; reflexivity.
Defined.

(** C1 as stated fails: the Date string "NaT" does not match the format,
    yet the load succeeds and returns the row with a missing Date. *)
Lemma unparseable_date_loaded :
  strptime "NaT" = None
  /\ clean_raw_data [mkRaw "NaT" "Union Station" "$3.25" "GO"]
     = Returned [mkTrip None "Union Station" "$3.25" "GO"
                        None None "NaT" None None None (Finite (13 # 4))].
Proof. split; vm_compute; reflexivity. Qed.

(** ** Amounts: the cleaned value is never negative *)

Lemma str_replace_removes :
  forall c s, has_char c (str_replace c "" s) = false.
Proof.
  induction s as [|d s IH]; simpl; [reflexivity|].
  destruct (Ascii.eqb d c) eqn:E; simpl; [exact IH|].
  now rewrite E, IH.
Qed.

Lemma str_replace_keeps_absent :
  forall c d s, has_char c s = false -> has_char c (str_replace d "" s) = false.
Proof.
  induction s as [|e s IH]; simpl; intros H; [reflexivity|].
  apply orb_false_iff in H. destruct H as [H1 H2].
  destruct (Ascii.eqb e d); simpl; [auto|].
  now rewrite H1, IH.
Qed.

Lemma lstrip_keeps_absent :
  forall c s, has_char c s = false -> has_char c (lstrip s) = false.
Proof.
  induction s as [|e s IH]; simpl; intros H; [reflexivity|].
  apply orb_false_iff in H. destruct H as [H1 H2].
  destruct (is_space e); simpl; [auto|]. now rewrite H1, H2.
Qed.

Lemma rstrip_keeps_absent :
  forall c s, has_char c s = false -> has_char c (rstrip s) = false.
Proof.
  induction s as [|e s IH]; simpl; intros H; [reflexivity|].
  apply orb_false_iff in H. destruct H as [H1 H2].
  specialize (IH H2).
  destruct (rstrip s) as [|e' r]; simpl in *.
  - destruct (is_space e); simpl; [reflexivity|]. now rewrite H1.
  - now rewrite H1, IH.
Qed.

Lemma clean_amount_no_minus :
  forall a, has_char "-" (strip (clean_amount a)) = false.
Proof.
  intros a. unfold strip, clean_amount.
  apply rstrip_keeps_absent, lstrip_keeps_absent, str_replace_keeps_absent,
    str_replace_removes.
Qed.

Lemma is_digit_val : forall c, is_digit c = true -> 0 <= digit_val c <= 9.
Proof.
  unfold is_digit, digit_val. intros c H.
  apply andb_true_iff in H. destruct H as [H1 H2].
  apply Z.leb_le in H1, H2. lia.
Qed.

Lemma digits_more_nonneg :
  forall k s, (String.length s <= k)%nat ->
    forall acc n m n' r, digits_more acc n s = (m, n', r) -> 0 <= acc -> 0 <= m.
Proof.
  induction k as [|k IH]; intros s Hlen acc n m n' r H Hacc.
  - destruct s; simpl in Hlen; [|lia]. simpl in H. inversion H; subst; lia.
  - destruct s as [|c s]; cbn [digits_more] in H; [inversion H; subst; lia|].
    simpl in Hlen.
    destruct (is_digit c) eqn:Hc.
    + apply is_digit_val in Hc.
      apply (IH s ltac:(lia) _ _ _ _ _ H). lia.
    + destruct (Ascii.eqb c "_"); [|inversion H; subst; lia].
      destruct s as [|c' s']; [inversion H; subst; lia|].
      destruct (is_digit c') eqn:Hc'; [|inversion H; subst; lia].
      apply is_digit_val in Hc'. simpl in Hlen.
      apply (IH s' ltac:(lia) _ _ _ _ _ H). lia.
Qed.

Lemma digitpart_nonneg :
  forall acc s m n r, digitpart acc s = Some (m, n, r) -> 0 <= acc -> 0 <= m.
Proof.
  unfold digitpart. intros acc s m n r H Hacc.
  destruct s as [|c s]; [discriminate|].
  destruct (is_digit c) eqn:Hc; [|discriminate].
  apply is_digit_val in Hc.
  assert (Ha : 0 <= 10 * acc + digit_val c) by lia.
  remember (10 * acc + digit_val c) as a eqn:Ea. injection H as H'.
  exact (digits_more_nonneg (String.length s) s (le_n _) _ _ _ _ _ H' Ha).
Qed.

Lemma decimal_nonneg : forall m e, 0 <= m -> Qle_bool 0 (decimal m e) = true.
Proof.
  intros m e Hm. apply Qle_bool_iff. unfold decimal.
  rewrite Qred_correct. apply Qmult_le_0_compat.
  - unfold Qle; simpl. lia.
  - apply Qpower_0_le. unfold Qle; simpl; lia.
Qed.

Lemma unsigned_number_nonneg :
  forall s q, unsigned_number s = Some q -> Qle_bool 0 q = true.
Proof.
  unfold unsigned_number. intros s q H.
  assert (Hfin : forall mant nfrac r,
             0 <= mant ->
             match exponent r with
             | Some (e, EmptyString) => Some (decimal mant (e - nfrac))
             | _ => None
             end = Some q -> Qle_bool 0 q = true).
  { intros mant nfrac r Hm Hq.
    destruct (exponent r) as [[e [|c r']]|]; try discriminate.
    inversion Hq; subst. now apply decimal_nonneg. }
  destruct s as [|c s'].
  - simpl in H. discriminate.
  - destruct (Ascii.eqb c ".") eqn:Hdot.
    + apply Ascii.eqb_eq in Hdot; subst c.
      destruct (digitpart 0 s') as [[[m n] r]|] eqn:Hd; [|discriminate].
      apply (Hfin m n r); [|exact H].
      apply (digitpart_nonneg 0 s' m n r Hd). lia.
    + assert (H' :
        match digitpart 0 (String c s') with
        | Some (m, _, String "." r) =>
            match digitpart m r with
            | Some (m', n', r') =>
                match exponent r' with
                | Some (e, EmptyString) => Some (decimal m' (e - n'))
                | _ => None
                end
            | None =>
                match exponent r with
                | Some (e, EmptyString) => Some (decimal m (e - 0))
                | _ => None
                end
            end
        | Some (m, _, r) =>
            match exponent r with
            | Some (e, EmptyString) => Some (decimal m (e - 0))
            | _ => None
            end
        | None => None
        end = Some q).
      { destruct c as [[] [] [] [] [] [] [] []]; try exact H;
          simpl in Hdot; discriminate. }
      clear H.
      destruct (digitpart 0 (String c s')) as [[[m n] r]|] eqn:Hd; [|discriminate].
      assert (Hm : 0 <= m) by (apply (digitpart_nonneg 0 _ m n r Hd); lia).
      destruct r as [|c' r]; [apply (Hfin m 0 ""%string Hm H')|].
      destruct (Ascii.eqb c' ".") eqn:Hdot'.
      * apply Ascii.eqb_eq in Hdot'; subst c'.
        destruct (digitpart m r) as [[[m' n'] r']|] eqn:Hd'.
        -- apply (Hfin m' n' r'); [|exact H'].
           apply (digitpart_nonneg m r m' n' r' Hd' Hm).
        -- apply (Hfin m 0 r Hm H').
      * apply (Hfin m 0 (String c' r) Hm).
        destruct c' as [[] [] [] [] [] [] [] []]; try exact H';
          simpl in Hdot'; discriminate.
Qed.

Lemma unsigned_float_nonneg :
  forall s f, unsigned_float s = Some f ->
              (f = NaN /\ lower s = "nan") \/ fle0 f = true.
Proof.
  unfold unsigned_float. intros s f H.
  destruct (String.eqb (lower s) "inf" || String.eqb (lower s) "infinity").
  - inversion H; subst. now right.
  - destruct (String.eqb (lower s) "nan") eqn:E.
    + apply String.eqb_eq in E. inversion H; subst. now left.
    + destruct (unsigned_number s) as [q|] eqn:Hq; [|discriminate].
      inversion H; subst. right. simpl. now apply unsigned_number_nonneg in Hq.
Qed.

Lemma float_of_str_cases :
  forall s f, float_of_str s = Returned f ->
    (exists s', strip s = String "-" s')
    \/ unsigned_float (strip s) = Some f
    \/ (exists s', strip s = String "+" s' /\ unsigned_float s' = Some f).
Proof.
  intros s f. unfold float_of_str. cbv zeta.
  destruct (strip s) as [|c s'].
  - intros H. right; left.
    destruct (unsigned_float "") as [g|]; inversion H; reflexivity.
  - destruct c as [[] [] [] [] [] [] [] []]; cbv beta iota; intros H;
      first
        [ left; eexists; reflexivity
        | right; right; eexists; split;
          [ reflexivity
          | destruct (unsigned_float s') as [g|]; inversion H; reflexivity ]
        | right; left;
          match goal with
          | |- ?u = _ => destruct u as [g|]; inversion H; reflexivity
          end ].
Qed.

Lemma float_of_str_nonneg :
  forall s f, has_char "-" (strip s) = false ->
              float_of_str s = Returned f ->
              (f = NaN /\ spells_nan s = true) \/ fle0 f = true.
Proof.
  intros s f Hm H. unfold spells_nan. cbv zeta.
  destruct (float_of_str_cases s f H) as [[s' E]|[E|[s' [E E']]]].
  - rewrite E in Hm. simpl in Hm. discriminate.
  - destruct (unsigned_float_nonneg _ _ E) as [[-> El]|Hf]; [left|now right].
    split; [reflexivity|]. now rewrite El.
  - destruct (unsigned_float_nonneg _ _ E') as [[-> El]|Hf]; [left|now right].
    split; [reflexivity|]. rewrite E. simpl. rewrite El. reflexivity.
Qed.

Lemma clean_row_inv :
  forall r x, clean_row r = Returned x ->
    exists d a,
      to_datetime_value (raw_Date r) = Returned d
      /\ float_of_cell (clean_amount_cell (replace_cell (raw_Amount r)))
         = Returned a
      /\ x = add_columns (mkDated d (replace_cell (raw_Location r))
                                    (replace_cell (raw_Amount r))
                                    (replace_cell (raw_Transit_Agency r))) a.
Proof.
  unfold clean_row. intros r x H.
  destruct (to_datetime_value (raw_Date r)) as [d|e]; simpl in H; [|discriminate].
  destruct (float_of_cell _) as [a|e] eqn:Ha; simpl in H; [|discriminate].
  exists d, a. inversion H; auto.
Qed.

(** The cleaned amount of a cell: NaN for a missing cell, the float of
    the cleaned text otherwise. *)
Lemma float_of_clean_cell :
  forall c a, float_of_cell (clean_amount_cell c) = Returned a ->
    (c = None /\ a = NaN)
    \/ (exists s, c = Some s /\ float_of_str (clean_amount s) = Returned a).
Proof.
  intros [s|] a H; [right|left].
  - exists s. split; [reflexivity | exact H].
  - split; [reflexivity|]. inversion H; reflexivity.
Qed.

Lemma cell_amount_nonneg :
  forall c a, float_of_cell (clean_amount_cell c) = Returned a ->
    fle0 a = true
    \/ (a = NaN
        /\ (c = None
            \/ exists s, c = Some s /\ spells_nan (clean_amount s) = true)).
Proof.
  intros c a H.
  destruct (float_of_clean_cell c a H) as [[-> ->]|[s [-> Hs]]]; [right; auto|].
  destruct (float_of_str_nonneg _ a (clean_amount_no_minus _) Hs) as [[-> E]|E];
    [right|now left].
  split; [reflexivity|]. right. exists s. auto.
Qed.

Lemma replace_value_cases :
  forall v, replace_value v = v \/ In (v, replace_value v) synonyms.
Proof.
  intros v. unfold replace_value, synonyms, lookup.
  destruct (String.eqb_spec v "Zone17") as [->|_]; [right; simpl; auto|].
  destruct (String.eqb_spec v "Zone20") as [->|_]; [right; simpl; auto|].
  destruct (String.eqb_spec v "Zone27") as [->|_]; [right; simpl; auto|].
  now left.
Qed.

Lemma synonym_not_amount :
  forall k v, In (k, v) synonyms -> float_of_str (clean_amount v) = Raised ValueError.
Proof.
  intros k v H. simpl in H.
  destruct H as [H|[H|[H|[]]]]; inversion H; subst; vm_compute; reflexivity.
Qed.

(** The Amount cell of a cleaned row is the raw cell: a key of the remap
    as Amount would make the float conversion fail. *)
Lemma clean_row_Amount :
  forall r a, float_of_cell (clean_amount_cell (replace_cell (raw_Amount r)))
              = Returned a ->
              replace_cell (raw_Amount r) = raw_Amount r.
Proof.
  intros r a Ha. destruct (raw_Amount r) as [s|]; [|reflexivity].
  cbn [replace_cell option_map] in *.
  destruct (replace_value_cases s) as [E|Hin]; [now rewrite E|].
  cbn [clean_amount_cell cell_str_replace option_map float_of_cell] in Ha.
  change (str_replace "$" "" (str_replace "-" "" (replace_value s)))
    with (clean_amount (replace_value s)) in Ha.
  rewrite (synonym_not_amount _ _ Hin) in Ha. discriminate.
Qed.




(** ** The synonym remap *)

(** C10.  The remap is idempotent: a value that has been remapped is left
    unchanged by the remap, so applying it twice is the same as applying
    it once, on single values and on whole frames. *)
Theorem replace_idempotent :
  (forall v, replace_value (replace_value v) = replace_value v)
  /\ (forall df, df_replace (df_replace df) = df_replace df).
Proof.
  assert (H : forall v, replace_value (replace_value v) = replace_value v).
  { intros v. destruct (replace_value_cases v) as [E|Hin].
    - now rewrite E.
    - simpl in Hin.
      destruct Hin as [Hin|[Hin|[Hin|[]]]]; injection Hin as E1 E2;
        rewrite <- E2; reflexivity. }
  split; [exact H|].
  assert (Hc : forall c, replace_cell (replace_cell c) = replace_cell c).
  { intros [v|]; [|reflexivity]. cbn [replace_cell option_map]. now rewrite H. }
  intros df. unfold df_replace. rewrite map_map. apply map_ext.
  intros r. cbn [c_Date c_Location c_Amount c_Transit_Agency]. now rewrite !Hc.
Qed.

(** C9 (amended).  In a cleaned table every row keeps its raw Amount cell
    unchanged, while the synonym remap is applied to the Location and to
    the Transit Agency alike (a missing cell stays missing): the agency
    equals the raw value unless the raw value is exactly one of the keys
    Zone17, Zone20, Zone27, in which case it is rewritten like a
    Location. *)
Theorem clean_raw_data_frame :
  forall df t, clean_raw_data df = Returned t ->
    Forall2 (fun r x =>
               Amount x = raw_Amount r
               /\ Location x = replace_cell (raw_Location r)
               /\ Transit_Agency x = replace_cell (raw_Transit_Agency r)
               /\ ((forall k, raw_Transit_Agency r = Some k ->
                               lookup k synonyms = None) ->
                   Transit_Agency x = raw_Transit_Agency r)) df t.
Proof.
  intros df t H. apply clean_raw_data_rows in H.
  induction H as [|r x df' t' Hrx _ IH]; constructor; auto.
  destruct (clean_row_inv r x Hrx) as [d [a [_ [Ha ->]]]].
  cbn [add_columns Amount Location Transit_Agency
       c_Amount c_Location c_Transit_Agency].
  repeat split.
  - exact (clean_row_Amount r a Ha).
  - intros Hl. destruct (raw_Transit_Agency r) as [k|]; [|reflexivity].
    cbn [replace_cell option_map]. unfold replace_value.
    now rewrite (Hl k eq_refl).
Qed.

Lemma clean_raw_data_frame_witness :
  exists t,
    clean_raw_data
      [mkRaw "01/05/2024 08:15:00 AM" "Zone17" "$3.25" "GO";
       mkRaw "01/05/2024 05:40:00 PM" "Union Station" "-$3.25" "Zone20"]
    = Returned t
    /\ map Amount t = [Some "$3.25"; Some "-$3.25"]
    /\ map Location t = [Some "Aldershot GO"; Some "Union Station"]
    /\ map Transit_Agency t = [Some "GO"; Some "Square One"].
Proof.
  pose proof (clean_raw_data_frame
                [mkRaw "01/05/2024 08:15:00 AM" "Zone17" "$3.25" "GO";
                 mkRaw "01/05/2024 05:40:00 PM" "Union Station" "-$3.25" "Zone20"])
    as H.
  eexists. split; [vm_compute; reflexivity|].
  specialize (H _ eq_refl).
  inversion H as [|r1 x1 l1 l1' [A1 [L1 [T1 _]]] H' E1 E2]. subst.
  inversion H' as [|r2 x2 l2 l2' [A2 [L2 [T2 _]]] H'' E3 E4]. subst.
  repeat split; reflexivity.
Defined.

(** C9 as stated fails: a raw Transit Agency equal to the key Zone17 is
    rewritten by the frame-wide [replace]. *)
Lemma agency_remapped :
  exists x,
    clean_raw_data [mkRaw "01/05/2024 08:15:00 AM" "Union Station" "$3.25" "Zone17"]
    = Returned [x]
    /\ Transit_Agency x = "Aldershot GO"
    /\ Transit_Agency x <> "Zone17".
Proof.
  eexists. split; [vm_compute; reflexivity|].
  split; [reflexivity | discriminate].
Qed.

(** ** The end-to-end example *)

(** C4 (amended).  With the second timestamp written as a valid 12-hour
    time, "01/05/2024 05:40:00 PM", the two rows are cleaned to Locations
    "Aldershot GO" and "Union Station", Amount_Clean 3.25 and 3.25, and
    Day_of_Week "Friday" twice; the trip sequences of the resulting table
    are the single pair Aldershot GO -> Union Station, counted once. *)
Theorem end_to_end_example :
  exists t1 t2,
    clean_raw_data
      [mkRaw "01/05/2024 08:15:00 AM" "Zone17" "$3.25" "GO";
       mkRaw "01/05/2024 05:40:00 PM" "Union Station" "-$3.25" "GO"]
    = Returned [t1; t2]
    /\ Location t1 = "Aldershot GO" /\ Location t2 = "Union Station"
    /\ Amount_Clean t1 = Finite (Qred 3.25) /\ Amount_Clean t2 = Finite (Qred 3.25)
    /\ Day_of_Week t1 = Some "Friday" /\ Day_of_Week t2 = Some "Friday"
    /\ trips [t1; t2] = [arrow "Aldershot GO" "Union Station"]
    /\ trip_counts [t1; t2] = [(arrow "Aldershot GO" "Union Station", 1)].
Proof.
  do 2 eexists. split; [vm_compute; reflexivity|].
  repeat split; vm_compute; reflexivity.
Qed.

(** C4 as stated fails: "17:40:00 PM" is not a 12-hour time, the second
    Date does not match the format, and the load is rejected. *)
Lemma end_to_end_rejected :
  strptime "01/05/2024 17:40:00 PM" = None
  /\ clean_raw_data
       [mkRaw "01/05/2024 08:15:00 AM" "Zone17" "$3.25" "GO";
        mkRaw "01/05/2024 17:40:00 PM" "Union Station" "-$3.25" "GO"]
     = Raised ValueError.
Proof. split; vm_compute; reflexivity. Qed.

(** ** Sorting and counting *)

Section SortFacts.
Context {A : Type} (leb : A -> A -> bool).

Lemma insert_by_perm : forall x l, Permutation (x :: l) (insert_by leb x l).
Proof.
  induction l as [|y l IH]; simpl; [reflexivity|].
  destruct (leb x y); [reflexivity|].
  rewrite perm_swap. now apply perm_skip.
Qed.

Lemma sort_by_perm : forall l, Permutation l (sort_by leb l).
Proof.
  induction l as [|x l IH]; simpl; [reflexivity|].
  rewrite <- insert_by_perm. now apply perm_skip.
Qed.

Lemma sort_by_In : forall x l, In x (sort_by leb l) <-> In x l.
Proof.
  intros x l. split; apply Permutation_in;
    [symmetry|]; apply sort_by_perm.
Qed.

Hypothesis leb_total : forall x y, leb x y = false -> leb y x = true.

Lemma insert_by_sorted :
  forall x l, Sorted (fun a b => leb a b = true) l ->
              Sorted (fun a b => leb a b = true) (insert_by leb x l).
Proof.
  induction l as [|y l IH]; intros Hs; simpl.
  - repeat constructor.
  - destruct (leb x y) eqn:E.
    + constructor; [exact Hs|]. now constructor.
    + inversion Hs as [|? ? Hs' Hhd]; subst.
      constructor; [now apply IH|].
      destruct l as [|z l]; simpl.
      * constructor. now apply leb_total.
      * destruct (leb x z); constructor.
        -- now apply leb_total.
        -- now inversion Hhd.
Qed.

Lemma sort_by_sorted :
  forall l, Sorted (fun a b => leb a b = true) (sort_by leb l).
Proof.
  induction l as [|x l IH]; simpl; [constructor|].
  now apply insert_by_sorted.
Qed.
End SortFacts.

Lemma Date_leb_total : forall a b, Date_leb a b = false -> Date_leb b a = true.
Proof.
  unfold Date_leb. intros a b.
  destruct (Date a), (Date b); try easy.
  intros H. apply Z.leb_gt in H. apply Z.leb_le. lia.
Qed.

Lemma firstn_In {A : Type} :
  forall n (l : list A) x, In x (firstn n l) -> In x l.
Proof.
  intros n l x H. rewrite <- (firstn_skipn n l). apply in_or_app. now left.
Qed.

Lemma count_add_keys {K : Type} (eqb : K -> K -> bool) :
  forall k acc k' n,
    In (k', n) (count_add eqb k acc) ->
    k' = k \/ exists n', In (k', n') acc.
Proof.
  induction acc as [|[k0 n0] acc IH]; intros k' n H; simpl in H.
  - destruct H as [H|[]]. inversion H; auto.
  - destruct (eqb k k0).
    + destruct H as [H|H].
      * inversion H; subst. right. exists n0. now left.
      * right. exists n. now right.
    + destruct H as [H|H].
      * inversion H; subst. right. exists n. now left.
      * destruct (IH _ _ H) as [->|[n' Hn']]; [now left|].
        right. exists n'. now right.
Qed.

Lemma group_counts_keys {K : Type} (eqb : K -> K -> bool) :
  forall keys k n, In (k, n) (group_counts eqb keys) -> In k keys.
Proof.
  unfold group_counts. intros keys.
  assert (G : forall acc k n,
             In (k, n) (fold_left (fun acc k => count_add eqb k acc) keys acc) ->
             In k keys \/ exists n', In (k, n') acc).
  { induction keys as [|k0 keys IH]; intros acc k n H; simpl in H.
    - right. now exists n.
    - destruct (IH _ _ _ H) as [Hin|[n' Hn']]; [left; now right|].
      destruct (count_add_keys eqb _ _ _ _ Hn') as [->|Hacc];
        [left; now left | now right]. }
  intros k n H. destruct (G [] k n H) as [Hin|[n' []]]. exact Hin.
Qed.

Lemma value_counts_keys :
  forall keys k n, In (k, n) (value_counts keys) -> In k keys.
Proof.
  unfold value_counts. intros keys k n H.
  apply sort_by_In in H. now apply group_counts_keys in H.
Qed.

(** ** Trip sequences *)





(** C7 as stated fails: two rows of the same day whose Location field is
    empty are cleaned without error, compare as different ([nan != nan]),
    and are reported as a sequence that goes from "nan" to "nan". *)
Lemma missing_location_pair_emitted :
  exists t1 t2,
    clean_raw_data
      [mkRaw "01/05/2024 08:15:00 AM" None "$3.25" "GO";
       mkRaw "01/05/2024 05:40:00 PM" None "$3.25" "GO"]
    = Returned [t1; t2]
    /\ Location t1 = Location t2
    /\ trips [t1; t2] = [arrow "nan" "nan"]
    /\ trip_counts [t1; t2] = [(arrow "nan" "nan", 1)].
Proof.
  do 2 eexists. split; [vm_compute; reflexivity|].
  repeat split; vm_compute; reflexivity.
Qed.

(** ** The filters of the Data Explorer *)

Lemma date_leb_le : forall a b, date_leb a b = true <-> date_le a b.
Proof.
  intros a b. unfold date_leb, date_le.
  rewrite ?orb_true_iff, ?andb_true_iff, ?orb_true_iff, ?andb_true_iff,
    ?Z.ltb_lt, ?Z.eqb_eq, ?Z.leb_le.
  tauto.
Qed.



Lemma filter_all {A : Type} (l : list A) : filter (fun _ => true) l = l.
Proof. induction l as [|x l IH]; simpl; [reflexivity|now rewrite IH]. Qed.

Lemma filter_filter {A : Type} (f g : A -> bool) :
  forall l, filter g (filter f l) = filter (fun x => f x && g x) l.
Proof.
  induction l as [|x l IH]; simpl; [reflexivity|].
  destruct (f x); simpl; [|exact IH].
  destruct (g x); now rewrite IH.
Qed.

(** The filters with the modelled fragment as the library. *)
Lemma apply_filters_fragment :
  forall df date_range selected_agency location_search,
    apply_filters_with fragment_engine df date_range selected_agency
                       location_search
    = apply_filters df date_range selected_agency location_search.
Proof.
  intros df dr agency loc.
  unfold apply_filters_with, apply_filters, filter_location_with,
    filter_location, fragment_engine.
  cbv zeta. destruct (negb (String.eqb loc "")); [|reflexivity].
  destruct (re_compile loc); reflexivity.
Qed.




(** *** Search text without metacharacters *)

Lemma re_compile_literal :
  forall pat, no_special pat = true -> re_compile pat = Some (lits pat).
Proof.
  induction pat as [|c pat IH]; simpl; intros H; [reflexivity|].
  apply andb_true_iff in H. destruct H as [Hc Hp].
  apply negb_true_iff in Hc.
  assert (Hdot : Ascii.eqb c "." = false).
  { destruct (Ascii.eqb_spec c "."); [subst; discriminate | reflexivity]. }
  assert (Hbs : Ascii.eqb c "\" = false).
  { destruct (Ascii.eqb_spec c "\"); [subst; discriminate | reflexivity]. }
  rewrite Hdot, Hbs, Hc, (IH Hp). reflexivity.
Qed.

Lemma match_here_lits :
  forall pat s,
    match_here (lits pat) s = true
    <-> exists mid post, s = (mid ++ post)%string /\ lower mid = lower pat.
Proof.
  induction pat as [|c pat IH]; intros s; simpl.
  - split; [|reflexivity]. intros _. exists ""%string, s. auto.
  - destruct s as [|d s].
    + split; [discriminate|]. intros [mid [post [E L]]].
      destruct mid; simpl in *; discriminate.
    + rewrite andb_true_iff, IH, Ascii.eqb_eq. split.
      * intros [Hc [mid [post [E L]]]]. exists (String d mid), post.
        simpl. now rewrite E, L, Hc.
      * intros [mid [post [E L]]].
        destruct mid as [|d' mid]; simpl in *; [discriminate|].
        injection E as -> ->. injection L as L1 L2.
        split; [now symmetry|]. now exists mid, post.
Qed.

Lemma re_search_lits :
  forall pat s, re_search (lits pat) s = true <-> ci_substring pat s.
Proof.
  intros pat. unfold ci_substring.
  induction s as [|d s IH]; simpl; rewrite orb_true_iff, match_here_lits.
  - split.
    + intros [[mid [post [E L]]]|H]; [|discriminate].
      exists ""%string, mid, post. auto.
    + intros [pre [mid [post [E L]]]]. left.
      destruct pre; simpl in E; [|discriminate]. now exists mid, post.
  - rewrite IH. split.
    + intros [[mid [post [E L]]]|[pre [mid [post [E L]]]]].
      * exists ""%string, mid, post. auto.
      * exists (String d pre), mid, post. simpl. now rewrite E.
    + intros [pre [mid [post [E L]]]].
      destruct pre as [|d' pre]; simpl in E.
      * left. now exists mid, post.
      * right. injection E as -> ->. now exists pre, mid, post.
Qed.

(** C8 (amended).  For a search text that contains no regular-expression
    metacharacter, the filters return exactly the rows of the input, in
    order, that satisfy every active predicate: the date range inclusive
    on both ends by calendar date, the agency by equality, the Location by
    case-insensitive (ASCII) substring; with no predicate active the
    result is the input. *)
Theorem apply_filters_subset :
  forall df date_range selected_agency location_search,
    no_special location_search = true ->
    (exists f,
        (forall t, f t = true <->
                   satisfies date_range selected_agency location_search t)
        /\ apply_filters df date_range selected_agency location_search
           = Some (filter f df))
    /\ (List.length date_range <> 2%nat ->
        apply_filters df date_range "All" "" = Some df).
Proof.
  intros df dr agency loc Hns. split.
  - set (f1 := fun t : Trip =>
                 match dr with
                 | [s; e] => match option_map date_of (Date t) with
                             | Some d => date_leb s d && date_leb d e
                             | None => false
                             end
                 | _ => true
                 end).
    set (f2 := fun t : Trip =>
                 if negb (String.eqb agency "All")
                 then cell_is agency (Transit_Agency t) else true).
    set (f3 := fun t : Trip =>
                 if negb (String.eqb loc "")
                 then cell_matches (re_search (lits loc)) (Location t)
                 else true).
    exists (fun t => f1 t && (f2 t && f3 t)). split.
    + intros t. unfold satisfies.
      rewrite !andb_true_iff. unfold f1, f2, f3.
      assert (H1 : match dr with
                   | [s; e] => match option_map date_of (Date t) with
                               | Some d => date_leb s d && date_leb d e
                               | None => false
                               end
                   | _ => true
                   end = true
                   <-> (forall s e, dr = [s; e] ->
                          exists d, option_map date_of (Date t) = Some d
                                    /\ date_le s d /\ date_le d e)).
      { destruct dr as [|s [|e [|x dr]]]; try (split; [intros _ ? ? ?; discriminate | reflexivity]).
        split.
        - intros H s' e' E. injection E as <- <-.
          destruct (option_map date_of (Date t)) as [d|]; [|discriminate].
          apply andb_true_iff in H. destruct H as [Ha Hb].
          apply date_leb_le in Ha, Hb. now exists d.
        - intros H. destruct (H s e eq_refl) as [d [Ed [Ha Hb]]].
          rewrite Ed. apply andb_true_iff. split; now apply date_leb_le. }
      assert (H2 : (if negb (String.eqb agency "All")
                    then cell_is agency (Transit_Agency t) else true) = true
                   <-> (agency <> "All" -> Transit_Agency t = Some agency)).
      { destruct (String.eqb_spec agency "All") as [E|E]; cbn [negb].
        - split; [intros _ Hn; contradiction | reflexivity].
        - destruct (Transit_Agency t) as [x|]; cbn [cell_is].
          + rewrite String.eqb_eq. split.
            * intros -> _. reflexivity.
            * intros H. specialize (H E). now injection H.
          + split; [discriminate|]. intros H. specialize (H E). discriminate. }
      assert (H3 : (if negb (String.eqb loc "")
                    then cell_matches (re_search (lits loc)) (Location t)
                    else true) = true
                   <-> (loc <> "" ->
                        exists l, Location t = Some l /\ ci_substring loc l)).
      { destruct (String.eqb_spec loc "") as [E|E]; cbn [negb].
        - split; [intros _ Hn; contradiction | reflexivity].
        - destruct (Location t) as [x|]; cbn [cell_matches].
          + rewrite re_search_lits. split.
            * intros H _. now exists x.
            * intros H. destruct (H E) as [l [El Hl]]. now injection El as ->.
          + split; [discriminate|]. intros H.
            destruct (H E) as [l [El _]]. discriminate. }
      rewrite H1, H2, H3. tauto.
    + unfold apply_filters, filter_location, filter_agency, filter_dates.
      cbv zeta. rewrite (re_compile_literal loc Hns).
      assert (E1 : match dr with
                   | [s; e] =>
                       filter (fun t => match option_map date_of (Date t) with
                                        | Some d => date_leb s d && date_leb d e
                                        | None => false
                                        end) df
                   | _ => df
                   end = filter f1 df).
      { unfold f1. destruct dr as [|s [|e [|x dr]]];
          try (now rewrite filter_all). reflexivity. }
      rewrite E1.
      assert (E2 : (if negb (String.eqb agency "All")
                    then filter (fun t => cell_is agency (Transit_Agency t))
                                (filter f1 df)
                    else filter f1 df) = filter f2 (filter f1 df)).
      { unfold f2. destruct (negb (String.eqb agency "All"));
          [reflexivity | now rewrite filter_all]. }
      rewrite E2.
      assert (E3 : (if negb (String.eqb loc "")
                    then Some (filter (fun t => cell_matches (re_search (lits loc))
                                                             (Location t))
                                      (filter f2 (filter f1 df)))
                    else Some (filter f2 (filter f1 df)))
                   = Some (filter f3 (filter f2 (filter f1 df)))).
      { unfold f3. destruct (negb (String.eqb loc ""));
          [reflexivity | now rewrite filter_all]. }
      rewrite E3, !filter_filter. reflexivity.
  - intros Hlen. unfold apply_filters, filter_location, filter_agency, filter_dates.
    simpl. destruct dr as [|s [|e [|x dr]]]; try reflexivity.
    simpl in Hlen. contradiction.
Qed.

Lemma apply_filters_subset_witness :
  exists f,
    (forall t, f t = true <->
               satisfies [mkDate 2024 1 1; mkDate 2024 3 31] "GO" "union" t)
    /\ apply_filters sample_df [mkDate 2024 1 1; mkDate 2024 3 31] "GO" "union"
       = Some (filter f sample_df).
Proof.
  apply (proj1 (apply_filters_subset sample_df
                  [mkDate 2024 1 1; mkDate 2024 3 31] "GO" "union" eq_refl)).
Defined.

(** C8 as stated fails: the search text is a regular expression, so "."
    keeps every row although no Location of the table contains a dot. *)
Lemma dot_is_not_a_substring_search :
  sample_df <> []
  /\ apply_filters sample_df [] "All" "." = Some sample_df
  /\ (forall t, In t sample_df ->
        exists loc, Location t = Some loc /\ ~ ci_substring "." loc).
Proof.
  split; [vm_compute; discriminate|].
  split; [vm_compute; reflexivity|].
  intros t Hin. vm_compute in Hin.
  destruct Hin as [<-|[<-|[<-|[<-|[]]]]]; eexists;
    (split; [reflexivity|]); intros Hsub; apply re_search_lits in Hsub;
    vm_compute in Hsub; discriminate.
Qed.

(** ** Grouped sums *)

Section GroupFacts.
Context {K : Type} (eqb : K -> K -> bool).
Hypothesis eqb_eq : forall a b, eqb a b = true <-> a = b.

Lemma eqb_refl' : forall a, eqb a a = true.
Proof. intros a. now apply eqb_eq. Qed.

Lemma eqb_false_sym : forall a b, eqb a b = false -> eqb b a = false.
Proof.
  intros a b H. destruct (eqb b a) eqn:E; [|reflexivity].
  apply eqb_eq in E. subst. now rewrite eqb_refl' in H.
Qed.

Lemma find_group_add :
  forall k x acc k',
    find_key eqb k' (group_add eqb k x acc)
    = if eqb k' k
      then Some (nanadd (or_zero (find_key eqb k' acc)) x)
      else find_key eqb k' acc.
Proof.
  induction acc as [|[k0 v0] acc IH]; intros k'; simpl.
  - destruct (eqb k' k); reflexivity.
  - destruct (eqb k k0) eqn:E0; simpl.
    + apply eqb_eq in E0. subst k0.
      destruct (eqb k' k); reflexivity.
    + rewrite IH. destruct (eqb k' k0) eqn:E1; [|reflexivity].
      apply eqb_eq in E1. subst k'.
      now rewrite (eqb_false_sym _ _ E0).
Qed.

Lemma find_group_sums :
  forall rows init k v,
    find_key eqb k (group_sums eqb init rows) = Some v ->
    v = fold_left nanadd (group_values eqb k rows) (or_zero (find_key eqb k init)).
Proof.
  unfold group_sums, group_values.
  induction rows as [|[k0 x] rows IH]; intros init k v H; simpl in *.
  - now rewrite H.
  - rewrite (IH _ _ _ H), find_group_add.
    destruct (eqb k k0) eqn:E.
    + apply eqb_eq in E. subst k0. rewrite eqb_refl'. reflexivity.
    + now rewrite (eqb_false_sym _ _ E).
Qed.

Lemma find_key_keys {V : Type} :
  forall (l : list (K * V)) k, find_key eqb k l <> None -> In k (map fst l).
Proof.
  induction l as [|[k1 v1] l IH]; intros k H; simpl in *; [contradiction|].
  destruct (eqb k k1) eqn:E1.
  - left. symmetry. now apply eqb_eq.
  - right. now apply IH.
Qed.

Lemma keys_find_key {V : Type} :
  forall (l : list (K * V)) k,
    In k (map fst l) -> exists v, find_key eqb k l = Some v.
Proof.
  induction l as [|[k0 v0] l IH]; intros k Hin; simpl in *; [contradiction|].
  destruct (eqb k k0) eqn:E; [now exists v0|].
  destruct Hin as [->|Hin]; [now rewrite eqb_refl' in E | now apply IH].
Qed.

Lemma find_group_sums_total :
  forall rows init k,
    In k (map fst init) \/ In k (map fst rows) ->
    exists v, find_key eqb k (group_sums eqb init rows) = Some v.
Proof.
  unfold group_sums.
  induction rows as [|[k0 x] rows IH]; intros init k H; simpl.
  - destruct H as [H|[]]. now apply keys_find_key.
  - apply IH. simpl in H.
    destruct (eqb k k0) eqn:E.
    + left. apply find_key_keys. rewrite find_group_add, E. discriminate.
    + destruct H as [H|[H|H]].
      * left. destruct (keys_find_key _ _ H) as [v Hv].
        apply find_key_keys. rewrite find_group_add, E, Hv. discriminate.
      * subst. now rewrite eqb_refl' in E.
      * now right.
Qed.

Lemma group_add_keys :
  forall k x acc k', In k' (map fst (group_add eqb k x acc)) ->
                     k' = k \/ In k' (map fst acc).
Proof.
  induction acc as [|[k0 v0] acc IH]; intros k' H; simpl in *.
  - destruct H as [<-|[]]. now left.
  - destruct (eqb k k0); simpl in H.
    + now right.
    + destruct H as [H|H]; [right; now left|].
      destruct (IH _ H); [now left | right; now right].
Qed.

Lemma group_sums_keys :
  forall rows init k, In k (map fst (group_sums eqb init rows)) ->
                      In k (map fst init) \/ In k (map fst rows).
Proof.
  unfold group_sums.
  induction rows as [|[k0 x] rows IH]; intros init k H; simpl in *; [now left|].
  destruct (IH _ _ H) as [H'|H']; [|right; now right].
  destruct (group_add_keys _ _ _ _ H') as [->|H'']; [right; now left | now left].
Qed.

Lemma group_add_NoDup :
  forall k x acc, NoDup (map fst acc) -> NoDup (map fst (group_add eqb k x acc)).
Proof.
  induction acc as [|[k0 v0] acc IH]; intros H; simpl.
  - constructor; [intros []|constructor].
  - inversion H as [|? ? Hnin Hnd]; subst.
    destruct (eqb k k0) eqn:E; simpl.
    + now constructor.
    + constructor; [|now apply IH].
      intros Hin. destruct (group_add_keys _ _ _ _ Hin) as [->|Hin'].
      * now rewrite eqb_refl' in E.
      * contradiction.
Qed.

Lemma group_sums_NoDup :
  forall rows init, NoDup (map fst init) ->
                    NoDup (map fst (group_sums eqb init rows)).
Proof.
  unfold group_sums.
  induction rows as [|[k0 x] rows IH]; intros init H; simpl; [exact H|].
  now apply IH, group_add_NoDup.
Qed.

Lemma In_find_key {V : Type} :
  forall (l : list (K * V)) k v,
    NoDup (map fst l) -> In (k, v) l -> find_key eqb k l = Some v.
Proof.
  induction l as [|[k0 v0] l IH]; intros k v Hnd Hin; simpl in *; [contradiction|].
  inversion Hnd as [|? ? Hnin Hnd']; subst.
  destruct Hin as [Hin|Hin].
  - inversion Hin; subst. now rewrite eqb_refl'.
  - destruct (eqb k k0) eqn:E; [|now apply IH].
    apply eqb_eq in E. subst k0. exfalso. apply Hnin.
    apply (in_map fst) in Hin. exact Hin.
Qed.

Lemma find_key_None {V : Type} :
  forall (l : list (K * V)) k, ~ In k (map fst l) -> find_key eqb k l = None.
Proof.
  induction l as [|[k0 v0] l IH]; intros k H; simpl in *; [reflexivity|].
  destruct (eqb k k0) eqn:E.
  - apply eqb_eq in E. subst. exfalso. apply H. now left.
  - apply IH. intros Hin. apply H. now right.
Qed.

Lemma find_key_In {V : Type} :
  forall (l : list (K * V)) k v, find_key eqb k l = Some v -> In (k, v) l.
Proof.
  induction l as [|[k0 v0] l IH]; intros k v H; simpl in *; [discriminate|].
  destruct (eqb k k0) eqn:E.
  - apply eqb_eq in E. inversion H; subst. now left.
  - right. now apply IH.
Qed.
End GroupFacts.

Lemma string_eqb_eq : forall a b : string, String.eqb a b = true <-> a = b.
Proof. exact String.eqb_eq. Qed.

Lemma dropna_keys_In {V : Type} :
  forall (rows : list (option string * V)) k,
    In k (map fst (dropna_keys rows)) -> In (Some k) (map fst rows).
Proof.
  induction rows as [|[[k0|] v0] rows IH]; intros k H; simpl in *.
  - contradiction.
  - destruct H as [->|H]; [now left | right; now apply IH].
  - right. now apply IH.
Qed.

Lemma groupby_sum_keys :
  forall rows k, In k (map fst (groupby_sum rows)) -> In k (map fst rows).
Proof.
  unfold groupby_sum. intros rows k H.
  apply (Permutation_in k
           (Permutation_sym (Permutation_map fst (sort_by_perm _ _)))) in H.
  destruct (group_sums_keys String.eqb _ _ _ H) as [[]|H']. exact H'.
Qed.

Lemma reindex_missing :
  forall index s k, In k index -> ~ In k (map fst s) -> In (k, NaN) (reindex index s).
Proof.
  intros index s k Hin Hn. unfold reindex. apply in_map_iff.
  exists k. split; [|exact Hin].
  now rewrite (find_key_None String.eqb string_eqb_eq s k Hn).
Qed.

(** ** Sums and counts over the seven weekdays *)

(** C6, the defect.  The spending per weekday always has the seven
    entries Monday to Sunday, but a weekday on which the table has no trip
    gets NaN, not 0: the zero fill that [day_counts] applies is missing
    from [day_spending]. *)
Theorem day_spending_missing_weekday :
  forall df w,
    In w day_order ->
    (forall t, In t df -> Day_of_Week t <> Some w) ->
    map fst (day_spending df) = day_order
    /\ In (w, NaN) (day_spending df).
Proof.
  intros df w Hw Hnone. split.
  - unfold day_spending, reindex. rewrite map_map. simpl. reflexivity.
  - unfold day_spending. apply reindex_missing; [exact Hw|].
    intros Hin. apply groupby_sum_keys, dropna_keys_In in Hin.
    rewrite map_map in Hin. simpl in Hin. apply in_map_iff in Hin.
    destruct Hin as [t [Ht Hin]]. exact (Hnone t Hin Ht).
Qed.

Lemma day_spending_missing_weekday_witness :
  map fst (day_spending sample_df) = day_order
  /\ In ("Tuesday", NaN) (day_spending sample_df).
Proof.
  apply (day_spending_missing_weekday sample_df "Tuesday").
  - simpl. auto.
  - intros t Hin. vm_compute in Hin.
    destruct Hin as [<-|[<-|[<-|[<-|[]]]]]; simpl; discriminate.
Defined.

(** The count per weekday, by contrast, is filled with 0. *)
Lemma day_counts_zero_fill :
  forall df w,
    In w day_order ->
    (forall t, In t df -> Day_of_Week t <> Some w) ->
    map fst (day_counts df) = day_order
    /\ In (w, fzero) (day_counts df).
Proof.
  intros df w Hw Hnone. split.
  - unfold day_counts, fillna, reindex. rewrite !map_map. simpl. reflexivity.
  - unfold day_counts, fillna. apply in_map_iff.
    exists (w, NaN). split; [reflexivity|].
    apply reindex_missing; [exact Hw|].
    unfold count_series. rewrite map_map. simpl.
    intros Hin. apply in_map_iff in Hin. destruct Hin as [[k n] [Hk Hin]].
    simpl in Hk. subst k. apply value_counts_keys in Hin.
    apply dropna_keys_In in Hin. rewrite map_map in Hin. simpl in Hin.
    apply in_map_iff in Hin. destruct Hin as [t [Ht Hin]].
    exact (Hnone t Hin Ht).
Qed.

(** ** Parsed timestamps are calendar dates *)

Lemma p_bind_In {A B : Type} (p : parser A) (k : A -> parser B) :
  forall s b r, In (b, r) (p_bind p k s) ->
                exists a s', In (a, s') (p s) /\ In (b, r) (k a s').
Proof.
  unfold p_bind. intros s b r H. apply in_flat_map in H.
  destruct H as [[a s'] [H1 H2]]. now exists a, s'.
Qed.

Lemma p_ret_In {A : Type} (a : A) :
  forall s b r, In (b, r) (p_ret a s) -> b = a.
Proof. unfold p_ret. intros s b r [H|[]]. now inversion H. Qed.

Lemma p_digit_range :
  forall lo hi s v r, In (v, r) (p_digit lo hi s) -> lo <= v <= hi.
Proof.
  unfold p_digit. intros lo hi s v r H.
  apply p_bind_In in H. destruct H as [c [s' [Hc Hv]]].
  apply p_ret_In in Hv. subst v.
  unfold p_sat in Hc. destruct s as [|c0 s0]; [contradiction|].
  destruct (is_digit c0 && (lo <=? digit_val c0) && (digit_val c0 <=? hi)) eqn:E;
    [|contradiction].
  destruct Hc as [Hc|[]]. inversion Hc; subst.
  apply andb_true_iff in E. destruct E as [E E2].
  apply andb_true_iff in E. destruct E as [_ E1].
  apply Z.leb_le in E1, E2. lia.
Qed.

Lemma p_two_range :
  forall lo1 hi1 lo2 hi2 s v r,
    In (v, r) (p_two lo1 hi1 lo2 hi2 s) ->
    10 * lo1 + lo2 <= v <= 10 * hi1 + hi2.
Proof.
  unfold p_two. intros lo1 hi1 lo2 hi2 s v r H.
  apply p_bind_In in H. destruct H as [a [s1 [Ha H]]].
  apply p_bind_In in H. destruct H as [b [s2 [Hb H]]].
  apply p_ret_In in H. subst v.
  apply p_digit_range in Ha, Hb. lia.
Qed.

Lemma re_m_range : forall s v r, In (v, r) (re_m s) -> 1 <= v <= 12.
Proof.
  unfold re_m, p_alt. intros s v r H.
  apply in_app_or in H. destruct H as [H|H].
  - apply p_two_range in H. lia.
  - apply in_app_or in H. destruct H as [H|H].
    + apply p_two_range in H. lia.
    + apply p_digit_range in H. lia.
Qed.

Lemma format_regex_month :
  forall s f r, In (f, r) (format_regex s) -> 1 <= f_m f <= 12.
Proof.
  unfold format_regex. intros s f r H.
  apply p_bind_In in H. destruct H as [m [s1 [Hm H]]].
  apply re_m_range in Hm.
  repeat (apply p_bind_In in H; destruct H as (? & ? & _ & H)).
  apply p_ret_In in H. subst f. exact Hm.
Qed.

Lemma regex_match_month :
  forall s f, regex_match s = Some f -> 1 <= f_m f <= 12.
Proof.
  unfold regex_match. intros s f H.
  destruct (format_regex s) as [|[f0 r0] l] eqn:E; [discriminate|].
  destruct r0; [|discriminate]. inversion H; subst.
  apply (format_regex_month s f ""%string). rewrite E. now left.
Qed.

Lemma carry_valid :
  forall y m d H M S,
    1 <= y -> 1 <= m <= 12 ->
    1 <= year (carry y m d H M S) /\ 1 <= month (carry y m d H M S) <= 12.
Proof.
  intros y m d H M S Hy Hm. unfold carry, next_day.
  destruct (S <? 60); [simpl; lia|].
  destruct (M <? 59); [simpl; lia|].
  destruct (H <? 23); [simpl; lia|].
  destruct (d <? days_in_month y m); [simpl; lia|].
  destruct (m <? 12) eqn:E; simpl; [apply Z.ltb_lt in E|]; lia.
Qed.

Lemma strptime_valid :
  forall s t, strptime s = Some t ->
              1 <= year t <= 9999 /\ 1 <= month t <= 12.
Proof.
  unfold strptime. intros s t H.
  destruct (regex_match s) as [f|] eqn:E; [|discriminate].
  apply regex_match_month in E.
  destruct ((1 <=? f_Y f) && (f_d f <=? days_in_month (f_Y f) (f_m f))) eqn:C;
    [|discriminate].
  apply andb_true_iff in C. destruct C as [C _]. apply Z.leb_le in C.
  match type of H with
  | (if year ?c <=? 9999 then _ else _) = _ =>
      destruct (year c <=? 9999) eqn:B; [|discriminate];
      pose proof (carry_valid (f_Y f) (f_m f) (f_d f)
                    (if f_p f
                     then if f_I f =? 12 then 12 else f_I f + 12
                     else if f_I f =? 12 then 0 else f_I f)
                    (f_M f) (f_S f) C E) as V
  end.
  inversion H; subst. apply Z.leb_le in B. lia.
Qed.

(** ** The "YYYY-MM" key orders months chronologically *)

Lemma digit_char_compare :
  forall a b, 0 <= a <= 9 -> 0 <= b <= 9 ->
              Ascii.compare (digit_char a) (digit_char b) = (a ?= b).
Proof.
  intros a b Ha Hb. unfold Ascii.compare, digit_char.
  rewrite !N_ascii_embedding.
  - rewrite Z2N.inj_compare by lia. apply Z.add_compare_mono_l.
  - change 256%N with (Z.to_N 256). apply Z2N.inj_lt; lia.
  - change 256%N with (Z.to_N 256). apply Z2N.inj_lt; lia.
Qed.

Lemma digits4 :
  forall n, 0 <= n <= 9999 ->
    n = 1000 * (n / 1000 mod 10) + 100 * (n / 100 mod 10)
        + 10 * (n / 10 mod 10) + n mod 10
    /\ 0 <= n / 1000 mod 10 <= 9 /\ 0 <= n / 100 mod 10 <= 9
    /\ 0 <= n / 10 mod 10 <= 9 /\ 0 <= n mod 10 <= 9.
Proof. intros n Hn. Z.div_mod_to_equations. lia. Qed.

Lemma digits2 :
  forall n, 0 <= n <= 99 ->
    n = 10 * (n / 10 mod 10) + n mod 10
    /\ 0 <= n / 10 mod 10 <= 9 /\ 0 <= n mod 10 <= 9.
Proof. intros n Hn. Z.div_mod_to_equations. lia. Qed.

Lemma month_str_compare :
  forall a b,
    0 <= year a <= 9999 -> 0 <= month a <= 99 ->
    0 <= year b <= 9999 -> 0 <= month b <= 99 ->
    String.compare (month_str a) (month_str b)
    = (year a * 100 + month a ?= year b * 100 + month b).
Proof.
  intros a b Hya Hma Hyb Hmb.
  unfold month_str, pad4, pad2. cbn [append String.compare].
  destruct (digits4 _ Hya) as [Ea [A3 [A2 [A1 A0]]]].
  destruct (digits4 _ Hyb) as [Eb [B3 [B2 [B1 B0]]]].
  destruct (digits2 _ Hma) as [Fa [C1 C0]].
  destruct (digits2 _ Hmb) as [Fb [D1 D0]].
  rewrite !digit_char_compare by assumption.
  change (Ascii.compare "-" "-") with Eq. cbv iota.
  set (a3 := year a / 1000 mod 10) in *. set (a2 := year a / 100 mod 10) in *.
  set (a1 := year a / 10 mod 10) in *. set (a0 := year a mod 10) in *.
  set (b3 := year b / 1000 mod 10) in *. set (b2 := year b / 100 mod 10) in *.
  set (b1 := year b / 10 mod 10) in *. set (b0 := year b mod 10) in *.
  set (c1 := month a / 10 mod 10) in *. set (c0 := month a mod 10) in *.
  set (d1 := month b / 10 mod 10) in *. set (d0 := month b mod 10) in *.
  rewrite Ea, Eb, Fa, Fb.
  clearbody a3 a2 a1 a0 b3 b2 b1 b0 c1 c0 d1 d0.
  symmetry.
  destruct (Z.compare_spec a3 b3);
    [|apply Z.compare_lt_iff; lia|apply Z.compare_gt_iff; lia].
  destruct (Z.compare_spec a2 b2);
    [|apply Z.compare_lt_iff; lia|apply Z.compare_gt_iff; lia].
  destruct (Z.compare_spec a1 b1);
    [|apply Z.compare_lt_iff; lia|apply Z.compare_gt_iff; lia].
  destruct (Z.compare_spec a0 b0);
    [|apply Z.compare_lt_iff; lia|apply Z.compare_gt_iff; lia].
  destruct (Z.compare_spec c1 d1);
    [|apply Z.compare_lt_iff; lia|apply Z.compare_gt_iff; lia].
  destruct (Z.compare_spec c0 d0);
    [apply Z.compare_eq_iff|apply Z.compare_lt_iff|apply Z.compare_gt_iff]; lia.
Qed.

Lemma string_compare_refl : forall s, String.compare s s = Eq.
Proof.
  induction s as [|c s IH]; simpl; [reflexivity|].
  unfold Ascii.compare. now rewrite N.compare_refl.
Qed.

Lemma month_str_inj :
  forall a b,
    1 <= year a <= 9999 -> 1 <= month a <= 12 ->
    1 <= year b <= 9999 -> 1 <= month b <= 12 ->
    (String.eqb (month_str a) (month_str b) = true
     <-> year a = year b /\ month a = month b).
Proof.
  intros a b Hya Hma Hyb Hmb.
  pose proof (month_str_compare a b ltac:(lia) ltac:(lia) ltac:(lia) ltac:(lia)) as C.
  rewrite String.eqb_eq. split.
  - intros E. rewrite E, string_compare_refl in C.
    symmetry in C. apply Z.compare_eq_iff in C. lia.
  - intros [Ey Em]. apply String.compare_eq_iff. rewrite C.
    apply Z.compare_eq_iff. lia.
Qed.

Lemma month_str_not_NaT : forall d, 0 <= year d <= 9999 -> month_str d <> "NaT".
Proof.
  intros d Hy E. unfold month_str, pad4 in E. cbn [append] in E.
  injection E as E _. 
  destruct (digits4 _ Hy) as [_ [A3 _]].
  set (a3 := year d / 1000 mod 10) in *. clearbody a3.
  assert (Hc : a3 = 0 \/ a3 = 1 \/ a3 = 2 \/ a3 = 3 \/ a3 = 4 \/ a3 = 5
               \/ a3 = 6 \/ a3 = 7 \/ a3 = 8 \/ a3 = 9) by lia.
  repeat (destruct Hc as [Hc|Hc]; [subst a3; discriminate|]).
  subst a3; discriminate.
Qed.

(** ** Sums per month *)

Lemma clean_table_wf :
  forall raw df, clean_raw_data raw = Returned df ->
    Forall (fun t => Month t = month_of (Date t)
                     /\ (forall d, Date t = Some d ->
                                   1 <= year d <= 9999 /\ 1 <= month d <= 12)) df.
Proof.
  intros raw df H. apply clean_raw_data_rows in H.
  induction H as [|r x raw' df' Hrx _ IH]; constructor; auto.
  destruct (clean_row_inv r x Hrx) as [d [a [Hd [_ ->]]]].
  cbn [add_columns Month Date c_Date]. split; [reflexivity|].
  intros d' E. subst d.
  destruct (to_datetime_value_Returned _ _ Hd) as [[_ C]|[_ [t [Ht C]]]];
    [discriminate|].
  injection C as ->. now apply strptime_valid in Ht.
Qed.

Lemma group_values_map {K : Type} (eqb : K -> K -> bool) (key : Trip -> K) :
  forall df k,
    group_values eqb k (map (fun t => (key t, Amount_Clean t)) df)
    = map Amount_Clean (filter (fun t => eqb (key t) k) df).
Proof.
  unfold group_values. induction df as [|t df IH]; intros k; simpl; [reflexivity|].
  destruct (eqb (key t) k); simpl; now rewrite IH.
Qed.

Lemma groupby_sum_find :
  forall rows k v, In (k, v) (groupby_sum rows) ->
    v = series_sum (group_values String.eqb k rows).
Proof.
  unfold groupby_sum. intros rows k v H. apply sort_by_In in H.
  apply (In_find_key String.eqb string_eqb_eq) in H.
  - apply (find_group_sums String.eqb string_eqb_eq) in H. exact H.
  - apply (group_sums_NoDup String.eqb string_eqb_eq). constructor.
Qed.

Lemma groupby_sum_total :
  forall rows k, In k (map fst rows) -> exists v, In (k, v) (groupby_sum rows).
Proof.
  unfold groupby_sum. intros rows k H.
  destruct (find_group_sums_total String.eqb string_eqb_eq rows [] k (or_intror H))
    as [v Hv].
  exists v. apply sort_by_In.
  exact (find_key_In String.eqb string_eqb_eq _ _ _ Hv).
Qed.

Lemma monthly_spending_bucket :
  forall df k v, In (k, v) (monthly_spending df) ->
    v = series_sum (map Amount_Clean (filter (fun t => String.eqb (Month t) k) df)).
Proof.
  unfold monthly_spending. intros df k v H.
  apply groupby_sum_find in H. now rewrite group_values_map in H.
Qed.

Lemma filter_ext_In {A : Type} (f g : A -> bool) :
  forall l, (forall x, In x l -> f x = g x) -> filter f l = filter g l.
Proof.
  induction l as [|x l IH]; intros H; simpl; [reflexivity|].
  rewrite (H x (or_introl eq_refl)), IH; [reflexivity|].
  intros y Hy. apply H. now right.
Qed.

(** In a cleaned table the Month text of a dated trip selects exactly the
    trips of that calendar month. *)
Lemma month_key_selects :
  forall raw df t0 d0,
    clean_raw_data raw = Returned df -> In t0 df -> Date t0 = Some d0 ->
    filter (fun t => String.eqb (Month t) (Month t0)) df
    = filter (in_month (year d0) (month d0)) df.
Proof.
  intros raw df t0 d0 Hc Hin0 Hd0.
  pose proof (clean_table_wf raw df Hc) as W. rewrite Forall_forall in W.
  destruct (W t0 Hin0) as [M0 V0]. specialize (V0 d0 Hd0).
  apply filter_ext_In. intros t Hin.
  destruct (W t Hin) as [M V]. rewrite M, M0, Hd0. unfold in_month.
  destruct (Date t) as [d|]; cbn [month_of].
  - specialize (V d eq_refl).
    destruct (String.eqb (month_str d) (month_str d0)) eqn:E.
    + apply month_str_inj in E; lia.
    + symmetry. apply andb_false_iff.
      destruct (Z.eqb_spec (year d) (year d0)) as [Ey|]; [|now left].
      destruct (Z.eqb_spec (month d) (month d0)) as [Em|]; [|now right].
      assert (T : String.eqb (month_str d) (month_str d0) = true)
        by (apply month_str_inj; try lia; auto).
      rewrite T in E. discriminate.
  - destruct (String.eqb_spec "NaT" (month_str d0)) as [E|]; [|reflexivity].
    symmetry in E. apply month_str_not_NaT in E; [contradiction | lia].
Qed.

Lemma perm3 {A : Type} :
  forall (a b c : A) l, Permutation [a; b; c] l ->
    l = [a; b; c] \/ l = [a; c; b] \/ l = [b; a; c]
    \/ l = [b; c; a] \/ l = [c; a; b] \/ l = [c; b; a].
Proof.
  intros a b c l H.
  assert (Hin : In a l) by (apply (Permutation_in a H); now left).
  apply in_split in Hin. destruct Hin as [l1 [l2 ->]].
  apply Permutation_cons_app_inv in H.
  apply Permutation_length_2_inv in H.
  destruct l1 as [|x [|y [|z l1]]]; simpl in H;
    destruct H as [H|H]; try discriminate;
    try (injection H as <- <-); try (injection H as <- <- <-);
    subst; simpl; auto 10.
  all: destruct l2; discriminate.
Qed.

Lemma compare_Lt_facts :
  forall a b, String.compare a b = Lt ->
    String.eqb a b = false /\ String.eqb b a = false
    /\ String.leb a b = true /\ String.leb b a = false.
Proof.
  intros a b H.
  assert (Hne : a <> b).
  { intros ->. rewrite string_compare_refl in H. discriminate. }
  repeat split.
  - now apply String.eqb_neq.
  - apply String.eqb_neq. auto.
  - unfold String.leb. now rewrite H.
  - unfold String.leb. rewrite String.compare_antisym, H. reflexivity.
Qed.

Lemma groupby_sum_three :
  forall (k1 k2 k3 : string) (v1 v2 v3 : pyfloat) rows,
    String.compare k1 k2 = Lt -> String.compare k2 k3 = Lt ->
    String.compare k1 k3 = Lt ->
    Permutation [(k1, v1); (k2, v2); (k3, v3)] rows ->
    groupby_sum rows
    = [(k1, nanadd fzero v1); (k2, nanadd fzero v2); (k3, nanadd fzero v3)].
Proof.
  intros k1 k2 k3 v1 v2 v3 rows C12 C23 C13 P.
  destruct (compare_Lt_facts _ _ C12) as [E12 [E21 [L12 L21]]].
  destruct (compare_Lt_facts _ _ C23) as [E23 [E32 [L23 L32]]].
  destruct (compare_Lt_facts _ _ C13) as [E13 [E31 [L13 L31]]].
  unfold groupby_sum, group_sums.
  destruct (perm3 _ _ _ _ P) as [-> | [-> | [-> | [-> | [-> | -> ]]]]];
    repeat (progress
              (cbn [fold_left group_add fst snd sort_by fold_right insert_by];
               rewrite ?E12, ?E21, ?E13, ?E31, ?E23, ?E32,
                       ?L12, ?L21, ?L13, ?L31, ?L23, ?L32));
    reflexivity.
Qed.

Lemma month_index_compare :
  forall a b,
    1 <= year a <= 9999 -> 1 <= month a <= 12 ->
    1 <= year b <= 9999 -> 1 <= month b <= 12 ->
    month_index a < month_index b ->
    String.compare (month_str a) (month_str b) = Lt.
Proof.
  intros a b Hya Hma Hyb Hmb H. unfold month_index in H.
  rewrite month_str_compare by lia. apply Z.compare_lt_iff. lia.
Qed.

(** Three trips in three months of a cleaned table. *)
Lemma monthly_spending_three :
  forall raw df t1 t2 t3 d1 d2 d3,
    clean_raw_data raw = Returned df ->
    Permutation [t1; t2; t3] df ->
    Date t1 = Some d1 -> Date t2 = Some d2 -> Date t3 = Some d3 ->
    month_index d1 < month_index d2 -> month_index d2 < month_index d3 ->
    Amount_Clean t1 = Finite 10 -> Amount_Clean t2 = Finite 20 ->
    Amount_Clean t3 = Finite 30 ->
    monthly_spending df
    = [(month_str d1, Finite 10); (month_str d2, Finite 20);
       (month_str d3, Finite 30)].
Proof.
  intros raw df t1 t2 t3 d1 d2 d3 Hc P D1 D2 D3 I12 I23 A1 A2 A3.
  pose proof (clean_table_wf raw df Hc) as W. rewrite Forall_forall in W.
  assert (W1 := W t1 (Permutation_in _ P (or_introl eq_refl))).
  assert (W2 := W t2 (Permutation_in _ P (or_intror (or_introl eq_refl)))).
  assert (W3 := W t3 (Permutation_in _ P
                        (or_intror (or_intror (or_introl eq_refl))))).
  destruct W1 as [M1 V1], W2 as [M2 V2], W3 as [M3 V3].
  specialize (V1 d1 D1). specialize (V2 d2 D2). specialize (V3 d3 D3).
  rewrite D1 in M1. rewrite D2 in M2. rewrite D3 in M3. cbn [month_of] in *.
  unfold monthly_spending.
  rewrite (groupby_sum_three (month_str d1) (month_str d2) (month_str d3)
             (Finite 10) (Finite 20) (Finite 30)).
  - reflexivity.
  - apply month_index_compare; lia.
  - apply month_index_compare; lia.
  - apply month_index_compare; lia.
  - rewrite <- M1, <- M2, <- M3, <- A1, <- A2, <- A3.
    exact (Permutation_map (fun t => (Month t, Amount_Clean t)) P).
Qed.

(** ** The dashboard's monthly spending series *)

Lemma shift_month_index :
  forall d, month_index (shift_month d (-1)) = month_index d - 1.
Proof.
  intros d. unfold month_index, shift_month.
  cbn [year month]. cbv zeta.
  destruct (Z.eqb_spec ((month d + -1) mod 12) 0) as [E|E];
    Z.div_mod_to_equations; lia.
Qed.

Lemma month_end_index : forall k, month_index (month_end k) = k.
Proof.
  intros k. unfold month_index, month_end. cbn [year month].
  Z.div_mod_to_equations. lia.
Qed.

Lemma shifted_rows_values :
  forall df k,
    group_values Z.eqb k
      (map (fun r => (month_index (fst r), snd r))
         (dropna_dates
            (combine (map (fun t => option_map (fun d => shift_month d (-1)) (Date t)) df)
                     (map Amount_Clean df))))
    = map Amount_Clean (filter (in_month_index (k + 1)) df).
Proof.
  unfold group_values, in_month_index.
  induction df as [|t df IH]; intros k; simpl; [reflexivity|].
  destruct (Date t) as [d|]; simpl; [|apply IH].
  rewrite shift_month_index.
  destruct (Z.eqb_spec (month_index d - 1) k);
    destruct (Z.eqb_spec (month_index d) (k + 1)); try lia;
    simpl; now rewrite IH.
Qed.

Lemma shifted_rows_keys :
  forall df t d, In t df -> Date t = Some d ->
    In (month_index d - 1)
       (map fst
          (map (fun r => (month_index (fst r), snd r))
             (dropna_dates
                (combine (map (fun t => option_map (fun d => shift_month d (-1)) (Date t)) df)
                         (map Amount_Clean df))))).
Proof.
  induction df as [|t0 df IH]; intros t d Hin Hd; [contradiction|].
  simpl. destruct Hin as [->|Hin].
  - rewrite Hd. simpl. left. apply shift_month_index.
  - destruct (Date t0); simpl; [right|]; now apply (IH t d).
Qed.

Lemma empty_bins_zero :
  forall (f : nat -> Z) l k,
    or_zero (find_key Z.eqb k (map (fun i => (f i, fzero)) l)) = fzero.
Proof.
  induction l as [|i l IH]; intros k; simpl; [reflexivity|].
  destruct (k =? f i); [reflexivity | apply IH].
Qed.

Lemma bins_NoDup :
  forall lo n,
    NoDup (map fst (map (fun i => (lo + Z.of_nat i, fzero)) (seq 0 n))).
Proof.
  intros lo n. rewrite map_map. simpl.
  assert (G : forall l, NoDup l -> NoDup (map (fun i => lo + Z.of_nat i) l)).
  { induction l as [|i l IH]; intros Hnd; simpl; [constructor|].
    inversion Hnd as [|? ? Hnin Hnd']; subst. constructor; [|now apply IH].
    intros Hin. apply in_map_iff in Hin. destruct Hin as [j [Hj Hin]].
    assert (j = i) by lia. subst. contradiction. }
  apply G, seq_NoDup.
Qed.

(** The label of a bucket of the dashboard series is the end of the month
    before the month of the trips it sums. *)
Lemma get_spendings_bucket :
  forall df lbl v, In (lbl, v) (fst (get_spendings_data df)) ->
    v = series_sum (map Amount_Clean
                        (filter (in_month_index (month_index lbl + 1)) df)).
Proof.
  intros df lbl v H. unfold get_spendings_data in H. cbn [fst] in H.
  unfold grouper_month_sum in H. cbv zeta in H.
  destruct (list_min _) as [lo|]; [|contradiction].
  destruct (list_max _) as [hi|]; [|contradiction].
  apply in_map_iff in H. destruct H as [[k v'] [E H]].
  cbn [fst snd] in E. injection E as <- <-.
  apply (In_find_key Z.eqb Z.eqb_eq) in H;
    [|apply (group_sums_NoDup Z.eqb Z.eqb_eq), bins_NoDup].
  apply (find_group_sums Z.eqb Z.eqb_eq) in H.
  rewrite empty_bins_zero, shifted_rows_values in H.
  now rewrite month_end_index.
Qed.

Lemma get_spendings_total :
  forall df t d, In t df -> Date t = Some d ->
    exists lbl v, In (lbl, v) (fst (get_spendings_data df))
                  /\ month_index lbl + 1 = month_index d.
Proof.
  intros df t d Hin Hd.
  pose proof (shifted_rows_keys df t d Hin Hd) as Hk.
  unfold get_spendings_data. cbn [fst]. unfold grouper_month_sum. cbv zeta.
  set (keyed := map (fun r => (month_index (fst r), snd r)) _) in *.
  destruct (map fst keyed) as [|k0 ks] eqn:Ek; [contradiction|].
  cbn [list_min list_max].
  set (bins := map _ (seq 0 _)).
  destruct (find_group_sums_total Z.eqb Z.eqb_eq keyed bins (month_index d - 1))
    as [v Hv]; [right; rewrite Ek; exact Hk|].
  exists (month_end (month_index d - 1)), v. split.
  - apply in_map_iff. exists (month_index d - 1, v). split; [reflexivity|].
    exact (find_key_In Z.eqb Z.eqb_eq _ _ _ Hv).
  - rewrite month_end_index. lia.
Qed.

Section GroupKeys.
Context {K : Type} (eqb : K -> K -> bool).
Hypothesis eqb_eq : forall a b, eqb a b = true <-> a = b.

Lemma group_add_present :
  forall k x acc, In k (map fst acc) ->
                  map fst (group_add eqb k x acc) = map fst acc.
Proof.
  induction acc as [|[k0 v0] acc IH]; intros H; simpl in *; [contradiction|].
  destruct (eqb k k0) eqn:E; simpl; [reflexivity|].
  destruct H as [H|H].
  - subst. rewrite (eqb_refl' eqb eqb_eq) in E. discriminate.
  - now rewrite IH.
Qed.

Lemma group_sums_present :
  forall rows init,
    (forall r, In r rows -> In (fst r) (map fst init)) ->
    map fst (group_sums eqb init rows) = map fst init.
Proof.
  unfold group_sums.
  induction rows as [|[k x] rows IH]; intros init H; simpl; [reflexivity|].
  assert (Hk : In k (map fst init)) by (apply (H (k, x)); now left).
  rewrite IH.
  - now apply group_add_present.
  - intros r Hr. rewrite group_add_present by exact Hk. apply H. now right.
Qed.

Lemma values_by_key (F : K -> pyfloat) :
  forall G : list (K * pyfloat),
    (forall k v, In (k, v) G -> v = F k) ->
    map snd G = map F (map fst G).
Proof.
  induction G as [|[k v] G IH]; intros H; simpl; [reflexivity|].
  rewrite (H k v (or_introl eq_refl)), IH; [reflexivity|].
  intros k' v' Hin. apply H. now right.
Qed.
End GroupKeys.

Lemma fold_min_spec :
  forall xs x,
    In (fold_left Z.min xs x) (x :: xs)
    /\ (forall y, In y (x :: xs) -> fold_left Z.min xs x <= y).
Proof.
  induction xs as [|z xs IH]; intros x; simpl.
  - split; [now left|]. intros y [<-|[]]. lia.
  - destruct (IH (Z.min x z)) as [Hin Hle]. split.
    + destruct Hin as [Hin|Hin]; [|right; now right].
      rewrite <- Hin. destruct (Z.min_spec x z) as [[_ ->]|[_ ->]]; auto.
    + intros y Hy.
      assert (Hm : fold_left Z.min xs (Z.min x z) <= Z.min x z)
        by (apply Hle; now left).
      destruct Hy as [<-|[<-|Hy]]; [lia | lia |].
      apply Hle. now right.
Qed.

Lemma fold_max_spec :
  forall xs x,
    In (fold_left Z.max xs x) (x :: xs)
    /\ (forall y, In y (x :: xs) -> y <= fold_left Z.max xs x).
Proof.
  induction xs as [|z xs IH]; intros x; simpl.
  - split; [now left|]. intros y [<-|[]]. lia.
  - destruct (IH (Z.max x z)) as [Hin Hle]. split.
    + destruct Hin as [Hin|Hin]; [|right; now right].
      rewrite <- Hin. destruct (Z.max_spec x z) as [[_ ->]|[_ ->]]; auto.
    + intros y Hy.
      assert (Hm : Z.max x z <= fold_left Z.max xs (Z.max x z))
        by (apply Hle; now left).
      destruct Hy as [<-|[<-|Hy]]; [lia | lia |].
      apply Hle. now right.
Qed.

Lemma shifted_rows_keys_inv :
  forall df k,
    In k (map fst
            (map (fun r => (month_index (fst r), snd r))
               (dropna_dates
                  (combine (map (fun t => option_map (fun d => shift_month d (-1)) (Date t)) df)
                           (map Amount_Clean df))))) ->
    exists t d, In t df /\ Date t = Some d /\ month_index d - 1 = k.
Proof.
  induction df as [|t0 df IH]; intros k H; simpl in H; [contradiction|].
  destruct (Date t0) as [d0|] eqn:E; simpl in H.
  - destruct H as [H|H].
    + exists t0, d0. rewrite shift_month_index in H. auto with datatypes.
    + destruct (IH k H) as [t [d [Hin Hd]]]. exists t, d. auto with datatypes.
  - destruct (IH k H) as [t [d [Hin Hd]]]. exists t, d. auto with datatypes.
Qed.

(** The dashboard series, bucket by bucket: one value per calendar month
    from the first to the last month that holds a dated trip. *)
Lemma get_spendings_shape :
  forall df, exists first n,
    map snd (fst (get_spendings_data df))
    = map (fun i => month_total df (first + Z.of_nat i)) (seq 0 n)
    /\ (forall t d, In t df -> Date t = Some d ->
                    first <= month_index d < first + Z.of_nat n)
    /\ (n <> 0%nat ->
        (exists t, In t df /\ in_month_index first t = true)
        /\ (exists t, In t df
                      /\ in_month_index (first + Z.of_nat n - 1) t = true)).
Proof.
  intros df.
  pose proof (shifted_rows_keys df) as Kin.
  pose proof (shifted_rows_keys_inv df) as Kinv.
  pose proof (shifted_rows_values df) as Kval.
  unfold get_spendings_data. cbn [fst]. unfold grouper_month_sum. cbv zeta.
  set (keyed := map (fun r => (month_index (fst r), snd r)) _) in *.
  destruct (map fst keyed) as [|k0 ks] eqn:Ek.
  - exists 0, 0%nat. cbn [list_min]. split; [reflexivity|]. split.
    + intros t d Hin Hd. destruct (Kin t d Hin Hd).
    + contradiction.
  - cbn [list_min list_max].
    destruct (fold_min_spec ks k0) as [Lin Lle].
    destruct (fold_max_spec ks k0) as [Hin Hle].
    set (lo := fold_left Z.min ks k0) in *.
    set (hi := fold_left Z.max ks k0) in *.
    assert (Hlh : lo <= hi) by (apply Lle; exact Hin).
    set (n := Z.to_nat (hi - lo + 1)).
    set (bins := map (fun i => (lo + Z.of_nat i, fzero)) (seq 0 n)).
    assert (Bk : map fst bins = map (fun i => lo + Z.of_nat i) (seq 0 n)).
    { unfold bins. rewrite map_map. reflexivity. }
    assert (Gk : map fst (group_sums Z.eqb bins keyed) = map fst bins).
    { apply (group_sums_present Z.eqb Z.eqb_eq). intros r Hr.
      assert (Hr' : In (fst r) (k0 :: ks))
        by (rewrite <- Ek; now apply in_map).
      pose proof (Lle _ Hr') as B1. pose proof (Hle _ Hr') as B2.
      rewrite Bk. apply in_map_iff. exists (Z.to_nat (fst r - lo)).
      split; [lia|]. apply in_seq. unfold n. lia. }
    assert (Gv : forall k v, In (k, v) (group_sums Z.eqb bins keyed) ->
                             v = month_total df (k + 1)).
    { intros k v H.
      apply (In_find_key Z.eqb Z.eqb_eq) in H;
        [|apply (group_sums_NoDup Z.eqb Z.eqb_eq), bins_NoDup].
      apply (find_group_sums Z.eqb Z.eqb_eq) in H.
      unfold bins in H. rewrite empty_bins_zero, Kval in H. exact H. }
    exists (lo + 1), n. split; [|split; [|split]].
    + rewrite map_map. cbn [snd].
      change (map (fun x : Z * pyfloat => snd x) (group_sums Z.eqb bins keyed))
        with (map snd (group_sums Z.eqb bins keyed)).
      rewrite (values_by_key (fun k => month_total df (k + 1)) _ Gv), Gk, Bk.
      rewrite map_map. apply map_ext. intros i. f_equal. lia.
    + intros t d Ht Hd. pose proof (Kin t d Ht Hd) as Hk.
      pose proof (Lle _ Hk). pose proof (Hle _ Hk). unfold n. lia.
    + destruct (Kinv lo Lin) as [t [d [Ht [Hd Hm]]]].
      exists t. split; [exact Ht|]. unfold in_month_index. rewrite Hd.
      apply Z.eqb_eq. lia.
    + destruct (Kinv hi Hin) as [t [d [Ht [Hd Hm]]]].
      exists t. split; [exact Ht|]. unfold in_month_index. rewrite Hd.
      apply Z.eqb_eq. unfold n. lia.
Qed.

(** C2 (amended).  For a cleaned table, the per-Month grouped sum
    [monthly_spending] assigns each trip to the calendar month of its
    Date: every dated trip's month has exactly one bucket, whose value is
    the sum of Amount_Clean over exactly the trips whose Date falls in that
    calendar month, and every bucket comes from a Month value that occurs
    in the table; for three trips in three distinct months, in
    chronological order of the months, with amounts 10, 20, 30 the series
    is [10, 20, 30].  The values of the dashboard series
    [get_spendings_data] are, in chronological order, the sums of
    Amount_Clean of the calendar months from the first to the last month
    that holds a dated trip, one value per month, each summing exactly the
    trips whose Date falls in that month; a month without trips in between
    is present with value 0. *)
Theorem monthly_sum_by_calendar_month :
  forall raw df,
    clean_raw_data raw = Returned df ->
    (forall t0 d0, In t0 df -> Date t0 = Some d0 ->
       exists v,
         In (month_str d0, v) (monthly_spending df)
         /\ (forall v', In (month_str d0, v') (monthly_spending df) -> v' = v)
         /\ v = series_sum
                  (map Amount_Clean
                       (filter (in_month (year d0) (month d0)) df)))
    /\ (forall k v, In (k, v) (monthly_spending df) ->
          exists t, In t df /\ Month t = k)
    /\ (forall t1 t2 t3 d1 d2 d3,
          Permutation [t1; t2; t3] df ->
          Date t1 = Some d1 -> Date t2 = Some d2 -> Date t3 = Some d3 ->
          month_index d1 < month_index d2 -> month_index d2 < month_index d3 ->
          Amount_Clean t1 = Finite 10 -> Amount_Clean t2 = Finite 20 ->
          Amount_Clean t3 = Finite 30 ->
          monthly_spending df
          = [(month_str d1, Finite 10); (month_str d2, Finite 20);
             (month_str d3, Finite 30)])
    /\ (exists first n,
          map snd (fst (get_spendings_data df))
          = map (fun i => month_total df (first + Z.of_nat i)) (seq 0 n)
          /\ (forall t d, In t df -> Date t = Some d ->
                          first <= month_index d < first + Z.of_nat n)
          /\ (n <> 0%nat ->
              (exists t, In t df /\ in_month_index first t = true)
              /\ (exists t, In t df
                            /\ in_month_index (first + Z.of_nat n - 1) t = true))).
Proof.
  intros raw df Hc. split; [|split; [|split]].
  - intros t0 d0 Hin Hd.
    pose proof (clean_table_wf raw df Hc) as W. rewrite Forall_forall in W.
    destruct (W t0 Hin) as [M _]. rewrite Hd in M. cbn [month_of] in M.
    assert (B : forall v, In (month_str d0, v) (monthly_spending df) ->
                  v = series_sum
                        (map Amount_Clean
                             (filter (in_month (year d0) (month d0)) df))).
    { intros v Hv. apply monthly_spending_bucket in Hv.
      rewrite <- M in Hv.
      now rewrite (month_key_selects raw df t0 d0 Hc Hin Hd) in Hv. }
    destruct (groupby_sum_total
                (map (fun t => (Month t, Amount_Clean t)) df) (Month t0))
      as [v Hv].
    { rewrite map_map. cbn [fst]. now apply in_map. }
    fold (monthly_spending df) in Hv. rewrite M in Hv.
    exists v. split; [exact Hv|]. split; [|now apply B].
    intros v' Hv'. now rewrite (B v Hv), (B v' Hv').
  - intros k v H. unfold monthly_spending in H.
    apply (in_map fst) in H. apply groupby_sum_keys in H.
    rewrite map_map in H. cbn [fst] in H. apply in_map_iff in H.
    destruct H as [t [Ht Hin]]. now exists t.
  - intros. now apply (monthly_spending_three raw df t1 t2 t3).
  - apply get_spendings_shape.
Qed.

Lemma monthly_sum_by_calendar_month_witness :
  monthly_spending three_months_df
  = [("2024-01", Finite 10); ("2024-03", Finite 20); ("2024-05", Finite 30)].
Proof.
  assert (Hc : clean_raw_data
                 [mkRaw "01/15/2024 08:00:00 AM" "Union Station" "$10" "GO";
                  mkRaw "03/15/2024 08:00:00 AM" "Union Station" "$20" "GO";
                  mkRaw "05/15/2024 08:00:00 AM" "Union Station" "$30" "GO"]
               = Returned three_months_df) by (vm_compute; reflexivity).
  destruct (monthly_sum_by_calendar_month _ _ Hc) as [_ [_ [H3 _]]].
  assert (Hdf : three_months_df
                = [nth 0 three_months_df (mkTrip None "" "" "" None None "" None None None NaN);
                   nth 1 three_months_df (mkTrip None "" "" "" None None "" None None None NaN);
                   nth 2 three_months_df (mkTrip None "" "" "" None None "" None None None NaN)])
    by (vm_compute; reflexivity).
  apply (H3 _ _ _ (mkTimestamp 2024 1 15 8 0 0) (mkTimestamp 2024 3 15 8 0 0)
            (mkTimestamp 2024 5 15 8 0 0)
            ltac:(rewrite <- Hdf; apply Permutation_refl));
    vm_compute; reflexivity.
Defined.

(** C2 as stated fails on the dashboard series: for three trips in
    January, March and May with amounts 10, 20, 30 it has five buckets,
    [10, 0, 20, 0, 30]; its first bucket, labelled 2023-12-31, holds the
    10 of the January trip although no trip falls in December. *)
Lemma dashboard_series_shifted :
  fst (get_spendings_data three_months_df)
  = [(mkTimestamp 2023 12 31 0 0 0, Finite 10);
     (mkTimestamp 2024 1 31 0 0 0, Finite 0);
     (mkTimestamp 2024 2 29 0 0 0, Finite 20);
     (mkTimestamp 2024 3 31 0 0 0, Finite 0);
     (mkTimestamp 2024 4 30 0 0 0, Finite 30)]
  /\ filter (in_month 2023 12) three_months_df = []
  /\ map Amount_Clean three_months_df = [Finite 10; Finite 20; Finite 30].
Proof. repeat split; vm_compute; reflexivity. Qed.

(** ** Every parsed timestamp is a calendar date and a time of day *)

Lemma p_alt_In {A : Type} (p q : parser A) :
  forall s a r, In (a, r) (p_alt p q s) -> In (a, r) (p s) \/ In (a, r) (q s).
Proof. unfold p_alt. intros s a r H. now apply in_app_or in H. Qed.

Lemma re_d_range : forall s v r, In (v, r) (re_d s) -> 1 <= v <= 31.
Proof.
  unfold re_d. intros s v r H.
  apply p_alt_In in H. destruct H as [H|H]; [apply p_two_range in H; lia|].
  apply p_alt_In in H. destruct H as [H|H]; [apply p_two_range in H; lia|].
  apply p_alt_In in H. destruct H as [H|H]; [apply p_two_range in H; lia|].
  apply p_alt_In in H. destruct H as [H|H]; [apply p_digit_range in H; lia|].
  apply p_bind_In in H. destruct H as [u [s' [_ H]]].
  apply p_digit_range in H. lia.
Qed.

Lemma re_M_range : forall s v r, In (v, r) (re_M s) -> 0 <= v <= 59.
Proof.
  unfold re_M. intros s v r H.
  apply p_alt_In in H. destruct H as [H|H];
    [apply p_two_range in H | apply p_digit_range in H]; lia.
Qed.

Lemma re_S_range : forall s v r, In (v, r) (re_S s) -> 0 <= v <= 61.
Proof.
  unfold re_S. intros s v r H.
  apply p_alt_In in H. destruct H as [H|H]; [apply p_two_range in H; lia|].
  apply p_alt_In in H. destruct H as [H|H];
    [apply p_two_range in H | apply p_digit_range in H]; lia.
Qed.

Lemma format_regex_fields :
  forall s f r, In (f, r) (format_regex s) ->
    1 <= f_m f <= 12 /\ 1 <= f_d f <= 31 /\ 1 <= f_I f <= 12
    /\ 0 <= f_M f <= 59 /\ 0 <= f_S f <= 61.
Proof.
  unfold format_regex. intros s f r H.
  apply p_bind_In in H. destruct H as [m [s1 [Hm H]]].
  apply p_bind_In in H. destruct H as [u1 [s2 [_ H]]].
  apply p_bind_In in H. destruct H as [d [s3 [Hd H]]].
  apply p_bind_In in H. destruct H as [u2 [s4 [_ H]]].
  apply p_bind_In in H. destruct H as [Y [s5 [_ H]]].
  apply p_bind_In in H. destruct H as [u3 [s6 [_ H]]].
  apply p_bind_In in H. destruct H as [I [s7 [HI H]]].
  apply p_bind_In in H. destruct H as [u4 [s8 [_ H]]].
  apply p_bind_In in H. destruct H as [M [s9 [HM H]]].
  apply p_bind_In in H. destruct H as [u5 [s10 [_ H]]].
  apply p_bind_In in H. destruct H as [S [s11 [HS H]]].
  apply p_bind_In in H. destruct H as [u6 [s12 [_ H]]].
  apply p_bind_In in H. destruct H as [p [s13 [_ H]]].
  apply p_ret_In in H. subst f. cbn [f_m f_d f_I f_M f_S].
  apply re_m_range in Hm, HI. apply re_d_range in Hd.
  apply re_M_range in HM. apply re_S_range in HS. lia.
Qed.

Lemma days_in_month_bounds : forall y m, 28 <= days_in_month y m <= 31.
Proof.
  intros y m. unfold days_in_month.
  destruct (m =? 2); [destruct (is_leap y); lia|].
  destruct ((m =? 4) || (m =? 6) || (m =? 9) || (m =? 11)); lia.
Qed.

Lemma carry_wf :
  forall y m d H M S,
    1 <= y -> 1 <= m <= 12 -> 1 <= d <= days_in_month y m ->
    0 <= H <= 23 -> 0 <= M <= 59 -> 0 <= S <= 61 ->
    year (carry y m d H M S) <= 9999 ->
    valid_ts (carry y m d H M S).
Proof.
  intros y m d H M S Hy Hm Hd HH HM HS. unfold carry, next_day, valid_ts.
  destruct (S <? 60) eqn:E1; [apply Z.ltb_lt in E1; cbn; lia|].
  apply Z.ltb_ge in E1.
  destruct (M <? 59) eqn:E2; [apply Z.ltb_lt in E2; cbn; lia|].
  destruct (H <? 23) eqn:E3; [apply Z.ltb_lt in E3; cbn; lia|].
  destruct (d <? days_in_month y m) eqn:E4; [apply Z.ltb_lt in E4; cbn; lia|].
  destruct (m <? 12) eqn:E5; cbn; intros Hb.
  - apply Z.ltb_lt in E5. pose proof (days_in_month_bounds y (m + 1)). lia.
  - pose proof (days_in_month_bounds (y + 1) 1). lia.
Qed.

Lemma strptime_wf : forall s t, strptime s = Some t -> valid_ts t.
Proof.
  unfold strptime, regex_match. intros s t H.
  destruct (format_regex s) as [|[f r0] l] eqn:E; [discriminate|].
  destruct r0; [|discriminate].
  assert (F : In (f, ""%string) (format_regex s)) by (rewrite E; now left).
  apply format_regex_fields in F. destruct F as [Fm [Fd [FI [FM FS]]]].
  destruct ((1 <=? f_Y f) && (f_d f <=? days_in_month (f_Y f) (f_m f))) eqn:C;
    [|discriminate].
  apply andb_true_iff in C. destruct C as [C1 C2].
  apply Z.leb_le in C1, C2.
  match type of H with
  | (if year ?c <=? 9999 then _ else _) = _ =>
      destruct (year c <=? 9999) eqn:B; [|discriminate]
  end.
  apply Z.leb_le in B. injection H as <-.
  apply carry_wf; try lia; auto.
  - destruct (f_p f); destruct (f_I f =? 12) eqn:E12; try lia;
      apply Z.eqb_neq in E12; lia.
Qed.

(** The columns of a cleaned row, as functions of its Date. *)
Lemma clean_table_columns :
  forall raw df, clean_raw_data raw = Returned df ->
    Forall (fun t =>
              (forall d, Date t = Some d -> valid_ts d)
              /\ Day_of_Week t = option_map day_name (Date t)
              /\ Hour t = option_map hour (Date t)
              /\ Month t = month_of (Date t)
              /\ Week t = option_map iso_week (Date t)
              /\ Year t = option_map year (Date t)
              /\ Date_Only t = option_map date_of (Date t)) df.
Proof.
  intros raw df H. apply clean_raw_data_rows in H.
  induction H as [|r x raw' df' Hrx _ IH]; constructor; auto.
  destruct (clean_row_inv r x Hrx) as [d [a [Hd [_ ->]]]].
  cbn [add_columns Date Day_of_Week Hour Month Week Year Date_Only c_Date].
  split; [|repeat split].
  intros d' E. subst d.
  destruct (to_datetime_value_Returned _ _ Hd) as [[_ C]|[_ [t [Ht C]]]];
    [discriminate|].
  injection C as ->. now apply strptime_wf in Ht.
Qed.

Lemma day_name_cases : forall d, In (day_name d) day_order.
Proof.
  intros d. unfold day_name.
  pose proof (Z.mod_pos_bound (ymd2ord (year d) (month d) (day d) + 6) 7
                ltac:(lia)) as B.
  unfold weekday.
  set (w := (ymd2ord (year d) (month d) (day d) + 6) mod 7) in *. clearbody w.
  assert (C : w = 0 \/ w = 1 \/ w = 2 \/ w = 3 \/ w = 4 \/ w = 5 \/ w = 6) by lia.
  repeat (destruct C as [C|C]; [subst w; simpl; auto 10|]).
  subst w; simpl; auto 10.
Qed.

(** ** The day number grows with the calendar date *)

Lemma days_before_month_succ :
  forall y m, 1 <= m ->
    days_before_month y (m + 1) = days_before_month y m + days_in_month y m.
Proof.
  intros y m Hm. unfold days_before_month.
  replace (Z.to_nat (m + 1 - 1)) with (S (Z.to_nat (m - 1))) by lia.
  cbn [days_before_month_aux]. do 2 f_equal. lia.
Qed.

Lemma days_before_month_mono :
  forall y k m, 1 <= m ->
    days_before_month y m <= days_before_month y (m + Z.of_nat k).
Proof.
  induction k as [|k IH]; intros m Hm.
  - replace (m + Z.of_nat 0) with m by lia. lia.
  - replace (m + Z.of_nat (S k)) with ((m + Z.of_nat k) + 1) by lia.
    rewrite days_before_month_succ by lia.
    pose proof (days_in_month_bounds y (m + Z.of_nat k)).
    specialize (IH m Hm). lia.
Qed.

Lemma days_before_month_13 :
  forall y, days_before_month y 13 = 365 + (if is_leap y then 1 else 0).
Proof.
  intros y. unfold days_before_month.
  change (Z.to_nat (13 - 1)) with 12%nat.
  cbn [days_before_month_aux]. unfold days_in_month.
  cbn [Z.of_nat Pos.of_succ_nat Pos.succ Z.eqb Pos.eqb orb].
  destruct (is_leap y); reflexivity.
Qed.

Lemma day_of_year_bounds :
  forall y m d, 1 <= m <= 12 -> 1 <= d <= days_in_month y m ->
    1 <= days_before_month y m + d <= 365 + (if is_leap y then 1 else 0).
Proof.
  intros y m d Hm Hd. rewrite <- days_before_month_13.
  pose proof (days_before_month_mono y (Z.to_nat (m - 1)) 1 ltac:(lia)) as L.
  replace (1 + Z.of_nat (Z.to_nat (m - 1))) with m in L by lia.
  pose proof (days_before_month_mono y (Z.to_nat (12 - m)) (m + 1) ltac:(lia)) as U.
  replace (m + 1 + Z.of_nat (Z.to_nat (12 - m))) with 13 in U by lia.
  rewrite days_before_month_succ in U by lia.
  assert (Z0 : days_before_month y 1 = 0) by reflexivity.
  lia.
Qed.

Lemma days_before_year_succ :
  forall y, days_before_year (y + 1)
            = days_before_year y + 365 + (if is_leap y then 1 else 0).
Proof.
  intros y. unfold days_before_year, is_leap. cbv zeta.
  replace (y + 1 - 1) with y by lia.
  destruct (Z.eqb_spec (y mod 4) 0) as [E4|E4];
    destruct (Z.eqb_spec (y mod 100) 0) as [E100|E100];
    destruct (Z.eqb_spec (y mod 400) 0) as [E400|E400];
    cbn [andb orb negb]; Z.div_mod_to_equations; lia.
Qed.

Lemma days_before_year_mono :
  forall y1 y2, y1 <= y2 -> days_before_year y1 <= days_before_year y2.
Proof.
  intros y1 y2 H. unfold days_before_year. cbv zeta.
  Z.div_mod_to_equations. lia.
Qed.

Lemma ymd2ord_lt :
  forall y1 m1 d1 y2 m2 d2,
    1 <= m1 <= 12 -> 1 <= d1 <= days_in_month y1 m1 ->
    1 <= m2 <= 12 -> 1 <= d2 <= days_in_month y2 m2 ->
    date_lt (mkDate y1 m1 d1) (mkDate y2 m2 d2) ->
    ymd2ord y1 m1 d1 < ymd2ord y2 m2 d2.
Proof.
  intros y1 m1 d1 y2 m2 d2 Hm1 Hd1 Hm2 Hd2 H.
  unfold date_lt in H. cbn [d_year d_month d_day] in H. unfold ymd2ord.
  destruct H as [Hy|[Ey [Hm|[Em Hd]]]].
  - pose proof (day_of_year_bounds y1 m1 d1 Hm1 Hd1) as B1.
    pose proof (day_of_year_bounds y2 m2 d2 Hm2 Hd2) as B2.
    pose proof (days_before_year_succ y1) as S1.
    pose proof (days_before_year_mono (y1 + 1) y2 ltac:(lia)) as M. lia.
  - subst y2.
    pose proof (days_before_month_mono y1 (Z.to_nat (m2 - (m1 + 1))) (m1 + 1)
                  ltac:(lia)) as M.
    replace (m1 + 1 + Z.of_nat (Z.to_nat (m2 - (m1 + 1)))) with m2 in M by lia.
    rewrite days_before_month_succ in M by lia. lia.
  - subst y2 m2. lia.
Qed.

Lemma ts_key_date_le :
  forall a b, valid_ts a -> valid_ts b -> ts_key a <= ts_key b ->
              date_le (date_of a) (date_of b).
Proof.
  intros a b Va Vb H.
  destruct Va as [Ay [Am [Ad [Ah [Ami As']]]]].
  destruct Vb as [By [Bm [Bd [Bh [Bmi Bs]]]]].
  assert (T : date_le (date_of a) (date_of b) \/ date_lt (date_of b) (date_of a)).
  { unfold date_le, date_lt, date_of. cbn [d_year d_month d_day]. lia. }
  destruct T as [T|T]; [exact T|]. exfalso.
  unfold date_of in T.
  apply ymd2ord_lt in T; try lia.
  unfold ts_key in H. lia.
Qed.

Lemma isoweek1monday_spec :
  forall y, days_before_year y - 2 <= isoweek1monday y <= days_before_year y + 4
            /\ (isoweek1monday y + 6) mod 7 = 0.
Proof.
  intros y. unfold isoweek1monday. cbv zeta.
  assert (F : ymd2ord y 1 1 = days_before_year y + 1)
    by (unfold ymd2ord; change (days_before_month y 1) with 0; lia).
  rewrite F. set (b := days_before_year y). clearbody b.
  destruct (Z.ltb_spec 3 ((b + 1 + 6) mod 7)); Z.div_mod_to_equations; lia.
Qed.

Lemma iso_week_range :
  forall t, valid_ts t -> 1 <= iso_week t <= 53.
Proof.
  intros t [Hy [Hm [Hd _]]]. unfold iso_week. cbv zeta.
  pose proof (day_of_year_bounds _ _ _ Hm Hd) as B.
  pose proof (isoweek1monday_spec (year t)) as [W0 M0].
  pose proof (isoweek1monday_spec (year t - 1)) as [W1 M1].
  pose proof (isoweek1monday_spec (year t + 1)) as [W2 M2].
  pose proof (days_before_year_succ (year t)) as S0.
  pose proof (days_before_year_succ (year t - 1)) as S1.
  replace (year t - 1 + 1) with (year t) in S1 by lia.
  unfold ymd2ord.
  set (doy := days_before_month (year t) (month t) + day t) in *.
  set (b := days_before_year (year t)) in *.
  set (b1 := days_before_year (year t - 1)) in *.
  set (b2 := days_before_year (year t + 1)) in *.
  set (w0 := isoweek1monday (year t)) in *.
  set (w1 := isoweek1monday (year t - 1)) in *.
  set (w2 := isoweek1monday (year t + 1)) in *.
  replace (b + days_before_month (year t) (month t) + day t) with (b + doy)
    by (unfold doy; lia).
  clearbody doy b b1 b2 w0 w1 w2.
  destruct (is_leap (year t)), (is_leap (year t - 1));
    destruct (Z.ltb_spec ((b + doy - w0) / 7) 0);
    try (destruct (Z.leb_spec 52 ((b + doy - w0) / 7));
         destruct (Z.leb_spec w2 (b + doy)); cbn [andb]);
    Z.div_mod_to_equations; lia.
Qed.

(** ** Invariants of a cleaned table *)

(** X1.  In a table returned by [clean_raw_data], a row with a Date holds
    a real calendar date and time of day, and its derived columns agree
    with it: Day_of_Week is one of the seven English day names, Hour lies
    in 0..23, Week in 1..53, Year and Date_Only are the year and the date
    of the Date, and Month is its "YYYY-MM" text.  A row without a Date
    has every derived column missing and the Month text "NaT". *)
Theorem cleaned_rows_well_formed :
  forall raw df t,
    clean_raw_data raw = Returned df -> In t df ->
    match Date t with
    | Some d =>
        valid_ts d
        /\ (exists w, Day_of_Week t = Some w /\ In w day_order)
        /\ Hour t = Some (hour d) /\ 0 <= hour d <= 23
        /\ (exists k, Week t = Some k /\ 1 <= k <= 53)
        /\ Year t = Some (year d)
        /\ Date_Only t = Some (date_of d)
        /\ Month t = month_str d
    | None =>
        Day_of_Week t = None /\ Hour t = None /\ Week t = None
        /\ Year t = None /\ Date_Only t = None /\ Month t = "NaT"
    end.
Proof.
  intros raw df t Hc Hin.
  pose proof (clean_table_columns raw df Hc) as W. rewrite Forall_forall in W.
  destruct (W t Hin) as [V [Ed [Eh [Em [Ew [Ey Eo]]]]]].
  destruct (Date t) as [d|]; cbn [option_map month_of] in *.
  - specialize (V d eq_refl). split; [exact V|].
    split; [exists (day_name d); split; [exact Ed | apply day_name_cases]|].
    split; [exact Eh|]. split; [unfold valid_ts in V; lia|].
    split; [exists (iso_week d); split; [exact Ew | now apply iso_week_range]|].
    auto.
  - auto 10.
Qed.

Lemma cleaned_rows_well_formed_witness :
  match Date (nth 0 sample_df (mkTrip None "" "" "" None None "" None None None NaN)) with
  | Some d => Month (nth 0 sample_df (mkTrip None "" "" "" None None "" None None None NaN))
              = month_str d
  | None => True
  end.
Proof.
  pose proof (cleaned_rows_well_formed
                [mkRaw "01/05/2024 08:15:00 AM" "Zone17" "$3.25" "GO";
                 mkRaw "01/05/2024 05:40:00 PM" "Union Station" "-$3.25" "GO";
                 mkRaw "03/09/2024 09:00:00 AM" "Square One" "$10" "MiWay";
                 mkRaw "05/20/2024 07:30:00 PM" "Union Station" "$20" "TTC"]
                sample_df
                (nth 0 sample_df (mkTrip None "" "" "" None None "" None None None NaN))
                ltac:(vm_compute; reflexivity)
                ltac:(vm_compute; left; reflexivity)) as H.
  destruct (Date (nth 0 sample_df _)) as [d|]; [|exact I].
  apply H.
Defined.

(** ** Frequency counts *)

Section CountFacts.
Context {K : Type} (eqb : K -> K -> bool).
Hypothesis eqb_eq : forall a b, eqb a b = true <-> a = b.

Lemma find_count_add :
  forall k acc k',
    find_key eqb k' (count_add eqb k acc)
    = if eqb k' k
      then Some (match find_key eqb k' acc with Some n => n | None => 0 end + 1)
      else find_key eqb k' acc.
Proof.
  induction acc as [|[k0 n0] acc IH]; intros k'; simpl.
  - destruct (eqb k' k); reflexivity.
  - destruct (eqb k k0) eqn:E0; simpl.
    + apply eqb_eq in E0. subst k0. destruct (eqb k' k); reflexivity.
    + rewrite IH. destruct (eqb k' k0) eqn:E1; [|reflexivity].
      apply eqb_eq in E1. subst k'.
      now rewrite (eqb_false_sym eqb eqb_eq _ _ E0).
Qed.

Lemma count_add_keys_eq :
  forall k acc,
    map fst (count_add eqb k acc)
    = if existsb (eqb k) (map fst acc) then map fst acc else map fst acc ++ [k].
Proof.
  induction acc as [|[k0 n0] acc IH]; simpl; [reflexivity|].
  destruct (eqb k k0) eqn:E; simpl; [reflexivity|].
  rewrite IH. destruct (existsb (eqb k) (map fst acc)); reflexivity.
Qed.

Lemma count_add_NoDup :
  forall k acc, NoDup (map fst acc) -> NoDup (map fst (count_add eqb k acc)).
Proof.
  intros k acc H. rewrite count_add_keys_eq.
  destruct (existsb (eqb k) (map fst acc)) eqn:E; [exact H|].
  apply NoDup_app; [exact H | constructor; [intros []|constructor] |].
  intros x Hx [Ek|[]]. subst x.
  assert (T : existsb (eqb k) (map fst acc) = true).
  { apply existsb_exists. exists k. split; [exact Hx | now apply eqb_eq]. }
  rewrite T in E. discriminate.
Qed.

Lemma count_add_sum :
  forall k acc, sum_counts (count_add eqb k acc) = sum_counts acc + 1.
Proof.
  unfold sum_counts. induction acc as [|[k0 n0] acc IH]; simpl; [reflexivity|].
  destruct (eqb k k0); simpl; lia.
Qed.

Lemma fold_count_add :
  forall keys acc,
    let r := fold_left (fun acc k => count_add eqb k acc) keys acc in
    (NoDup (map fst acc) -> NoDup (map fst r))
    /\ sum_counts r = sum_counts acc + Z.of_nat (List.length keys)
    /\ (forall k,
          find_key eqb k r
          = match find_key eqb k acc with
            | Some n => Some (n + occurrences eqb k keys)
            | None => if existsb (eqb k) keys
                      then Some (occurrences eqb k keys) else None
            end).
Proof.
  unfold occurrences.
  induction keys as [|k0 keys IH]; intros acc; cbn zeta.
  - simpl. repeat split; auto; [lia|].
    intros k. destruct (find_key eqb k acc); [f_equal; lia | reflexivity].
  - cbn [fold_left]. destruct (IH (count_add eqb k0 acc)) as [N [S F]].
    cbn zeta in N, S, F. repeat split.
    + intros H. now apply N, count_add_NoDup.
    + rewrite S, count_add_sum. cbn [List.length]. lia.
    + intros k. rewrite F, find_count_add. cbn [filter existsb].
      destruct (eqb k k0) eqn:E; cbn [orb List.length].
      * destruct (find_key eqb k acc); f_equal; lia.
      * destruct (find_key eqb k acc); reflexivity.
Qed.

Lemma group_counts_spec :
  forall keys,
    NoDup (map fst (group_counts eqb keys))
    /\ sum_counts (group_counts eqb keys) = Z.of_nat (List.length keys)
    /\ (forall k n, In (k, n) (group_counts eqb keys)
                    <-> (In k keys /\ n = occurrences eqb k keys)).
Proof.
  intros keys. unfold group_counts.
  destruct (fold_count_add keys []) as [N [S F]]. cbn zeta in N, S, F.
  specialize (N (NoDup_nil _)).
  split; [exact N|]. split; [rewrite S; reflexivity|].
  intros k n. specialize (F k). cbn [find_key] in F. split.
  - intros Hin. apply (In_find_key eqb eqb_eq _ _ _ N) in Hin.
    rewrite F in Hin. destruct (existsb (eqb k) keys) eqn:E; [|discriminate].
    injection Hin as <-. split; [|reflexivity].
    apply existsb_exists in E. destruct E as [x [Hx Ex]].
    apply eqb_eq in Ex. now subst.
  - intros [Hin ->]. apply (find_key_In eqb eqb_eq). rewrite F.
    assert (E : existsb (eqb k) keys = true).
    { apply existsb_exists. exists k. split; [exact Hin | now apply eqb_eq]. }
    now rewrite E.
Qed.
End CountFacts.

Lemma sum_counts_perm {K : Type} :
  forall (a b : list (K * Z)), Permutation a b -> sum_counts a = sum_counts b.
Proof.
  unfold sum_counts. induction 1; simpl; lia.
Qed.

Lemma desc_transitive :
  Relations_1.Transitive (fun a b : string * Z => (snd b <=? snd a) = true).
Proof.
  intros a b c H1 H2. apply Z.leb_le in H1, H2. apply Z.leb_le. lia.
Qed.

Lemma desc_total :
  forall a b : string * Z, (snd b <=? snd a) = false -> (snd a <=? snd b) = true.
Proof. intros a b H. apply Z.leb_gt in H. apply Z.leb_le. lia. Qed.

Lemma value_counts_sorted :
  forall keys,
    StronglySorted (fun a b => (snd b <=? snd a) = true) (value_counts keys).
Proof.
  intros keys. apply Sorted_StronglySorted; [exact desc_transitive|].
  unfold value_counts. apply sort_by_sorted. exact desc_total.
Qed.

Lemma StronglySorted_app_inv {A : Type} (R : A -> A -> Prop) :
  forall l1 l2, StronglySorted R (l1 ++ l2) ->
                forall x y, In x l1 -> In y l2 -> R x y.
Proof.
  induction l1 as [|a l1 IH]; intros l2 H x y Hx Hy; [contradiction|].
  simpl in H. inversion H as [|? ? Hs Hf]; subst.
  destruct Hx as [<-|Hx].
  - rewrite Forall_forall in Hf. apply Hf. apply in_or_app. now right.
  - now apply (IH l2).
Qed.

Lemma sort_by_sorted_id {A : Type} (leb : A -> A -> bool) :
  forall l, Sorted (fun a b => leb a b = true) l -> sort_by leb l = l.
Proof.
  induction l as [|x l IH]; intros H; simpl; [reflexivity|].
  inversion H as [|? ? Hs Hh]; subst. rewrite (IH Hs).
  destruct l as [|y l]; simpl; [reflexivity|].
  inversion Hh as [|? ? Hxy]; subst. now rewrite Hxy.
Qed.

(** X3.  [value_counts] is in descending order of count, so a [head(n)]
    keeps at most [n] entries and never drops an entry with a larger
    count than one it keeps. *)
Theorem value_counts_head :
  forall col n,
    StronglySorted (fun a b => (snd b <=? snd a) = true) (value_counts col)
    /\ (List.length (firstn n (value_counts col)) <= n)%nat
    /\ (forall kept dropped,
          In kept (firstn n (value_counts col)) ->
          In dropped (skipn n (value_counts col)) ->
          snd dropped <= snd kept).
Proof.
  intros col n. split; [apply value_counts_sorted|].
  split; [apply firstn_le_length|].
  intros kept dropped Hk Hd. apply Z.leb_le.
  apply (StronglySorted_app_inv
           (fun a b : string * Z => (snd b <=? snd a) = true)
           (firstn n (value_counts col)) (skipn n (value_counts col))
           ltac:(rewrite firstn_skipn; apply value_counts_sorted)
           kept dropped Hk Hd).
Qed.

(** ** Counts per weekday and per hour *)

Section Partition.
Context {K : Type} (eqb : K -> K -> bool).
Hypothesis eqb_eq : forall a b, eqb a b = true <-> a = b.

Lemma occurrences_cons :
  forall w k keys,
    occurrences eqb w (k :: keys)
    = (if eqb w k then 1 else 0) + occurrences eqb w keys.
Proof.
  intros w k keys. unfold occurrences. cbn [filter].
  destruct (eqb w k); cbn [List.length]; lia.
Qed.

Lemma indicator_sum :
  forall (L : list K) k, NoDup L ->
    fold_right Z.add 0 (map (fun w => if eqb w k then 1 else 0) L)
    = if existsb (fun w => eqb w k) L then 1 else 0.
Proof.
  induction L as [|w L IH]; intros k Hnd; simpl; [reflexivity|].
  inversion Hnd as [|? ? Hnin Hnd']; subst. rewrite (IH k Hnd').
  destruct (eqb w k) eqn:E; cbn [orb]; [|reflexivity].
  apply eqb_eq in E. subst w.
  destruct (existsb (fun w => eqb w k) L) eqn:X; [|reflexivity].
  apply existsb_exists in X. destruct X as [x [Hx Ex]].
  apply eqb_eq in Ex. subst x. contradiction.
Qed.

Lemma occurrences_partition :
  forall (L : list K) keys, NoDup L ->
    (forall k, In k keys -> In k L) ->
    fold_right Z.add 0 (map (fun w => occurrences eqb w keys) L)
    = Z.of_nat (List.length keys).
Proof.
  intros L keys Hnd. induction keys as [|k keys IH]; intros Hin.
  - cbn [List.length]. unfold occurrences. cbn [filter List.length].
    clear. induction L as [|w L IH]; simpl in *; [reflexivity | lia].
  - assert (E : fold_right Z.add 0 (map (fun w => occurrences eqb w (k :: keys)) L)
                = fold_right Z.add 0 (map (fun w => if eqb w k then 1 else 0) L)
                  + fold_right Z.add 0 (map (fun w => occurrences eqb w keys) L)).
    { clear. induction L as [|w L IHL]; simpl; [reflexivity|].
      rewrite IHL, occurrences_cons. lia. }
    rewrite E, IH, (indicator_sum L k Hnd)
      by (intros k' Hk'; apply Hin; now right).
    assert (X : existsb (fun w => eqb w k) L = true).
    { apply existsb_exists. exists k. split; [apply Hin; now left | now apply eqb_eq]. }
    rewrite X. cbn [List.length]. lia.
Qed.

Lemma occurrences_absent :
  forall k keys, existsb (eqb k) keys = false -> occurrences eqb k keys = 0.
Proof.
  unfold occurrences. induction keys as [|x keys IH]; simpl; [reflexivity|].
  intros H. apply orb_false_iff in H. destruct H as [H1 H2].
  rewrite H1. now apply IH.
Qed.

Lemma group_counts_find :
  forall keys k,
    match find_key eqb k (group_counts eqb keys) with
    | Some n => n
    | None => 0
    end = occurrences eqb k keys.
Proof.
  intros keys k. unfold group_counts.
  destruct (fold_count_add eqb eqb_eq keys []) as [_ [_ F]]. cbn zeta in F.
  rewrite (F k). cbn [find_key].
  destruct (existsb (eqb k) keys) eqn:E; [reflexivity|].
  symmetry. now apply occurrences_absent.
Qed.

Lemma find_key_perm {V : Type} :
  forall (l l' : list (K * V)) k,
    NoDup (map fst l) -> Permutation l l' ->
    find_key eqb k l = find_key eqb k l'.
Proof.
  intros l l' k Hnd P.
  assert (Hnd' : NoDup (map fst l'))
    by exact (Permutation_NoDup (Permutation_map fst P) Hnd).
  destruct (find_key eqb k l) as [v|] eqn:E.
  - apply (find_key_In eqb eqb_eq) in E. symmetry.
    apply (In_find_key eqb eqb_eq _ _ _ Hnd'). exact (Permutation_in _ P E).
  - destruct (find_key eqb k l') as [v'|] eqn:E'; [|reflexivity].
    apply (find_key_In eqb eqb_eq) in E'.
    apply (Permutation_in _ (Permutation_sym P)) in E'.
    apply (In_find_key eqb eqb_eq _ _ _ Hnd) in E'. congruence.
Qed.
End Partition.

Lemma dropna_keys_dropna {V : Type} (v : V) :
  forall col : list (option string),
    map fst (dropna_keys (map (fun c => (c, v)) col)) = dropna col.
Proof.
  induction col as [|[k|] col IH]; simpl; [reflexivity| |exact IH].
  now rewrite IH.
Qed.

Lemma occurrences_rows_on :
  forall w df, occurrences String.eqb w (dropna (map Day_of_Week df)) = rows_on w df.
Proof.
  unfold occurrences, rows_on. intros w df. f_equal.
  induction df as [|t df IH]; simpl; [reflexivity|].
  destruct (Day_of_Week t) as [v|]; simpl; [|exact IH].
  destruct (String.eqb w v); simpl; now rewrite IH.
Qed.

Lemma Qred_inject_Z : forall c, Qred (inject_Z c) = inject_Z c.
Proof.
  intros c. unfold Qred, inject_Z.
  pose proof (Z.ggcd_gcd c 1) as G.
  pose proof (Z.ggcd_correct_divisors c 1) as D.
  destruct (Z.ggcd c 1) as [g [aa bb]]. cbn [fst] in G.
  rewrite Z.gcd_1_r in G. subst g. destruct D as [D1 D2].
  assert (Hb : bb = 1) by lia. rewrite Hb. cbn [snd Z.to_pos].
  f_equal. lia.
Qed.

Lemma sum_of_counts :
  forall (l : list Z) a,
    fold_left nanadd (map (fun n => Finite (inject_Z n)) l) (Finite (inject_Z a))
    = Finite (inject_Z (a + fold_right Z.add 0 l)).
Proof.
  induction l as [|n l IH]; intros a; simpl.
  - do 2 f_equal. lia.
  - unfold nanadd at 2. cbn [is_nan fadd].
    assert (E : Qred (inject_Z a + inject_Z n) = inject_Z (a + n)).
    { rewrite <- (Qred_inject_Z (a + n)).
      apply Qred_complete. unfold Qeq, inject_Z, Qplus. simpl. lia. }
    rewrite E, IH. do 2 f_equal. lia.
Qed.

Lemma find_key_map_values {K A B : Type} (eqb : K -> K -> bool) (g : A -> B) :
  forall (l : list (K * A)) k,
    find_key eqb k (map (fun kv => (fst kv, g (snd kv))) l)
    = option_map g (find_key eqb k l).
Proof.
  induction l as [|[k0 v0] l IH]; intros k; simpl; [reflexivity|].
  destruct (eqb k k0); [reflexivity | apply IH].
Qed.

Lemma value_counts_find :
  forall keys w,
    find_key String.eqb w (value_counts keys)
    = if existsb (String.eqb w) keys
      then Some (occurrences String.eqb w keys) else None.
Proof.
  intros keys w. unfold value_counts.
  destruct (group_counts_spec String.eqb string_eqb_eq keys) as [N _].
  rewrite <- (find_key_perm String.eqb string_eqb_eq _ _ w N
                (sort_by_perm _ _)).
  unfold group_counts.
  destruct (fold_count_add String.eqb string_eqb_eq keys []) as [_ [_ F]].
  cbn zeta in F. now rewrite (F w).
Qed.

Lemma day_counts_entries :
  forall df,
    day_counts df = map (fun w => (w, Finite (inject_Z (rows_on w df)))) day_order.
Proof.
  intros df. unfold day_counts, fillna, reindex. rewrite map_map.
  apply map_ext. intros w. cbn [fst snd]. f_equal.
  rewrite <- occurrences_rows_on.
  replace (map (fun t => (Day_of_Week t, tt)) df)
    with (map (fun c : option string => (c, tt)) (map Day_of_Week df))
    by (now rewrite map_map).
  rewrite (dropna_keys_dropna tt).
  set (keys := dropna (map Day_of_Week df)).
  unfold count_series.
  rewrite (find_key_map_values String.eqb (fun n : Z => Finite (inject_Z n))),
    value_counts_find.
  destruct (existsb (String.eqb w) keys) eqn:E; cbn [option_map is_nan].
  - reflexivity.
  - now rewrite (occurrences_absent String.eqb w keys E).
Qed.

Lemma clean_day_keys :
  forall raw df, clean_raw_data raw = Returned df ->
    (forall k, In k (dropna (map Day_of_Week df)) -> In k day_order)
    /\ Z.of_nat (List.length (dropna (map Day_of_Week df))) = dated_rows df.
Proof.
  intros raw df Hc. pose proof (clean_table_columns raw df Hc) as W.
  clear Hc. unfold dated_rows. induction W as [|t df' [_ [Ed _]] _ IH].
  - split; [intros k []|reflexivity].
  - destruct IH as [IH1 IH2]. cbn [map filter]. rewrite Ed.
    destruct (Date t) as [d|]; cbn [option_map dropna List.length].
    + split; [|lia]. intros k [<-|Hk]; [apply day_name_cases | now apply IH1].
    + split; assumption.
Qed.

Lemma clean_hour_keys :
  forall raw df, clean_raw_data raw = Returned df ->
    (forall k, In k (dropna (map Hour df)) -> In k (map Z.of_nat (seq 0 24)))
    /\ Z.of_nat (List.length (dropna (map Hour df))) = dated_rows df.
Proof.
  intros raw df Hc. pose proof (clean_table_columns raw df Hc) as W.
  clear Hc. unfold dated_rows. induction W as [|t df' [V [_ [Eh _]]] _ IH].
  - split; [intros k []|reflexivity].
  - destruct IH as [IH1 IH2]. cbn [map filter]. rewrite Eh.
    destruct (Date t) as [d|]; cbn [option_map dropna List.length].
    + split; [|lia]. intros k [<-|Hk]; [|now apply IH1].
      destruct (V d eq_refl) as [_ [_ [_ [Hh _]]]].
      apply in_map_iff. exists (Z.to_nat (hour d)).
      split; [lia|]. apply in_seq. lia.
    + split; assumption.
Qed.

Lemma day_order_NoDup : NoDup day_order.
Proof.
  unfold day_order.
  repeat (constructor;
          [simpl; intros H;
           repeat (destruct H as [H|H]; [discriminate|]); exact H|]).
  constructor.
Qed.

Lemma hours_NoDup : NoDup (map Z.of_nat (seq 0 24)).
Proof.
  assert (G : forall l, NoDup l -> NoDup (map Z.of_nat l)).
  { induction l as [|i l IH]; intros Hnd; simpl; [constructor|].
    inversion Hnd as [|? ? Hnin Hnd']; subst. constructor; [|now apply IH].
    intros Hin. apply in_map_iff in Hin. destruct Hin as [j [Hj Hin]].
    apply Nat2Z.inj in Hj. subst. contradiction. }
  apply G, seq_NoDup.
Qed.

(** X5.  The trips-per-weekday Series has the seven entries Monday to
    Sunday, in that order, each holding the number of rows of that
    weekday (0 when there is none); for a cleaned table its values add up
    to the number of rows that have a Date. *)
Theorem day_counts_per_weekday :
  forall raw df,
    clean_raw_data raw = Returned df ->
    day_counts df
    = map (fun w => (w, Finite (inject_Z (rows_on w df)))) day_order
    /\ series_sum (map snd (day_counts df)) = Finite (inject_Z (dated_rows df)).
Proof.
  intros raw df Hc. split; [apply day_counts_entries|].
  rewrite day_counts_entries. rewrite map_map. cbn [snd].
  destruct (clean_day_keys raw df Hc) as [K1 K2].
  rewrite <- K2.
  rewrite <- (occurrences_partition String.eqb string_eqb_eq day_order
                (dropna (map Day_of_Week df)) day_order_NoDup K1).
  unfold series_sum.
  change fzero with (Finite (inject_Z 0)).
  replace (map (fun w => Finite (inject_Z (rows_on w df))) day_order)
    with (map (fun n => Finite (inject_Z n))
              (map (fun w => occurrences String.eqb w (dropna (map Day_of_Week df)))
                   day_order)).
  - now rewrite sum_of_counts.
  - rewrite map_map. apply map_ext. intros w. now rewrite occurrences_rows_on.
Qed.

Lemma day_counts_per_weekday_witness :
  day_counts sample_df
  = map (fun w => (w, Finite (inject_Z (rows_on w sample_df)))) day_order
  /\ series_sum (map snd (day_counts sample_df))
     = Finite (inject_Z (dated_rows sample_df)).
Proof.
  apply (day_counts_per_weekday
           [mkRaw "01/05/2024 08:15:00 AM" "Zone17" "$3.25" "GO";
            mkRaw "01/05/2024 05:40:00 PM" "Union Station" "-$3.25" "GO";
            mkRaw "03/09/2024 09:00:00 AM" "Square One" "$10" "MiWay";
            mkRaw "05/20/2024 07:30:00 PM" "Union Station" "$20" "TTC"]).
  vm_compute. reflexivity.
Defined.

Lemma weekday_flags :
  forall w, In w day_order ->
    (isin weekdays (Some w) = true /\ String.eqb "Saturday" w = false
     /\ String.eqb "Sunday" w = false)
    \/ (isin weekdays (Some w) = false /\ String.eqb "Saturday" w = true
        /\ String.eqb "Sunday" w = false)
    \/ (isin weekdays (Some w) = false /\ String.eqb "Saturday" w = false
        /\ String.eqb "Sunday" w = true).
Proof.
  intros w H. simpl in H.
  destruct H as [<-|[<-|[<-|[<-|[<-|[<-|[<-|[]]]]]]]]; vm_compute; auto.
Qed.

(** X6.  The weekend slice of the pie chart is every row that is not a
    Monday-to-Friday row: for a cleaned table it counts the Saturday rows,
    the Sunday rows and also the rows without a Date. *)
Theorem weekend_trips_counts :
  forall raw df,
    clean_raw_data raw = Returned df ->
    weekend_trips df
    = rows_on "Saturday" df + rows_on "Sunday" df + undated_rows df.
Proof.
  intros raw df Hc. pose proof (clean_table_columns raw df Hc) as W.
  clear Hc. unfold weekend_trips, weekday_trips, rows_on, undated_rows.
  induction W as [|t df' [_ [Ed _]] _ IH]; [reflexivity|].
  cbn [filter List.length]. rewrite Ed.
  destruct (Date t) as [d|]; cbn [option_map isin].
  - destruct (weekday_flags (day_name d) (day_name_cases d))
      as [[F1 [F2 F3]]|[[F1 [F2 F3]]|[F1 [F2 F3]]]];
      cbn [isin] in F1; rewrite F1, F2, F3; cbn [List.length]; lia.
  - cbn [List.length]. lia.
Qed.

Lemma weekend_trips_counts_witness :
  weekend_trips sample_df
  = rows_on "Saturday" sample_df + rows_on "Sunday" sample_df
    + undated_rows sample_df.
Proof.
  apply (weekend_trips_counts
           [mkRaw "01/05/2024 08:15:00 AM" "Zone17" "$3.25" "GO";
            mkRaw "01/05/2024 05:40:00 PM" "Union Station" "-$3.25" "GO";
            mkRaw "03/09/2024 09:00:00 AM" "Square One" "$10" "MiWay";
            mkRaw "05/20/2024 07:30:00 PM" "Union Station" "$20" "TTC"]).
  vm_compute. reflexivity.
Defined.

Lemma occurrences_rows_between :
  forall h df, occurrences Z.eqb h (dropna (map Hour df)) = rows_between h h df.
Proof.
  unfold occurrences, rows_between. intros h df. f_equal.
  induction df as [|t df IH]; [reflexivity|].
  cbn [map filter]. destruct (Hour t) as [x|]; cbn [dropna filter]; [|exact IH].
  destruct (Z.eqb_spec h x); destruct (Z.leb_spec h x);
    destruct (Z.leb_spec x h); try lia; cbn [andb List.length]; now rewrite IH.
Qed.

Lemma rows_between_split :
  forall lo mid hi df, lo <= mid -> mid < hi ->
    rows_between lo hi df = rows_between lo mid df + rows_between (mid + 1) hi df.
Proof.
  intros lo mid hi df H1 H2. unfold rows_between.
  induction df as [|t df IH]; [reflexivity|].
  cbn [filter]. destruct (Hour t) as [x|]; [|exact IH].
  destruct (Z.leb_spec lo x); destruct (Z.leb_spec x hi);
    destruct (Z.leb_spec x mid); destruct (Z.leb_spec (mid + 1) x);
    try lia; cbn [andb List.length]; lia.
Qed.

Lemma all_hours_entries :
  forall df,
    all_hours df = map (fun h => (h, rows_between h h df)) (map Z.of_nat (seq 0 24)).
Proof.
  intros df. unfold all_hours. apply map_ext. intros h. f_equal.
  unfold hour_counts.
  destruct (group_counts_spec Z.eqb Z.eqb_eq (dropna (map Hour df))) as [N _].
  pose proof (sort_by_perm (fun a b : Z * Z => snd b <=? snd a)
                (group_counts Z.eqb (dropna (map Hour df)))) as P1.
  pose proof (Permutation_NoDup (Permutation_map fst P1) N) as N1.
  rewrite <- (find_key_perm Z.eqb Z.eqb_eq _ _ h N1 (sort_by_perm _ _)).
  rewrite <- (find_key_perm Z.eqb Z.eqb_eq _ _ h N P1).
  rewrite (group_counts_find Z.eqb Z.eqb_eq).
  apply occurrences_rows_between.
Qed.

(** X7.  The trips-per-hour Series has the 24 entries 0..23, each holding
    the number of rows of that hour.  The morning rush is the number of
    rows with Hour 6, 7, 8 or 9 and the evening rush the number with Hour
    16 to 19 (the hours 10 and 20 are not included); for a cleaned table
    the entries add up to the number of rows that have a Date, and the
    off-peak figure is the number of those rows outside the two windows. *)
Theorem all_hours_rush_windows :
  forall raw df,
    clean_raw_data raw = Returned df ->
    all_hours df
    = map (fun h => (h, rows_between h h df)) (map Z.of_nat (seq 0 24))
    /\ morning_rush df = rows_between 6 9 df
    /\ evening_rush df = rows_between 16 19 df
    /\ sum_counts (all_hours df) = dated_rows df
    /\ off_peak df = dated_rows df - rows_between 6 9 df - rows_between 16 19 df.
Proof.
  intros raw df Hc.
  assert (M : morning_rush df = rows_between 6 9 df).
  { unfold morning_rush. rewrite all_hours_entries.
    cbn [slice seq map firstn skipn Nat.sub Z.of_nat Pos.of_succ_nat Pos.succ
         sum_counts fold_right snd].
    rewrite (rows_between_split 6 6 9), (rows_between_split 7 7 9),
      (rows_between_split 8 8 9) by lia.
    cbn [Z.add Pos.add Pos.succ]. lia. }
  assert (E : evening_rush df = rows_between 16 19 df).
  { unfold evening_rush. rewrite all_hours_entries.
    cbn [slice seq map firstn skipn Nat.sub Z.of_nat Pos.of_succ_nat Pos.succ
         sum_counts fold_right snd].
    rewrite (rows_between_split 16 16 19), (rows_between_split 17 17 19),
      (rows_between_split 18 18 19) by lia.
    cbn [Z.add Pos.add Pos.succ]. lia. }
  assert (S : sum_counts (all_hours df) = dated_rows df).
  { destruct (clean_hour_keys raw df Hc) as [K1 K2]. rewrite <- K2.
    rewrite <- (occurrences_partition Z.eqb Z.eqb_eq
                  (map Z.of_nat (seq 0 24)) (dropna (map Hour df))
                  hours_NoDup K1).
    rewrite all_hours_entries. unfold sum_counts. rewrite map_map. cbn [snd].
    f_equal. apply map_ext. intros h. symmetry. apply occurrences_rows_between. }
  split; [apply all_hours_entries|].
  split; [exact M|]. split; [exact E|]. split; [exact S|].
  unfold off_peak. rewrite S, M, E. reflexivity.
Qed.

Lemma all_hours_rush_windows_witness :
  morning_rush sample_df = rows_between 6 9 sample_df
  /\ sum_counts (all_hours sample_df) = dated_rows sample_df.
Proof.
  destruct (all_hours_rush_windows
              [mkRaw "01/05/2024 08:15:00 AM" "Zone17" "$3.25" "GO";
               mkRaw "01/05/2024 05:40:00 PM" "Union Station" "-$3.25" "GO";
               mkRaw "03/09/2024 09:00:00 AM" "Square One" "$10" "MiWay";
               mkRaw "05/20/2024 07:30:00 PM" "Union Station" "$20" "TTC"]
              sample_df ltac:(vm_compute; reflexivity))
    as [_ [M [_ [S _]]]].
  split; assumption.
Defined.

(** ** Location types *)

Lemma to_lower_upper : forall c, to_lower (to_upper c) = to_lower c.
Proof. intros [[] [] [] [] [] [] [] []]; vm_compute; reflexivity. Qed.

Lemma to_upper_lower : forall c, to_upper (to_lower c) = to_upper c.
Proof. intros [[] [] [] [] [] [] [] []]; vm_compute; reflexivity. Qed.

Lemma lower_upper : forall s, lower (upper s) = lower s.
Proof.
  induction s as [|c s IH]; simpl; [reflexivity|].
  now rewrite to_lower_upper, IH.
Qed.

Lemma upper_lower : forall s, upper (lower s) = upper s.
Proof.
  induction s as [|c s IH]; simpl; [reflexivity|].
  now rewrite to_upper_lower, IH.
Qed.

Lemma upper_eq_lower_eq : forall a b, upper a = upper b <-> lower a = lower b.
Proof.
  intros a b. split; intros H.
  - now rewrite <- (lower_upper a), H, lower_upper.
  - now rewrite <- (upper_lower a), H, upper_lower.
Qed.

Lemma startswith_upper :
  forall p s,
    startswith p (upper s) = true
    <-> exists mid post, s = (mid ++ post)%string /\ upper mid = p.
Proof.
  induction p as [|a p IH]; intros s; simpl.
  - split; [|reflexivity]. intros _. exists ""%string, s. auto.
  - destruct s as [|b s]; simpl.
    + split; [discriminate|]. intros [mid [post [E U]]].
      destruct mid; simpl in *; discriminate.
    + rewrite andb_true_iff, IH, Ascii.eqb_eq. split.
      * intros [Ha [mid [post [E U]]]]. exists (String b mid), post.
        simpl. now rewrite E, U, Ha.
      * intros [mid [post [E U]]].
        destruct mid as [|b' mid]; simpl in *; [discriminate|].
        injection E as -> ->. injection U as U1 U2.
        split; [now symmetry|]. now exists mid, post.
Qed.

Lemma str_in_upper :
  forall p s,
    str_in p (upper s) = true
    <-> exists pre mid post, s = (pre ++ mid ++ post)%string /\ upper mid = p.
Proof.
  intros p. induction s as [|b s IH]; cbn [upper str_in];
    rewrite orb_true_iff.
  - change EmptyString with (upper EmptyString) at 1.
    rewrite startswith_upper. split.
    + intros [[mid [post [E U]]]|H]; [|discriminate].
      exists ""%string, mid, post. auto.
    + intros [pre [mid [post [E U]]]]. left.
      destruct pre; simpl in E; [|discriminate]. now exists mid, post.
  - change (String (to_upper b) (upper s)) with (upper (String b s)) at 1.
    rewrite startswith_upper, IH. split.
    + intros [[mid [post [E U]]]|[pre [mid [post [E U]]]]].
      * exists ""%string, mid, post. auto.
      * exists (String b pre), mid, post. simpl. now rewrite E.
    + intros [pre [mid [post [E U]]]].
      destruct pre as [|b' pre]; simpl in E.
      * left. now exists mid, post.
      * right. injection E as -> ->. now exists pre, mid, post.
Qed.

Lemma str_in_ci :
  forall p s, str_in (upper p) (upper s) = true <-> ci_substring p s.
Proof.
  intros p s. rewrite str_in_upper. unfold ci_substring.
  split; intros [pre [mid [post [E U]]]]; exists pre, mid, post;
    (split; [exact E|]); now apply upper_eq_lower_eq.
Qed.

(** X8.  [categorize_location] ignores letter case and tests in a fixed
    order: a location is a "Subway/Train Station" exactly when it contains
    "station"; otherwise a "Bus Stop" when it contains " at "; otherwise
    "GO Transit" when it contains "go" anywhere, also inside a longer
    word; otherwise "Other". *)
Theorem categorize_location_cases :
  forall loc,
    (ci_substring "station" loc ->
     categorize_location loc = "Subway/Train Station")
    /\ (~ ci_substring "station" loc -> ci_substring " at " loc ->
        categorize_location loc = "Bus Stop")
    /\ (~ ci_substring "station" loc -> ~ ci_substring " at " loc ->
        ci_substring "go" loc ->
        categorize_location loc = "GO Transit")
    /\ (~ ci_substring "station" loc -> ~ ci_substring " at " loc ->
        ~ ci_substring "go" loc ->
        categorize_location loc = "Other").
Proof.
  intros loc. unfold categorize_location. cbv zeta.
  pose proof (str_in_ci "station" loc) as S.
  pose proof (str_in_ci " at " loc) as A.
  pose proof (str_in_ci "go" loc) as G.
  change (upper "station") with "STATION" in S.
  change (upper " at ") with " AT " in A.
  change (upper "go") with "GO" in G.
  destruct (str_in "STATION" (upper loc)).
  - repeat split; auto; intros N; exfalso; apply N; now apply S.
  - destruct (str_in " AT " (upper loc)).
    + repeat split; auto.
      * intros C. apply S in C. discriminate.
      * intros _ N. exfalso. apply N. now apply A.
      * intros _ N. exfalso. apply N. now apply A.
    + destruct (str_in "GO" (upper loc)).
      * repeat split; auto.
        -- intros C. apply S in C. discriminate.
        -- intros _ C. apply A in C. discriminate.
        -- intros _ _ N. exfalso. apply N. now apply G.
      * repeat split; auto.
        -- intros C. apply S in C. discriminate.
        -- intros _ C. apply A in C. discriminate.
        -- intros _ _ C. apply G in C. discriminate.
Qed.

(** ** The filters as one predicate *)

Lemma apply_filters_as_filter :
  forall date_range selected_agency location_search,
    is_modelled location_search = true ->
    exists f, forall df,
      apply_filters df date_range selected_agency location_search
      = Some (filter f df).
Proof.
  intros dr agency loc Hm. unfold is_modelled in Hm.
  destruct (re_compile loc) as [p|] eqn:Ep; [|discriminate].
  set (f1 := fun t : Trip =>
               match dr with
               | [s; e] => match option_map date_of (Date t) with
                           | Some d => date_leb s d && date_leb d e
                           | None => false
                           end
               | _ => true
               end).
  set (f2 := fun t : Trip =>
               if negb (String.eqb agency "All")
               then cell_is agency (Transit_Agency t) else true).
  set (f3 := fun t : Trip =>
               if negb (String.eqb loc "")
               then cell_matches (re_search p) (Location t) else true).
  exists (fun t => f1 t && (f2 t && f3 t)). intros df.
  unfold apply_filters, filter_location, filter_agency, filter_dates.
  cbv zeta. rewrite Ep.
  assert (E1 : match dr with
               | [s; e] =>
                   filter (fun t => match option_map date_of (Date t) with
                                    | Some d => date_leb s d && date_leb d e
                                    | None => false
                                    end) df
               | _ => df
               end = filter f1 df).
  { unfold f1. destruct dr as [|s [|e [|x dr]]];
      try (now rewrite filter_all). reflexivity. }
  rewrite E1.
  assert (E2 : (if negb (String.eqb agency "All")
                then filter (fun t => cell_is agency (Transit_Agency t))
                            (filter f1 df)
                else filter f1 df) = filter f2 (filter f1 df)).
  { unfold f2. destruct (negb (String.eqb agency "All"));
      [reflexivity | now rewrite filter_all]. }
  rewrite E2.
  assert (E3 : (if negb (String.eqb loc "")
                then Some (filter (fun t => cell_matches (re_search p) (Location t))
                                  (filter f2 (filter f1 df)))
                else Some (filter f2 (filter f1 df)))
               = Some (filter f3 (filter f2 (filter f1 df)))).
  { unfold f3. destruct (negb (String.eqb loc ""));
      [reflexivity | now rewrite filter_all]. }
  rewrite E3, !filter_filter. reflexivity.
Qed.

Lemma apply_filters_modelled :
  forall df date_range selected_agency location_search r,
    apply_filters df date_range selected_agency location_search = Some r ->
    is_modelled location_search = true.
Proof.
  unfold apply_filters, filter_location, is_modelled. cbv zeta.
  intros df dr agency loc r H.
  destruct (String.eqb_spec loc "") as [->|_]; [reflexivity|].
  cbn [negb] in H. destruct (re_compile loc); [reflexivity | discriminate].
Qed.

Lemma filter_idem {A : Type} (f : A -> bool) :
  forall l, filter f (filter f l) = filter f l.
Proof.
  intros l. rewrite filter_filter. apply filter_ext_In.
  intros x _. now destruct (f x).
Qed.

Lemma filter_length_le {A : Type} (f : A -> bool) :
  forall l, (List.length (filter f l) <= List.length l)%nat.
Proof.
  induction l as [|x l IH]; simpl; [lia|]. destruct (f x); simpl; lia.
Qed.

(** ** The default date range keeps every dated row *)

Lemma fold_min_ts :
  forall xs x,
    let m := fold_left (fun m y => if ts_key y <? ts_key m then y else m) xs x in
    In m (x :: xs) /\ (forall y, In y (x :: xs) -> ts_key m <= ts_key y).
Proof.
  induction xs as [|z xs IH]; intros x; cbn zeta; cbn [fold_left].
  - split; [now left|]. intros y [<-|[]]. lia.
  - destruct (IH (if ts_key z <? ts_key x then z else x)) as [Hin Hle].
    cbn zeta in Hin, Hle. split.
    + destruct Hin as [Hin|Hin]; [|right; now right].
      rewrite <- Hin. destruct (ts_key z <? ts_key x); simpl; auto.
    + intros y Hy.
      assert (Hm := Hle _ (or_introl eq_refl)).
      destruct (Z.ltb_spec (ts_key z) (ts_key x));
        destruct Hy as [<-|[<-|Hy]]; try lia;
        (apply Hle; now right).
Qed.

Lemma fold_max_ts :
  forall xs x,
    let m := fold_left (fun m y => if ts_key m <? ts_key y then y else m) xs x in
    In m (x :: xs) /\ (forall y, In y (x :: xs) -> ts_key y <= ts_key m).
Proof.
  induction xs as [|z xs IH]; intros x; cbn zeta; cbn [fold_left].
  - split; [now left|]. intros y [<-|[]]. lia.
  - destruct (IH (if ts_key x <? ts_key z then z else x)) as [Hin Hle].
    cbn zeta in Hin, Hle. split.
    + destruct Hin as [Hin|Hin]; [|right; now right].
      rewrite <- Hin. destruct (ts_key x <? ts_key z); simpl; auto.
    + intros y Hy.
      assert (Hm := Hle _ (or_introl eq_refl)).
      destruct (Z.ltb_spec (ts_key x) (ts_key z));
        destruct Hy as [<-|[<-|Hy]]; try lia;
        (apply Hle; now right).
Qed.

Lemma dropna_In {A : Type} :
  forall (col : list (option A)) x, In x (dropna col) <-> In (Some x) col.
Proof.
  induction col as [|[a|] col IH]; intros x; simpl.
  - tauto.
  - rewrite IH. split; intros [H|H]; auto; left; congruence.
  - rewrite IH. split; [auto|]. intros [H|H]; [discriminate | exact H].
Qed.

(** X10.  With the date widget at its initial value, the earliest and the
    latest date of the table, and no other filter set, the filters keep
    every row of a cleaned table that has a Date and drop the rows without
    one; a table in which every row has a Date comes back unchanged. *)
Theorem default_range_keeps_dated_rows :
  forall raw df date_range,
    clean_raw_data raw = Returned df ->
    default_date_range df = Some date_range ->
    apply_filters df date_range "All" "" = Some (filter has_Date df)
    /\ ((forall t, In t df -> has_Date t = true) ->
        apply_filters df date_range "All" "" = Some df).
Proof.
  intros raw df dr Hc Hd.
  pose proof (clean_table_columns raw df Hc) as W. rewrite Forall_forall in W.
  unfold default_date_range, Date_min, Date_max in Hd.
  destruct (dropna (map Date df)) as [|x xs] eqn:Ex; [discriminate|].
  injection Hd as <-.
  destruct (fold_min_ts xs x) as [Lin Lle].
  destruct (fold_max_ts xs x) as [Uin Ule].
  cbn zeta in Lin, Lle, Uin, Ule.
  set (lo := fold_left (fun m y => if ts_key y <? ts_key m then y else m) xs x) in *.
  set (hi := fold_left (fun m y => if ts_key m <? ts_key y then y else m) xs x) in *.
  assert (V : forall d, In d (x :: xs) -> valid_ts d).
  { intros d Hin. rewrite <- Ex in Hin. apply dropna_In in Hin.
    apply in_map_iff in Hin. destruct Hin as [t [Ht Hin]].
    destruct (W t Hin) as [Vt _]. now apply Vt. }
  assert (E : apply_filters df [date_of lo; date_of hi] "All" ""
              = Some (filter has_Date df)).
  { unfold apply_filters, filter_location, filter_agency, filter_dates.
    cbn [String.eqb negb]. f_equal. apply filter_ext_In. intros t Hin.
    unfold has_Date. destruct (Date t) as [d|] eqn:Et; cbn [option_map];
      [|reflexivity].
    assert (Hd : In d (x :: xs)).
    { rewrite <- Ex. apply dropna_In. rewrite <- Et. now apply in_map. }
    apply andb_true_iff. split; apply date_leb_le; apply ts_key_date_le; auto. }
  split; [exact E|].
  intros Hall. rewrite E. f_equal.
  rewrite (filter_ext_In has_Date (fun _ => true)) by exact Hall.
  apply filter_all.
Qed.

Lemma default_range_keeps_dated_rows_witness :
  apply_filters sample_df [mkDate 2024 1 5; mkDate 2024 5 20] "All" ""
  = Some (filter has_Date sample_df).
Proof.
  apply (proj1 (default_range_keeps_dated_rows
                  [mkRaw "01/05/2024 08:15:00 AM" "Zone17" "$3.25" "GO";
                   mkRaw "01/05/2024 05:40:00 PM" "Union Station" "-$3.25" "GO";
                   mkRaw "03/09/2024 09:00:00 AM" "Square One" "$10" "MiWay";
                   mkRaw "05/20/2024 07:30:00 PM" "Union Station" "$20" "TTC"]
                  sample_df [mkDate 2024 1 5; mkDate 2024 5 20]
                  ltac:(vm_compute; reflexivity)
                  ltac:(vm_compute; reflexivity))).
Defined.

(** ** The table view is in reverse chronological order *)

Lemma strftime_compare :
  forall a b, valid_ts a -> valid_ts b ->
    String.compare (strftime a) (strftime b) = (minute_key a ?= minute_key b).
Proof.
  intros a b Va Vb.
  destruct Va as [Ay [Am [Ad [Ah [Ai _]]]]].
  destruct Vb as [By [Bm [Bd [Bh [Bi _]]]]].
  pose proof (days_in_month_bounds (year a) (month a)) as Da.
  pose proof (days_in_month_bounds (year b) (month b)) as Db.
  unfold strftime, minute_key, pad4, pad2. cbn [append String.compare].
  destruct (digits4 (year a) ltac:(lia)) as [Ey [Y3 [Y2 [Y1 Y0]]]].
  destruct (digits4 (year b) ltac:(lia)) as [Fy [Z3 [Z2 [Z1 Z0]]]].
  destruct (digits2 (month a) ltac:(lia)) as [Em [M1 M0]].
  destruct (digits2 (month b) ltac:(lia)) as [Fm [N1 N0]].
  destruct (digits2 (day a) ltac:(lia)) as [Ed [D1 D0]].
  destruct (digits2 (day b) ltac:(lia)) as [Fd [E1 E0]].
  destruct (digits2 (hour a) ltac:(lia)) as [Eh [H1 H0]].
  destruct (digits2 (hour b) ltac:(lia)) as [Fh [I1 I0]].
  destruct (digits2 (minute a) ltac:(lia)) as [Ei [J1 J0]].
  destruct (digits2 (minute b) ltac:(lia)) as [Fi [K1 K0]].
  rewrite !digit_char_compare by assumption.
  change (Ascii.compare "-" "-") with Eq.
  change (Ascii.compare " " " ") with Eq.
  change (Ascii.compare ":" ":") with Eq. cbv iota.
  set (y3 := year a / 1000 mod 10) in *. set (y2 := year a / 100 mod 10) in *.
  set (y1 := year a / 10 mod 10) in *. set (y0 := year a mod 10) in *.
  set (z3 := year b / 1000 mod 10) in *. set (z2 := year b / 100 mod 10) in *.
  set (z1 := year b / 10 mod 10) in *. set (z0 := year b mod 10) in *.
  set (m1 := month a / 10 mod 10) in *. set (m0 := month a mod 10) in *.
  set (n1 := month b / 10 mod 10) in *. set (n0 := month b mod 10) in *.
  set (d1 := day a / 10 mod 10) in *. set (d0 := day a mod 10) in *.
  set (e1 := day b / 10 mod 10) in *. set (e0 := day b mod 10) in *.
  set (h1 := hour a / 10 mod 10) in *. set (h0 := hour a mod 10) in *.
  set (i1 := hour b / 10 mod 10) in *. set (i0 := hour b mod 10) in *.
  set (j1 := minute a / 10 mod 10) in *. set (j0 := minute a mod 10) in *.
  set (k1 := minute b / 10 mod 10) in *. set (k0 := minute b mod 10) in *.
  rewrite Ey, Fy, Em, Fm, Ed, Fd, Eh, Fh, Ei, Fi.
  clearbody y3 y2 y1 y0 z3 z2 z1 z0 m1 m0 n1 n0 d1 d0 e1 e0
            h1 h0 i1 i0 j1 j0 k1 k0.
  clear Ey Fy Em Fm Ed Fd Eh Fh Ei Fi Ay Am Ad Ah Ai By Bm Bd Bh Bi Da Db.
  symmetry.
  destruct (Z.compare_spec y3 z3);
    [|apply Z.compare_lt_iff; lia|apply Z.compare_gt_iff; lia].
  destruct (Z.compare_spec y2 z2);
    [|apply Z.compare_lt_iff; lia|apply Z.compare_gt_iff; lia].
  destruct (Z.compare_spec y1 z1);
    [|apply Z.compare_lt_iff; lia|apply Z.compare_gt_iff; lia].
  destruct (Z.compare_spec y0 z0);
    [|apply Z.compare_lt_iff; lia|apply Z.compare_gt_iff; lia].
  destruct (Z.compare_spec m1 n1);
    [|apply Z.compare_lt_iff; lia|apply Z.compare_gt_iff; lia].
  destruct (Z.compare_spec m0 n0);
    [|apply Z.compare_lt_iff; lia|apply Z.compare_gt_iff; lia].
  destruct (Z.compare_spec d1 e1);
    [|apply Z.compare_lt_iff; lia|apply Z.compare_gt_iff; lia].
  destruct (Z.compare_spec d0 e0);
    [|apply Z.compare_lt_iff; lia|apply Z.compare_gt_iff; lia].
  destruct (Z.compare_spec h1 i1);
    [|apply Z.compare_lt_iff; lia|apply Z.compare_gt_iff; lia].
  destruct (Z.compare_spec h0 i0);
    [|apply Z.compare_lt_iff; lia|apply Z.compare_gt_iff; lia].
  destruct (Z.compare_spec j1 k1);
    [|apply Z.compare_lt_iff; lia|apply Z.compare_gt_iff; lia].
  destruct (Z.compare_spec j0 k0);
    [apply Z.compare_eq_iff|apply Z.compare_lt_iff|apply Z.compare_gt_iff]; lia.
Qed.

Lemma strftime_leb :
  forall a b, valid_ts a -> valid_ts b ->
    String.leb (strftime a) (strftime b) = (minute_key a <=? minute_key b).
Proof.
  intros a b Va Vb. unfold String.leb, Z.leb.
  now rewrite strftime_compare.
Qed.

Lemma insert_by_map {A B : Type} (f : A -> B) (leb : B -> B -> bool) :
  forall x l,
    insert_by leb (f x) (map f l)
    = map f (insert_by (fun a b => leb (f a) (f b)) x l).
Proof.
  induction l as [|y l IH]; simpl; [reflexivity|].
  destruct (leb (f x) (f y)); simpl; [reflexivity | now rewrite IH].
Qed.

Lemma sort_by_map {A B : Type} (f : A -> B) (leb : B -> B -> bool) :
  forall l,
    sort_by leb (map f l) = map f (sort_by (fun a b => leb (f a) (f b)) l).
Proof.
  induction l as [|x l IH]; simpl; [reflexivity|].
  now rewrite IH, insert_by_map.
Qed.

Lemma insert_by_ext {A : Type} (leb leb' : A -> A -> bool) :
  forall x l, (forall y, In y l -> leb x y = leb' x y) ->
              insert_by leb x l = insert_by leb' x l.
Proof.
  induction l as [|y l IH]; intros H; simpl; [reflexivity|].
  rewrite (H y (or_introl eq_refl)), IH; [reflexivity|].
  intros z Hz. apply H. now right.
Qed.

Lemma sort_by_ext_In {A : Type} (leb leb' : A -> A -> bool) :
  forall l, (forall x y, In x l -> In y l -> leb x y = leb' x y) ->
            sort_by leb l = sort_by leb' l.
Proof.
  induction l as [|x l IH]; intros H; simpl; [reflexivity|].
  rewrite IH by (intros a b Ha Hb; apply H; now right).
  apply insert_by_ext. intros y Hy. apply sort_by_In in Hy.
  apply H; [now left | now right].
Qed.

Lemma newest_first_total :
  forall a b, newest_first a b = false -> newest_first b a = true.
Proof.
  unfold newest_first. intros a b.
  destruct (Date a), (Date b); try easy.
  intros H. apply Z.leb_gt in H. apply Z.leb_le. lia.
Qed.

(** X11.  The table view of a filtered cleaned table lists the rows from
    the newest to the oldest, compared to the minute, with the rows
    without a Date last: sorting the formatted "YYYY-MM-DD HH:MM" texts in
    descending order puts the timestamps themselves in descending order,
    and no row is lost or added. *)
Theorem display_df_newest_first :
  forall raw df date_range selected_agency location_search filtered_df,
    clean_raw_data raw = Returned df ->
    apply_filters df date_range selected_agency location_search
    = Some filtered_df ->
    exists ordered,
      Permutation filtered_df ordered
      /\ Sorted (fun a b => newest_first a b = true) ordered
      /\ display_df filtered_df = map display_row ordered.
Proof.
  intros raw df dr agency loc fdf Hc Hf.
  exists (sort_by newest_first fdf).
  split; [apply sort_by_perm|].
  split; [apply sort_by_sorted, newest_first_total|].
  pose proof (clean_table_columns raw df Hc) as W. rewrite Forall_forall in W.
  destruct (apply_filters_as_filter dr agency loc
              (apply_filters_modelled _ _ _ _ _ Hf)) as [f Hff].
  rewrite Hff in Hf. injection Hf as <-.
  unfold display_df. rewrite sort_by_map. f_equal.
  apply sort_by_ext_In. intros a b Ha Hb.
  apply filter_In in Ha, Hb. destruct Ha as [Ha _], Hb as [Hb _].
  destruct (W a Ha) as [Va _]. destruct (W b Hb) as [Vb _].
  unfold disp_Date_geb, newest_first, display_row. cbn [disp_Date].
  destruct (Date a) as [x|], (Date b) as [y|]; cbn [option_map]; try reflexivity.
  apply strftime_leb; auto.
Qed.

Lemma display_df_newest_first_witness :
  exists ordered,
    Permutation sample_df ordered
    /\ Sorted (fun a b => newest_first a b = true) ordered
    /\ display_df sample_df = map display_row ordered.
Proof.
  apply (display_df_newest_first
           [mkRaw "01/05/2024 08:15:00 AM" "Zone17" "$3.25" "GO";
            mkRaw "01/05/2024 05:40:00 PM" "Union Station" "-$3.25" "GO";
            mkRaw "03/09/2024 09:00:00 AM" "Square One" "$10" "MiWay";
            mkRaw "05/20/2024 07:30:00 PM" "Union Station" "$20" "TTC"]
           sample_df [] "All" "" sample_df
           ltac:(vm_compute; reflexivity)
           ltac:(vm_compute; reflexivity)).
Defined.

(** ** The two monthly charts of the dashboard *)

Lemma fold_min_shift :
  forall c l x,
    fold_left Z.min (map (fun k => k + c) l) (x + c) = fold_left Z.min l x + c.
Proof.
  induction l as [|a l IH]; intros x; simpl; [reflexivity|].
  now rewrite Z.add_min_distr_r, IH.
Qed.

Lemma fold_max_shift :
  forall c l x,
    fold_left Z.max (map (fun k => k + c) l) (x + c) = fold_left Z.max l x + c.
Proof.
  induction l as [|a l IH]; intros x; simpl; [reflexivity|].
  now rewrite Z.add_max_distr_r, IH.
Qed.

Lemma list_min_shift :
  forall c l,
    list_min (map (fun k => k + c) l) = option_map (fun k => k + c) (list_min l).
Proof.
  intros c [|x l]; simpl; [reflexivity|]. now rewrite fold_min_shift.
Qed.

Lemma list_max_shift :
  forall c l,
    list_max (map (fun k => k + c) l) = option_map (fun k => k + c) (list_max l).
Proof.
  intros c [|x l]; simpl; [reflexivity|]. now rewrite fold_max_shift.
Qed.

Lemma list_min_max_bounds :
  forall l lo hi, list_min l = Some lo -> list_max l = Some hi ->
    In lo l /\ In hi l /\ forall y, In y l -> lo <= y <= hi.
Proof.
  intros [|x l] lo hi Hlo Hhi; simpl in Hlo, Hhi; [discriminate|].
  injection Hlo as <-. injection Hhi as <-.
  destruct (fold_min_spec l x) as [A B]. destruct (fold_max_spec l x) as [C D].
  repeat split; auto.
Qed.

Lemma list_min_max_none :
  forall l, list_min l = None <-> list_max l = None.
Proof. intros [|x l]; simpl; split; intros H; congruence. Qed.

Lemma spend_keys :
  forall df,
    map fst
      (map (fun r => (month_index (fst r), snd r))
         (dropna_dates
            (combine (map (fun t => option_map (fun d => shift_month d (-1)) (Date t)) df)
                     (map Amount_Clean df))))
    = map (fun k => k + -1) (date_months df).
Proof.
  unfold date_months.
  induction df as [|t df IH]; simpl; [reflexivity|].
  destruct (Date t) as [d|]; simpl; [|exact IH].
  rewrite IH, shift_month_index. f_equal.
Qed.

Lemma tap_keys :
  forall df,
    map fst
      (map (fun r => (month_index (fst r), snd r))
         (dropna_dates (combine (map Date df) (map Amount_Clean df))))
    = date_months df.
Proof.
  unfold date_months.
  induction df as [|t df IH]; simpl; [reflexivity|].
  destruct (Date t) as [d|]; simpl; [|exact IH]. now rewrite IH.
Qed.

Lemma tap_counted :
  forall df k,
    occurrences Z.eqb k
      (map fst
         (filter (fun r => negb (is_nan (snd r)))
            (map (fun r => (month_index (fst r), snd r))
               (dropna_dates (combine (map Date df) (map Amount_Clean df))))))
    = taps_in_month df k.
Proof.
  intros df k. unfold occurrences, taps_in_month, in_month_index. f_equal.
  induction df as [|t df IH]; simpl; [reflexivity|].
  destruct (Date t) as [d|]; simpl; [|exact IH].
  destruct (is_nan (Amount_Clean t)); simpl.
  - rewrite Bool.andb_false_r. exact IH.
  - rewrite Bool.andb_true_r, (Z.eqb_sym k).
    destruct (month_index d =? k); simpl; now rewrite IH.
Qed.

Lemma tap_values :
  forall df k,
    group_values Z.eqb k
      (map (fun r => (month_index (fst r), snd r))
         (dropna_dates (combine (map Date df) (map Amount_Clean df))))
    = map Amount_Clean (filter (in_month_index k) df).
Proof.
  unfold group_values, in_month_index.
  induction df as [|t df IH]; intros k; simpl; [reflexivity|].
  destruct (Date t) as [d|]; simpl; [|apply IH].
  destruct (month_index d =? k); simpl; now rewrite IH.
Qed.

Lemma pairs_by_key {K V : Type} (F : K -> V) :
  forall G : list (K * V),
    (forall k v, In (k, v) G -> v = F k) ->
    G = map (fun k => (k, F k)) (map fst G).
Proof.
  induction G as [|[k v] G IH]; intros H; simpl; [reflexivity|].
  rewrite <- (H k v (or_introl eq_refl)), <- IH; [reflexivity|].
  intros k' v' Hin. apply H. now right.
Qed.

Lemma bin_keys_NoDup :
  forall lo n, NoDup (map (fun i => lo + Z.of_nat i) (seq 0 n)).
Proof.
  intros lo n.
  assert (G : forall l, NoDup l -> NoDup (map (fun i => lo + Z.of_nat i) l)).
  { induction l as [|i l IH]; intros Hnd; simpl; [constructor|].
    inversion Hnd as [|? ? Hnin Hnd']; subst. constructor; [|now apply IH].
    intros Hin. apply in_map_iff in Hin. destruct Hin as [j [Hj Hin]].
    assert (j = i) by lia. subst. contradiction. }
  apply G, seq_NoDup.
Qed.

Lemma bin_keys_In :
  forall lo n k, lo <= k < lo + Z.of_nat n ->
                 In k (map (fun i => lo + Z.of_nat i) (seq 0 n)).
Proof.
  intros lo n k H. apply in_map_iff. exists (Z.to_nat (k - lo)).
  split; [lia|]. apply in_seq. lia.
Qed.

Lemma find_const_bins {V : Type} (f : nat -> Z) (c : V) :
  forall l k v,
    find_key Z.eqb k (map (fun i => (f i, c)) l) = Some v -> v = c.
Proof.
  induction l as [|i l IH]; intros k v H; simpl in H; [discriminate|].
  destruct (k =? f i); [congruence | now apply (IH k)].
Qed.

Lemma fold_count_add_present :
  forall keys (acc : list (Z * Z)),
    (forall k, In k keys -> In k (map fst acc)) ->
    map fst (fold_left (fun acc k => count_add Z.eqb k acc) keys acc)
    = map fst acc.
Proof.
  induction keys as [|k keys IH]; intros acc H; simpl; [reflexivity|].
  assert (E : map fst (count_add Z.eqb k acc) = map fst acc).
  { rewrite count_add_keys_eq.
    replace (existsb (Z.eqb k) (map fst acc)) with true; [reflexivity|].
    symmetry. apply existsb_exists. exists k.
    split; [apply H; now left | apply Z.eqb_refl]. }
  rewrite IH, E; [reflexivity|].
  intros k' Hk'. rewrite E. apply H. now right.
Qed.

(** Counting into bins that hold every key: each bin ends with the number
    of occurrences of its key. *)
Lemma count_bins :
  forall keys lo n,
    (forall k, In k keys -> lo <= k < lo + Z.of_nat n) ->
    fold_left (fun acc k => count_add Z.eqb k acc) keys
              (map (fun i => (lo + Z.of_nat i, 0)) (seq 0 n))
    = map (fun i => (lo + Z.of_nat i, occurrences Z.eqb (lo + Z.of_nat i) keys))
          (seq 0 n).
Proof.
  intros keys lo n H.
  set (bins := map (fun i => (lo + Z.of_nat i, 0)) (seq 0 n)).
  set (G := fold_left _ keys bins).
  assert (Bk : map fst bins = map (fun i => lo + Z.of_nat i) (seq 0 n)).
  { unfold bins. rewrite map_map. reflexivity. }
  assert (Gk : map fst G = map fst bins).
  { apply fold_count_add_present. intros k Hk. rewrite Bk.
    apply bin_keys_In, H, Hk. }
  destruct (fold_count_add Z.eqb Z.eqb_eq keys bins) as [N [_ F]].
  cbn zeta in N, F. fold G in N, F.
  assert (Gv : forall k v, In (k, v) G -> v = occurrences Z.eqb k keys).
  { intros k v Hin.
    apply (In_find_key Z.eqb Z.eqb_eq) in Hin;
      [|apply N; rewrite Bk; apply bin_keys_NoDup].
    rewrite F in Hin.
    destruct (find_key Z.eqb k bins) as [n0|] eqn:E.
    - apply find_const_bins in E. subst n0. injection Hin as <-. lia.
    - destruct (existsb (Z.eqb k) keys); congruence. }
  rewrite (pairs_by_key (fun k => occurrences Z.eqb k keys) G Gv), Gk, Bk.
  now rewrite map_map.
Qed.

(** Summing into bins that hold every key: each bin ends with the sum of
    the values of its key, in row order. *)
Lemma sum_bins :
  forall (keyed : list (Z * pyfloat)) lo n,
    (forall k, In k (map fst keyed) -> lo <= k < lo + Z.of_nat n) ->
    group_sums Z.eqb (map (fun i => (lo + Z.of_nat i, fzero)) (seq 0 n)) keyed
    = map (fun i => (lo + Z.of_nat i,
                     series_sum (group_values Z.eqb (lo + Z.of_nat i) keyed)))
          (seq 0 n).
Proof.
  intros keyed lo n H.
  set (bins := map (fun i => (lo + Z.of_nat i, fzero)) (seq 0 n)).
  set (G := group_sums Z.eqb bins keyed).
  assert (Bk : map fst bins = map (fun i => lo + Z.of_nat i) (seq 0 n)).
  { unfold bins. rewrite map_map. reflexivity. }
  assert (Gk : map fst G = map fst bins).
  { apply (group_sums_present Z.eqb Z.eqb_eq). intros r Hr. rewrite Bk.
    apply bin_keys_In, H. now apply in_map. }
  assert (Gv : forall k v, In (k, v) G ->
                           v = series_sum (group_values Z.eqb k keyed)).
  { intros k v Hin.
    apply (In_find_key Z.eqb Z.eqb_eq) in Hin;
      [|apply (group_sums_NoDup Z.eqb Z.eqb_eq), bins_NoDup].
    apply (find_group_sums Z.eqb Z.eqb_eq) in Hin.
    unfold bins in Hin. rewrite empty_bins_zero in Hin. exact Hin. }
  rewrite (pairs_by_key (fun k => series_sum (group_values Z.eqb k keyed)) G Gv),
    Gk, Bk.
  now rewrite map_map.
Qed.

(** The tap chart, bar by bar. *)
Lemma get_tap_explicit :
  forall df,
    fst (get_tap_data df)
    = match list_min (date_months df), list_max (date_months df) with
      | Some lo, Some hi =>
          map (fun i => (month_end (lo + Z.of_nat i),
                         taps_in_month df (lo + Z.of_nat i)))
              (seq 0 (Z.to_nat (hi - lo + 1)))
      | _, _ => []
      end.
Proof.
  intros df.
  pose proof (tap_keys df) as Ks. pose proof (tap_counted df) as Kc.
  unfold get_tap_data. cbn [fst]. unfold grouper_month_count. cbv zeta.
  set (keyed := map (fun r => (month_index (fst r), snd r)) _) in *.
  rewrite Ks.
  destruct (list_min (date_months df)) as [lo|] eqn:Elo; [|reflexivity].
  destruct (list_max (date_months df)) as [hi|] eqn:Ehi; [|reflexivity].
  destruct (list_min_max_bounds _ _ _ Elo Ehi) as [Lin [Hin B]].
  pose proof (B _ Lin) as Hlh.
  rewrite count_bins.
  - rewrite map_map. apply map_ext. intros i. cbn [fst snd]. now rewrite Kc.
  - intros k Hk. apply in_map_iff in Hk. destruct Hk as [[k' x] [E Hk]].
    cbn [fst] in E. subst k'. apply filter_In in Hk. destruct Hk as [Hk _].
    apply (in_map fst) in Hk. rewrite Ks in Hk. cbn [fst] in Hk.
    pose proof (B _ Hk). lia.
Qed.

(** The spending chart, bar by bar: a bar is labelled with the end of the
    month before the month whose trips it sums. *)
Lemma get_spendings_explicit :
  forall df,
    fst (get_spendings_data df)
    = match list_min (date_months df), list_max (date_months df) with
      | Some lo, Some hi =>
          map (fun i => (month_end (lo + Z.of_nat i - 1),
                         month_total df (lo + Z.of_nat i)))
              (seq 0 (Z.to_nat (hi - lo + 1)))
      | _, _ => []
      end.
Proof.
  intros df.
  pose proof (spend_keys df) as Ks. pose proof (shifted_rows_values df) as Kv.
  unfold get_spendings_data. cbn [fst]. unfold grouper_month_sum. cbv zeta.
  set (keyed := map (fun r => (month_index (fst r), snd r)) _) in *.
  rewrite Ks, list_min_shift, list_max_shift.
  destruct (list_min (date_months df)) as [lo|] eqn:Elo; [|reflexivity].
  destruct (list_max (date_months df)) as [hi|] eqn:Ehi; [|reflexivity].
  cbn [option_map].
  destruct (list_min_max_bounds _ _ _ Elo Ehi) as [Lin [Hin B]].
  pose proof (B _ Lin) as Hlh.
  replace (hi + -1 - (lo + -1) + 1) with (hi - lo + 1) by lia.
  rewrite sum_bins.
  - rewrite map_map. apply map_ext. intros i. cbn [fst snd].
    rewrite Kv. unfold month_total.
    replace (lo + -1 + Z.of_nat i + 1) with (lo + Z.of_nat i) by lia.
    f_equal. f_equal. lia.
  - intros k Hk. rewrite Ks in Hk. apply in_map_iff in Hk.
    destruct Hk as [k' [<- Hk]]. pose proof (B _ Hk). lia.
Qed.

Lemma date_months_In :
  forall df t d, In t df -> Date t = Some d -> In (month_index d) (date_months df).
Proof.
  unfold date_months. induction df as [|t0 df IH]; intros t d Hin Hd;
    [contradiction|].
  simpl. destruct Hin as [->|Hin].
  - rewrite Hd. now left.
  - destruct (Date t0); [right|]; now apply (IH t d).
Qed.

Lemma date_months_In_inv :
  forall df k, In k (date_months df) ->
    exists t, In t df /\ in_month_index k t = true.
Proof.
  unfold date_months, in_month_index.
  induction df as [|t0 df IH]; intros k H; simpl in H; [contradiction|].
  destruct (Date t0) as [d0|] eqn:E; simpl in H.
  - destruct H as [H|H].
    + exists t0. split; [now left|]. rewrite E. now apply Z.eqb_eq.
    + destruct (IH k H) as [t [Hin Ht]]. exists t. auto with datatypes.
  - destruct (IH k H) as [t [Hin Ht]]. exists t. auto with datatypes.
Qed.

(** X12.  The dashboard's two monthly charts have one bar per calendar
    month from the first to the last month that holds a dated trip: the
    first and the last bar each cover a month with a dated trip, and every
    dated trip falls in the month of some bar.  A bar of the tap chart is
    labelled with the end of its month and holds the number of that
    month's trips whose amount is not NaN; the bar of the spending chart
    at the same position sums the same month's trips but is labelled with
    the end of the month before. *)
Theorem monthly_charts_same_months :
  forall df, exists first n,
    fst (get_tap_data df)
    = map (fun i => (month_end (first + Z.of_nat i),
                     taps_in_month df (first + Z.of_nat i))) (seq 0 n)
    /\ fst (get_spendings_data df)
       = map (fun i => (month_end (first + Z.of_nat i - 1),
                        month_total df (first + Z.of_nat i))) (seq 0 n)
    /\ (forall t d, In t df -> Date t = Some d ->
                    first <= month_index d < first + Z.of_nat n)
    /\ (n <> 0%nat ->
        (exists t, In t df /\ in_month_index first t = true)
        /\ (exists t, In t df
                      /\ in_month_index (first + Z.of_nat n - 1) t = true)).
Proof.
  intros df. rewrite get_tap_explicit, get_spendings_explicit.
  destruct (list_min (date_months df)) as [lo|] eqn:Elo.
  - destruct (list_max (date_months df)) as [hi|] eqn:Ehi.
    + destruct (list_min_max_bounds _ _ _ Elo Ehi) as [Lin [Hin B]].
      pose proof (B _ Lin) as Hlh.
      exists lo, (Z.to_nat (hi - lo + 1)). split; [reflexivity|].
      split; [reflexivity|]. split.
      * intros t d Ht Hd.
        pose proof (B _ (date_months_In df t d Ht Hd)). lia.
      * intros _. split; [now apply date_months_In_inv|].
        replace (lo + Z.of_nat (Z.to_nat (hi - lo + 1)) - 1) with hi by lia.
        now apply date_months_In_inv.
    + apply list_min_max_none in Ehi. congruence.
  - exists 0, 0%nat. split; [reflexivity|]. split; [reflexivity|]. split.
    + intros t d Ht Hd. pose proof (date_months_In df t d Ht Hd) as Hk.
      destruct (date_months df); [contradiction | discriminate].
    + intros C. contradiction.
Qed.

(** ** Counting days *)

Section Distinct.
Context {A : Type} (eqb : A -> A -> bool).

Lemma dropna_filter_some :
  forall a (l : list (option A)),
    dropna (filter (fun y => negb (cell_eqb eqb (Some a) y)) l)
    = filter (fun y => negb (eqb a y)) (dropna l).
Proof.
  induction l as [|[b|] l IH]; simpl; [reflexivity| |exact IH].
  destruct (eqb a b); simpl; [exact IH | f_equal; exact IH].
Qed.

Lemma dropna_filter_none :
  forall l : list (option A),
    dropna (filter (fun y => negb (cell_eqb eqb None y)) l) = dropna l.
Proof.
  induction l as [|[b|] l IH]; simpl; [reflexivity| |exact IH].
  f_equal; exact IH.
Qed.

Lemma dropna_distinct :
  forall col : list (option A),
    dropna (distinct (cell_eqb eqb) col) = distinct eqb (dropna col).
Proof.
  induction col as [|[a|] col IH]; cbn [distinct dropna]; [reflexivity| |].
  - now rewrite dropna_filter_some, IH.
  - now rewrite dropna_filter_none.
Qed.

Lemma none_filter_some :
  forall a (l : list (option A)),
    filter is_none (filter (fun y => negb (cell_eqb eqb (Some a) y)) l)
    = filter is_none l.
Proof.
  induction l as [|[b|] l IH]; simpl; [reflexivity| |f_equal; exact IH].
  destruct (eqb a b); simpl; exact IH.
Qed.

Lemma none_filter_none :
  forall l : list (option A),
    filter is_none (filter (fun y => negb (cell_eqb eqb None y)) l) = [].
Proof.
  induction l as [|[b|] l IH]; simpl; [reflexivity|exact IH|exact IH].
Qed.

Lemma none_distinct :
  forall col : list (option A),
    List.length (filter is_none (distinct (cell_eqb eqb) col))
    = if existsb is_none col then 1%nat else 0%nat.
Proof.
  induction col as [|[a|] col IH];
    cbn [distinct filter is_none existsb orb List.length]; [reflexivity| |].
  - now rewrite none_filter_some.
  - now rewrite none_filter_none.
Qed.

Lemma length_dropna :
  forall l : list (option A),
    List.length l
    = (List.length (dropna l) + List.length (filter is_none l))%nat.
Proof.
  induction l as [|[b|] l IH]; simpl; lia.
Qed.

Lemma distinct_length_le :
  forall l : list A, (List.length (distinct eqb l) <= List.length l)%nat.
Proof.
  induction l as [|x l IH]; simpl; [lia|].
  pose proof (filter_length_le (fun y => negb (eqb x y)) (distinct eqb l)). lia.
Qed.

(** [len(col.unique())] is [col.nunique()], plus one when a cell is
    missing. *)
Lemma unique_vs_nunique :
  forall col : list (option A),
    Z.of_nat (List.length (distinct (cell_eqb eqb) col))
    = nunique eqb col + (if existsb is_none col then 1 else 0).
Proof.
  intros col. unfold nunique.
  rewrite (length_dropna (distinct (cell_eqb eqb) col)).
  rewrite dropna_distinct, none_distinct.
  destruct (existsb is_none col); lia.
Qed.
End Distinct.

Lemma dated_rows_dropna :
  forall df, dated_rows df = Z.of_nat (List.length (dropna (map Date df))).
Proof.
  intros df. unfold dated_rows. f_equal.
  induction df as [|t df IH]; simpl; [reflexivity|].
  destruct (Date t); simpl; now rewrite IH.
Qed.

Lemma dropna_option_map {A B : Type} (f : A -> B) :
  forall l, dropna (map (option_map f) l) = map f (dropna l).
Proof.
  induction l as [|[a|] l IH]; simpl; [reflexivity| |exact IH]. now rewrite IH.
Qed.

Lemma existsb_map' {A B : Type} (f : A -> B) (p : B -> bool) :
  forall l, existsb p (map f l) = existsb (fun x => p (f x)) l.
Proof. induction l as [|x l IH]; simpl; [reflexivity|]. now rewrite IH. Qed.

Lemma clean_Date_Only :
  forall raw df, clean_raw_data raw = Returned df ->
    map Date_Only df = map (option_map date_of) (map Date df).
Proof.
  intros raw df H. pose proof (clean_table_columns raw df H) as W.
  clear H. rewrite map_map.
  induction W as [|t df Ht _ IH]; simpl; [reflexivity|].
  destruct Ht as [_ [_ [_ [_ [_ [_ ->]]]]]]. now rewrite IH.
Qed.

(** X13.  For a cleaned table the two "days travelled" numbers of the
    dashboard agree, and they are at most the number of dated rows.  The
    "Date Range ... days" number of the Data Explorer is taken with
    [len(unique())]: it is the number of distinct days, plus one as soon
    as a row of the table it is given has no date. *)
Theorem days_travelled_metrics :
  forall raw df, clean_raw_data raw = Returned df ->
    snd (get_tap_data df) = unique_days df
    /\ 0 <= unique_days df <= dated_rows df
    /\ forall filtered_df,
         date_range_days filtered_df
         = unique_days filtered_df
           + (if existsb (fun t => is_none (Date_Only t)) filtered_df
              then 1 else 0).
Proof.
  intros raw df H. pose proof (clean_Date_Only raw df H) as E.
  split; [|split].
  - unfold get_tap_data, unique_days. cbn [snd]. rewrite E, map_map. reflexivity.
  - unfold unique_days, nunique. rewrite E, dropna_option_map, dated_rows_dropna.
    pose proof (distinct_length_le date_eqb (map date_of (dropna (map Date df)))) as L.
    rewrite length_map in L. lia.
  - intros fdf. unfold date_range_days, unique_days.
    rewrite unique_vs_nunique, existsb_map'. reflexivity.
Qed.

Lemma days_travelled_metrics_witness :
  snd (get_tap_data sample_df) = unique_days sample_df.
Proof.
  apply (proj1 (days_travelled_metrics
                  [mkRaw "01/05/2024 08:15:00 AM" "Zone17" "$3.25" "GO";
                   mkRaw "01/05/2024 05:40:00 PM" "Union Station" "-$3.25" "GO";
                   mkRaw "03/09/2024 09:00:00 AM" "Square One" "$10" "MiWay";
                   mkRaw "05/20/2024 07:30:00 PM" "Union Station" "$20" "TTC"]
                  sample_df ltac:(vm_compute; reflexivity))).
Defined.

(** ** The busiest hours *)

Lemma hour_label_clock :
  forall h dh p, 0 <= h <= 23 -> hour_label h = (dh, p) ->
    1 <= dh <= 12 /\ (p = "AM" \/ p = "PM")
    /\ h = dh mod 12 + (if String.eqb p "PM" then 12 else 0).
Proof.
  intros h dh p Hh E.
  assert (C : h = 0 \/ h = 1 \/ h = 2 \/ h = 3 \/ h = 4 \/ h = 5 \/ h = 6 \/ h = 7 \/ h = 8 \/ h = 9 \/ h = 10 \/ h = 11 \/ h = 12 \/ h = 13 \/ h = 14 \/ h = 15 \/ h = 16 \/ h = 17 \/ h = 18 \/ h = 19 \/ h = 20 \/ h = 21 \/ h = 22 \/ h = 23) by lia.
  repeat (destruct C as [C|C];
          [subst h; vm_compute in E; injection E as <- <-;
           (split; [lia|]); (split; [auto|]); reflexivity|]).
  subst h. vm_compute in E. injection E as <- <-.
  split; [lia|]. split; [auto|]. reflexivity.
Qed.

Lemma occurrences_pos {K : Type} (eqb : K -> K -> bool) :
  (forall a, eqb a a = true) ->
  forall k keys, In k keys -> 0 < occurrences eqb k keys.
Proof.
  intros R k keys H. unfold occurrences.
  assert (F : In k (filter (eqb k) keys)) by (apply filter_In; auto).
  destruct (filter (eqb k) keys); [contradiction | simpl; lia].
Qed.

Lemma desc_counts_sorted {K : Type} :
  forall l : list (K * Z),
    StronglySorted (fun a b => (snd b <=? snd a) = true)
                   (sort_by (fun a b => snd b <=? snd a) l).
Proof.
  intros l. apply Sorted_StronglySorted.
  - intros a b c H1 H2. apply Z.leb_le in H1, H2. apply Z.leb_le. lia.
  - apply sort_by_sorted. intros a b H. apply Z.leb_gt in H.
    apply Z.leb_le. lia.
Qed.

Lemma clean_Hour_range :
  forall raw df t h, clean_raw_data raw = Returned df ->
    In t df -> Hour t = Some h -> 0 <= h <= 23.
Proof.
  intros raw df t h H Hin Hh.
  pose proof (clean_table_columns raw df H) as W. rewrite Forall_forall in W.
  destruct (W t Hin) as [V [_ [E _]]]. rewrite E in Hh.
  destruct (Date t) as [d|]; [|discriminate]. injection Hh as <-.
  destruct (V d eq_refl) as [_ [_ [_ [B _]]]]. exact B.
Qed.

(** X14.  The "busiest hours" of the summary are at most five hours of
    the filtered table, each written on a 12-hour clock from which the
    hour of the day can be read back (12 AM is midnight, 12 PM is noon),
    each with the number of rows of that hour, and no hour left out has
    more rows than a listed one. *)
Theorem busiest_hours_clock :
  forall raw df date_range selected_agency location_search filtered_df,
    clean_raw_data raw = Returned df ->
    apply_filters df date_range selected_agency location_search
    = Some filtered_df ->
    (List.length (busiest_hours_lines filtered_df) <= 5)%nat
    /\ forall dh p c, In ((dh, p), c) (busiest_hours_lines filtered_df) ->
         exists h,
           0 <= h <= 23 /\ 1 <= dh <= 12 /\ (p = "AM" \/ p = "PM")
           /\ h = dh mod 12 + (if String.eqb p "PM" then 12 else 0)
           /\ c = rows_between h h filtered_df /\ 0 < c
           /\ forall h', ~ In h' (map fst (busiest_hours filtered_df)) ->
                         rows_between h' h' filtered_df <= c.
Proof.
  intros raw df dr agency loc fdf Hc Hf.
  destruct (apply_filters_as_filter dr agency loc
              (apply_filters_modelled _ _ _ _ _ Hf)) as [f Hff].
  rewrite Hff in Hf. injection Hf as <-.
  unfold busiest_hours_lines, busiest_hours.
  set (keys := dropna (map Hour (filter f df))).
  set (V := sort_by (fun a b : Z * Z => snd b <=? snd a) (group_counts Z.eqb keys)).
  pose proof (sort_by_perm (fun a b : Z * Z => fst a <=? fst b) (firstn 5 V)) as P.
  destruct (group_counts_spec Z.eqb Z.eqb_eq keys) as [_ [_ F]].
  split.
  - rewrite length_map, <- (Permutation_length P). apply firstn_le_length.
  - intros dh p c Hin. apply in_map_iff in Hin.
    destruct Hin as [[h c'] [E0 Hin]]. cbn [fst snd] in E0.
    pose proof (f_equal fst E0) as E. pose proof (f_equal snd E0) as E'.
    cbn [fst snd] in E, E'. subst c'. clear E0. apply sort_by_In in Hin.
    pose proof (firstn_In _ _ _ Hin) as HV. unfold V in HV.
    apply sort_by_In in HV. apply F in HV. destruct HV as [Hk ->].
    assert (Hr : 0 <= h <= 23).
    { unfold keys in Hk. apply dropna_In, in_map_iff in Hk.
      destruct Hk as [t [Ht Hk]]. apply filter_In in Hk.
      exact (clean_Hour_range raw df t h Hc (proj1 Hk) Ht). }
    destruct (hour_label_clock h dh p Hr E) as [B1 [B2 B3]].
    exists h. repeat (split; [assumption|]).
    unfold keys at 1 2. rewrite occurrences_rows_between.
    split; [reflexivity|]. split.
    { rewrite <- occurrences_rows_between. apply occurrences_pos; [|exact Hk].
      apply Z.eqb_refl. }
    intros h' Hn. rewrite <- occurrences_rows_between. fold keys.
    destruct (existsb (Z.eqb h') keys) eqn:Ex.
    + apply existsb_exists in Ex. destruct Ex as [x [Hx Ex]].
      apply Z.eqb_eq in Ex. subst x.
      assert (HG : In (h', occurrences Z.eqb h' keys) V).
      { unfold V. apply sort_by_In. apply F. auto. }
      rewrite <- (firstn_skipn 5 V) in HG. apply in_app_or in HG.
      destruct HG as [HG|HG].
      * exfalso. apply Hn.
        apply (Permutation_in _ (Permutation_map fst P)).
        apply in_map_iff. exists (h', occurrences Z.eqb h' keys). auto.
      * pose proof (desc_counts_sorted (group_counts Z.eqb keys)) as S.
        fold V in S. rewrite <- (firstn_skipn 5 V) in S.
        pose proof (StronglySorted_app_inv _ _ _ S _ _ Hin HG) as L.
        cbn [snd] in L. apply Z.leb_le in L. exact L.
    + rewrite (occurrences_absent Z.eqb _ _ Ex).
      pose proof (occurrences_pos Z.eqb Z.eqb_refl h keys Hk). lia.
Qed.

Lemma busiest_hours_clock_witness :
  (List.length (busiest_hours_lines sample_df) <= 5)%nat.
Proof.
  apply (proj1 (busiest_hours_clock
                  [mkRaw "01/05/2024 08:15:00 AM" "Zone17" "$3.25" "GO";
                   mkRaw "01/05/2024 05:40:00 PM" "Union Station" "-$3.25" "GO";
                   mkRaw "03/09/2024 09:00:00 AM" "Square One" "$10" "MiWay";
                   mkRaw "05/20/2024 07:30:00 PM" "Union Station" "$20" "TTC"]
                  sample_df [] "All" "" sample_df
                  ltac:(vm_compute; reflexivity)
                  ltac:(vm_compute; reflexivity))).
Defined.

(** ** The heatmap *)

Section DistinctFacts.
Context {A : Type} (eqb : A -> A -> bool).
Hypothesis eqb_eq : forall a b, eqb a b = true <-> a = b.

Lemma distinct_In :
  forall l x, In x (distinct eqb l) <-> In x l.
Proof.
  induction l as [|a l IH]; intros x; simpl; [tauto|].
  rewrite filter_In, IH. split.
  - intros [H|[H _]]; auto.
  - intros [H|H]; [now left|].
    destruct (eqb a x) eqn:E; [left; now apply eqb_eq|right; auto].
Qed.

Lemma distinct_NoDup :
  forall l, NoDup (distinct eqb l).
Proof.
  induction l as [|a l IH]; simpl; constructor.
  - intros H. apply filter_In in H. destruct H as [_ H].
    rewrite (proj2 (eqb_eq a a) eq_refl) in H. discriminate.
  - now apply NoDup_filter.
Qed.
End DistinctFacts.

Lemma key2_eqb_eq : forall a b, key2_eqb a b = true <-> a = b.
Proof.
  intros [d h] [d' h']. unfold key2_eqb. cbn [fst snd].
  rewrite Bool.andb_true_iff, String.eqb_eq, Z.eqb_eq.
  split; [intros [-> ->]; reflexivity | intros E; now inversion E].
Qed.

Lemma find_key_tabulate {K V : Type} (eqb : K -> K -> bool) (g : K -> V) :
  (forall a b, eqb a b = true <-> a = b) ->
  forall l k,
    find_key eqb k (map (fun d => (d, g d)) l)
    = if existsb (eqb k) l then Some (g k) else None.
Proof.
  intros eqb_eq. induction l as [|d l IH]; intros k; simpl; [reflexivity|].
  destruct (eqb k d) eqn:E; simpl; [|apply IH].
  apply eqb_eq in E. now subst d.
Qed.

Lemma existsb_iff {A : Type} (p : A -> bool) (l l' : list A) :
  (forall x, In x l <-> In x l') -> existsb p l = existsb p l'.
Proof.
  intros H. apply Bool.eq_iff_eq_true. rewrite !existsb_exists.
  split; intros [x [Hx Px]]; exists x; split; auto; now apply H.
Qed.

Lemma pair_occurrences :
  forall df d h,
    occurrences key2_eqb (d, h)
      (dropna_pairs (map (fun t => (Day_of_Week t, Hour t)) df))
    = rows_at d h df.
Proof.
  intros df d h. unfold occurrences, rows_at. f_equal.
  induction df as [|t df IH]; simpl; [reflexivity|].
  destruct (Day_of_Week t) as [w|], (Hour t) as [x|]; simpl; try exact IH.
  unfold key2_eqb at 1. cbn [fst snd].
  destruct (String.eqb d w && (h =? x)); simpl; now rewrite IH.
Qed.

Lemma pair_days :
  forall df d,
    existsb (String.eqb d)
      (map fst (dropna_pairs (map (fun t => (Day_of_Week t, Hour t)) df)))
    = existsb (fun t => match Day_of_Week t, Hour t with
                        | Some w, Some _ => String.eqb d w
                        | _, _ => false
                        end) df.
Proof.
  intros df d. induction df as [|t df IH]; simpl; [reflexivity|].
  destruct (Day_of_Week t) as [w|], (Hour t) as [x|]; simpl; now rewrite IH.
Qed.

Lemma pair_hours :
  forall df h,
    In h (map snd (dropna_pairs (map (fun t => (Day_of_Week t, Hour t)) df)))
    <-> exists t, In t df /\ Hour t = Some h /\ Day_of_Week t <> None.
Proof.
  intros df h. induction df as [|t df IH]; simpl.
  - split; [tauto | intros [t [[] _]]].
  - destruct (Day_of_Week t) as [w|] eqn:Ew, (Hour t) as [x|] eqn:Ex; simpl;
      rewrite IH; split.
    + intros [->|[t' [H1 H2]]]; [exists t; rewrite Ew, Ex|exists t'];
        intuition congruence.
    + intros [t' [[<-|H1] [H2 H3]]]; [left; congruence|right; exists t'; auto].
    + intros [t' [H1 H2]]; exists t'; auto.
    + intros [t' [[<-|H1] [H2 H3]]]; [congruence|exists t'; auto].
    + intros [t' [H1 H2]]; exists t'; auto.
    + intros [t' [[<-|H1] [H2 H3]]]; [congruence|exists t'; auto].
    + intros [t' [H1 H2]]; exists t'; auto.
    + intros [t' [[<-|H1] [H2 H3]]]; [congruence|exists t'; auto].
Qed.

Lemma Zleb_total : forall x y : Z, (x <=? y) = false -> (y <=? x) = true.
Proof. intros x y H. apply Z.leb_gt in H. apply Z.leb_le. lia. Qed.

(** The cells of the two-level count Series, looked up by pair. *)
Lemma groupby2_size_find :
  forall rows k,
    match find_key key2_eqb k (groupby2_size rows) with
    | Some n => n
    | None => 0
    end = occurrences key2_eqb k (dropna_pairs rows).
Proof.
  intros rows k. unfold groupby2_size.
  destruct (group_counts_spec key2_eqb key2_eqb_eq (dropna_pairs rows)) as [N _].
  rewrite <- (find_key_perm key2_eqb key2_eqb_eq _ _ k N (sort_by_perm _ _)).
  apply (group_counts_find key2_eqb key2_eqb_eq).
Qed.

Lemma groupby2_size_keys :
  forall rows k,
    In k (map fst (groupby2_size rows)) <-> In k (dropna_pairs rows).
Proof.
  intros rows k. unfold groupby2_size.
  destruct (group_counts_spec key2_eqb key2_eqb_eq (dropna_pairs rows))
    as [_ [_ F]].
  split.
  - intros H. apply in_map_iff in H. destruct H as [[k' n] [E H]].
    cbn [fst] in E. subst k'. apply sort_by_In in H. apply F in H. tauto.
  - intros H. apply in_map_iff.
    exists (k, occurrences key2_eqb k (dropna_pairs rows)).
    split; [reflexivity|]. apply sort_by_In. apply F. auto.
Qed.

Lemma map_fst_fst {A B C : Type} :
  forall l : list ((A * B) * C),
    map (fun e => fst (fst e)) l = map fst (map fst l).
Proof. intros l. now rewrite map_map. Qed.

Lemma map_snd_fst {A B C : Type} :
  forall l : list ((A * B) * C),
    map (fun e => snd (fst e)) l = map snd (map fst l).
Proof. intros l. now rewrite map_map. Qed.

Lemma In_map_iff_ext {A B : Type} (f : A -> B) (l l' : list A) :
  (forall x, In x l <-> In x l') ->
  forall y, In y (map f l) <-> In y (map f l').
Proof.
  intros H y. rewrite !in_map_iff.
  split; intros [x [E Hx]]; exists x; split; auto; now apply H.
Qed.

(** X15.  The heatmap has one row per weekday, Monday to Sunday, and one
    column per hour that occurs in the table, in ascending order.  A
    weekday that occurs has, in every column, the number of rows of that
    weekday and hour (0 where there is none); a weekday that does not
    occur has NaN in every column, not 0. *)
Theorem heatmap_data_cells :
  forall df,
    let present := fun d =>
      existsb (fun t => match Day_of_Week t, Hour t with
                        | Some w, Some _ => String.eqb d w
                        | _, _ => false
                        end) df in
    let columns := f_columns (heatmap_data df) in
    f_rows (heatmap_data df)
    = map (fun d => (d, map (fun h => if present d
                                      then Finite (inject_Z (rows_at d h df))
                                      else NaN) columns)) day_order
    /\ Sorted (fun a b => (a <=? b) = true) columns
    /\ NoDup columns
    /\ forall h, In h columns
                 <-> exists t, In t df /\ Hour t = Some h
                               /\ Day_of_Week t <> None.
Proof.
  intros df present columns.
  unfold heatmap_data, reindex_rows, unstack in *. cbn [f_rows f_columns] in *.
  set (rows := map (fun t => (Day_of_Week t, Hour t)) df) in *.
  set (s := groupby2_size rows) in *.
  set (index := sort_by String.leb _).
  pose proof (groupby2_size_keys rows) as Ks. fold s in Ks.
  split; [|split; [|split]].
  - apply map_ext. intros d. f_equal.
    rewrite (find_key_tabulate String.eqb _ string_eqb_eq).
    assert (E : existsb (String.eqb d) index = present d).
    { unfold present. rewrite <- pair_days. fold rows. apply existsb_iff.
      intros x. unfold index. rewrite sort_by_In.
      rewrite (distinct_In String.eqb string_eqb_eq), map_fst_fst.
      apply In_map_iff_ext. exact Ks. }
    rewrite E. destruct (present d); [|reflexivity].
    rewrite map_map. apply map_ext. intros h.
    pose proof (groupby2_size_find rows (d, h)) as F. fold s in F.
    rewrite F. unfold rows. now rewrite pair_occurrences.
  - unfold columns. apply sort_by_sorted. exact Zleb_total.
  - unfold columns.
    apply (Permutation_NoDup (sort_by_perm _ _)).
    apply (distinct_NoDup Z.eqb Z.eqb_eq).
  - intros h. unfold columns. rewrite sort_by_In.
    rewrite (distinct_In Z.eqb Z.eqb_eq), map_snd_fst.
    rewrite (In_map_iff_ext snd _ _ Ks). unfold rows. apply pair_hours.
Qed.

(** ** Cumulative spending *)

Lemma clean_amounts_sign :
  forall raw df, clean_raw_data raw = Returned df ->
    Forall (fun t => fle0 (Amount_Clean t) = true \/ Amount_Clean t = NaN) df.
Proof.
  intros raw df H. apply clean_raw_data_rows in H.
  induction H as [|r x raw' df' Hrx _ IH]; constructor; auto.
  destruct (clean_row_inv r x Hrx) as [d [a [_ [Ha ->]]]]. simpl.
  destruct (cell_amount_nonneg _ a Ha) as [E|[E _]]; auto.
Qed.

Lemma fle_trans :
  forall a b c, fle a b = true -> fle b c = true -> fle a c = true.
Proof.
  intros [x| | |] [y| | |] [z| | |]; simpl; try easy.
  rewrite !Qle_bool_iff. apply Qle_trans.
Qed.

Lemma fadd_nonneg :
  forall acc x, fle0 acc = true -> fle0 x = true ->
    fle acc (fadd acc x) = true /\ fle0 (fadd acc x) = true.
Proof.
  intros [a| | |] [x| | |]; simpl; try easy.
  rewrite !Qle_bool_iff. intros Ha Hx.
  pose proof (Qred_correct (a + x)) as E.
  split; rewrite E; [|apply Qle_trans with a; [exact Ha|]];
    rewrite <- (Qplus_0_r a) at 1; apply Qplus_le_r; exact Hx.
Qed.

Lemma cumsum_from_length :
  forall l acc, List.length (cumsum_from acc l) = List.length l.
Proof.
  induction l as [|x l IH]; intros acc; simpl; [reflexivity|].
  destruct (is_nan x); simpl; now rewrite IH.
Qed.

Lemma cumsum_from_nan :
  forall l acc, fle0 acc = true ->
    Forall (fun x => fle0 x = true \/ x = NaN) l ->
    Forall2 (fun x c => is_nan c = is_nan x) l (cumsum_from acc l).
Proof.
  induction l as [|x l IH]; intros acc Ha H; simpl; [constructor|].
  inversion H as [|? ? Hx Hl]; subst.
  destruct (is_nan x) eqn:E.
  - constructor; [simpl; congruence | now apply IH].
  - destruct Hx as [Hx|Hx]; [|subst x; discriminate].
    destruct (fadd_nonneg acc x Ha Hx) as [_ F].
    constructor; [|now apply IH].
    destruct (fadd acc x); simpl in *; congruence.
Qed.

Lemma cumsum_from_monotone :
  forall l acc, fle0 acc = true ->
    Forall (fun x => fle0 x = true \/ x = NaN) l ->
    let present := filter (fun c => negb (is_nan c)) (cumsum_from acc l) in
    StronglySorted (fun a b => fle a b = true) present
    /\ Forall (fun c => fle acc c = true /\ fle0 c = true) present.
Proof.
  induction l as [|x l IH]; intros acc Ha H; cbn zeta; simpl;
    [split; constructor|].
  inversion H as [|? ? Hx Hl]; subst.
  destruct (is_nan x) eqn:E; simpl.
  - now apply IH.
  - destruct Hx as [Hx|Hx]; [|subst x; discriminate].
    destruct (fadd_nonneg acc x Ha Hx) as [L F].
    destruct (IH (fadd acc x) F Hl) as [S B]. cbn zeta in S, B.
    assert (N : is_nan (fadd acc x) = false)
      by (destruct (fadd acc x); simpl in *; congruence).
    rewrite N. simpl. split.
    + constructor; [exact S|].
      eapply Forall_impl; [|exact B]. intros c [Hc _]. exact Hc.
    + constructor; [auto|].
      eapply Forall_impl; [|exact B]. intros c [Hc Hc0]. split; [|exact Hc0].
      exact (fle_trans _ _ _ L Hc).
Qed.

Lemma combine_fst {A B : Type} :
  forall (l : list A) (l' : list B),
    List.length l = List.length l' -> map fst (combine l l') = l.
Proof.
  induction l as [|x l IH]; intros [|y l'] H; simpl in *; try discriminate;
    [reflexivity|]. f_equal. apply IH. lia.
Qed.

Lemma combine_snd {A B : Type} :
  forall (l : list A) (l' : list B),
    List.length l = List.length l' -> map snd (combine l l') = l'.
Proof.
  induction l as [|x l IH]; intros [|y l'] H; simpl in *; try discriminate;
    [reflexivity|]. f_equal. apply IH. lia.
Qed.

(** X16.  The cumulative-spending curve of a cleaned table is drawn over
    the rows in ascending order of Date, has one point per row, has a gap
    (NaN) exactly at the rows whose amount is NaN, and its other points
    are never negative and never go down from one row to a later one. *)
Theorem cumulative_spending_monotone :
  forall raw df, clean_raw_data raw = Returned df ->
    let curve := cumulative_spending df in
    Permutation df (map fst curve)
    /\ Sorted (fun a b => Date_leb a b = true) (map fst curve)
    /\ Forall (fun tc => is_nan (snd tc) = is_nan (Amount_Clean (fst tc))) curve
    /\ StronglySorted (fun a b => fle a b = true)
                      (filter (fun c => negb (is_nan c)) (map snd curve))
    /\ Forall (fun c => fle0 c = true)
              (filter (fun c => negb (is_nan c)) (map snd curve)).
Proof.
  intros raw df H. cbn zeta. unfold cumulative_spending, cumsum.
  set (s := sort_values_Date df).
  assert (Hs : Forall (fun x => fle0 x = true \/ x = NaN) (map Amount_Clean s)).
  { apply Forall_forall. intros x Hx. apply in_map_iff in Hx.
    destruct Hx as [t [<- Ht]]. unfold s, sort_values_Date in Ht.
    apply sort_by_In in Ht.
    pose proof (clean_amounts_sign raw df H) as A.
    rewrite Forall_forall in A. exact (A t Ht). }
  assert (L : List.length s
              = List.length (cumsum_from fzero (map Amount_Clean s)))
    by now rewrite cumsum_from_length, length_map.
  assert (E1 : map fst (combine s (cumsum_from fzero (map Amount_Clean s))) = s).
  { apply combine_fst. exact L. }
  assert (E2 : map snd (combine s (cumsum_from fzero (map Amount_Clean s)))
               = cumsum_from fzero (map Amount_Clean s)).
  { apply combine_snd. exact L. }
  rewrite E1, E2.
  destruct (cumsum_from_monotone (map Amount_Clean s) fzero eq_refl Hs) as [S B].
  cbn zeta in S, B.
  split; [apply sort_by_perm|].
  split; [apply sort_by_sorted; exact Date_leb_total|].
  split; [|split; [exact S|]].
  - pose proof (cumsum_from_nan (map Amount_Clean s) fzero eq_refl Hs) as N.
    clear - N. revert N.
    generalize (cumsum_from fzero (map Amount_Clean s)) as c.
    induction s as [|t s IH]; intros c N; simpl in *.
    + constructor.
    + inversion N as [|? y ? c' Hy Hc']; subst. simpl.
      constructor; [exact Hy | now apply IH].
  - eapply Forall_impl; [|exact B]. intros c [_ Hc]. exact Hc.
Qed.

Lemma cumulative_spending_monotone_witness :
  Permutation sample_df (map fst (cumulative_spending sample_df)).
Proof.
  apply (proj1 (cumulative_spending_monotone
                  [mkRaw "01/05/2024 08:15:00 AM" "Zone17" "$3.25" "GO";
                   mkRaw "01/05/2024 05:40:00 PM" "Union Station" "-$3.25" "GO";
                   mkRaw "03/09/2024 09:00:00 AM" "Square One" "$10" "MiWay";
                   mkRaw "05/20/2024 07:30:00 PM" "Union Station" "$20" "TTC"]
                  sample_df ltac:(vm_compute; reflexivity))).
Defined.

(** ** Trips per month *)

Lemma string_leb_total :
  forall a b, String.leb a b = false -> String.leb b a = true.
Proof.
  intros a b. unfold String.leb. rewrite (String.compare_antisym a b).
  destruct (String.compare b a); simpl; congruence.
Qed.

Lemma occurrences_map {A K : Type} (eqb : K -> K -> bool) (f : A -> K) :
  forall k l,
    occurrences eqb k (map f l)
    = Z.of_nat (List.length (filter (fun x => eqb k (f x)) l)).
Proof.
  intros k l. unfold occurrences. f_equal.
  induction l as [|x l IH]; simpl; [reflexivity|].
  destruct (eqb k (f x)); simpl; now rewrite IH.
Qed.

Lemma month_str_before_NaT :
  forall d, 0 <= year d <= 9999 -> String.compare (month_str d) "NaT" = Lt.
Proof.
  intros d Hy. unfold month_str, pad4. cbn [append String.compare].
  destruct (digits4 _ Hy) as [_ [A3 _]].
  set (a3 := year d / 1000 mod 10) in *. clearbody a3.
  assert (Hc : a3 = 0 \/ a3 = 1 \/ a3 = 2 \/ a3 = 3 \/ a3 = 4 \/ a3 = 5
               \/ a3 = 6 \/ a3 = 7 \/ a3 = 8 \/ a3 = 9) by lia.
  repeat (destruct Hc as [Hc|Hc]; [subst a3; reflexivity|]).
  subst a3; reflexivity.
Qed.

(** X17.  The trips-per-month Series of a cleaned table counts every row:
    each month with a dated row has an entry with the number of rows of
    that calendar month, the rows without a Date are counted under the
    label "NaT", which comes after every month label, and the counts add
    up to the number of rows. *)
Theorem monthly_trips_counts_all_rows :
  forall raw df, clean_raw_data raw = Returned df ->
    sum_counts (monthly_trips df) = Z.of_nat (List.length df)
    /\ Sorted (fun a b => String.leb (fst a) (fst b) = true) (monthly_trips df)
    /\ (forall t d, In t df -> Date t = Some d ->
          In (month_str d,
              Z.of_nat (List.length (filter (in_month (year d) (month d)) df)))
             (monthly_trips df))
    /\ (forall t, In t df -> Date t = None ->
          In ("NaT", undated_rows df) (monthly_trips df))
    /\ (forall k n, In (k, n) (monthly_trips df) -> k <> "NaT" ->
          String.compare k "NaT" = Lt).
Proof.
  intros raw df H.
  pose proof (clean_table_columns raw df H) as W. rewrite Forall_forall in W.
  destruct (group_counts_spec String.eqb string_eqb_eq (map Month df))
    as [_ [S F]].
  unfold monthly_trips.
  split; [|split; [|split; [|split]]].
  - rewrite <- (sum_counts_perm _ _ (sort_by_perm _ _)), S.
    now rewrite length_map.
  - apply sort_by_sorted. intros a b. apply string_leb_total.
  - intros t d Ht Hd. apply sort_by_In. apply F.
    destruct (W t Ht) as [_ [_ [_ [Em _]]]]. rewrite Hd in Em. cbn [month_of] in Em.
    split; [rewrite <- Em; now apply in_map|].
    rewrite occurrences_map, <- (month_key_selects raw df t d H Ht Hd), Em.
    do 2 f_equal. apply filter_ext. intros x. apply String.eqb_sym.
  - intros t Ht Hd. apply sort_by_In. apply F.
    destruct (W t Ht) as [_ [_ [_ [Em _]]]]. rewrite Hd in Em. cbn [month_of] in Em.
    split; [rewrite <- Em; now apply in_map|].
    rewrite occurrences_map. unfold undated_rows. do 2 f_equal.
    apply filter_ext_In. intros x Hx.
    destruct (W x Hx) as [V [_ [_ [Ex _]]]]. rewrite Ex.
    destruct (Date x) as [dx|]; cbn [month_of]; [|reflexivity].
    symmetry. apply String.eqb_neq. intros E. symmetry in E. revert E.
    apply month_str_not_NaT. destruct (V dx eq_refl) as [Y _]. lia.
  - intros k n Hin Hk. apply sort_by_In in Hin. apply F in Hin.
    destruct Hin as [Hin _]. apply in_map_iff in Hin.
    destruct Hin as [t [<- Ht]].
    destruct (W t Ht) as [V [_ [_ [Em _]]]]. rewrite Em in *.
    destruct (Date t) as [d|]; cbn [month_of] in *; [|congruence].
    apply month_str_before_NaT. destruct (V d eq_refl) as [Y _]. lia.
Qed.

Lemma monthly_trips_counts_all_rows_witness :
  sum_counts (monthly_trips sample_df) = Z.of_nat (List.length sample_df).
Proof.
  apply (proj1 (monthly_trips_counts_all_rows
                  [mkRaw "01/05/2024 08:15:00 AM" "Zone17" "$3.25" "GO";
                   mkRaw "01/05/2024 05:40:00 PM" "Union Station" "-$3.25" "GO";
                   mkRaw "03/09/2024 09:00:00 AM" "Square One" "$10" "MiWay";
                   mkRaw "05/20/2024 07:30:00 PM" "Union Station" "$20" "TTC"]
                  sample_df ltac:(vm_compute; reflexivity))).
Defined.

(** ** Location types *)

Lemma categorize_location_range :
  forall loc,
    In (categorize_location loc)
       ["Subway/Train Station"; "Bus Stop"; "GO Transit"; "Other"].
Proof.
  intros loc. unfold categorize_location. cbv zeta.
  destruct (str_in "STATION" (upper loc)); [simpl; auto|].
  destruct (str_in " AT " (upper loc)); [simpl; auto|].
  destruct (str_in "GO" (upper loc)); simpl; auto.
Qed.

(** X18.  The location-type chart puts every row in exactly one of the
    four types: it has at most four entries, each a different type with
    the number of rows that [categorize_location] gives that type (a row
    whose Location is missing is categorized through its text "nan"),
    most frequent first, and the counts add up to the number of rows. *)
Theorem type_counts_partition :
  forall df,
    (List.length (type_counts df) <= 4)%nat
    /\ NoDup (map fst (type_counts df))
    /\ sum_counts (type_counts df) = Z.of_nat (List.length df)
    /\ StronglySorted (fun a b => (snd b <=? snd a) = true) (type_counts df)
    /\ forall k n, In (k, n) (type_counts df) ->
         In k ["Subway/Train Station"; "Bus Stop"; "GO Transit"; "Other"]
         /\ n = Z.of_nat
                  (List.length
                     (filter (fun t => String.eqb k (Location_Type t)) df)).
Proof.
  intros df. unfold type_counts, value_counts.
  set (keys := map Location_Type df).
  destruct (group_counts_spec String.eqb string_eqb_eq keys) as [N [S F]].
  pose proof (sort_by_perm (fun a b : string * Z => snd b <=? snd a)
                (group_counts String.eqb keys)) as P.
  assert (N' : NoDup (map fst (sort_by (fun a b : string * Z => snd b <=? snd a)
                                  (group_counts String.eqb keys))))
    by exact (Permutation_NoDup (Permutation_map fst P) N).
  assert (R : forall k n,
             In (k, n) (sort_by (fun a b : string * Z => snd b <=? snd a)
                          (group_counts String.eqb keys)) ->
             In k ["Subway/Train Station"; "Bus Stop"; "GO Transit"; "Other"]
             /\ n = occurrences String.eqb k keys).
  { intros k n Hin. apply sort_by_In in Hin. apply F in Hin.
    destruct Hin as [Hin ->]. split; [|reflexivity].
    unfold keys in Hin. apply in_map_iff in Hin. destruct Hin as [t [<- _]].
    unfold Location_Type. apply categorize_location_range. }
  split; [|split; [exact N'|split; [|split]]].
  - rewrite <- (length_map fst).
    change 4%nat with (List.length ["Subway/Train Station"; "Bus Stop";
                                    "GO Transit"; "Other"]).
    apply NoDup_incl_length; [exact N'|].
    intros k Hk. apply in_map_iff in Hk. destruct Hk as [[k' n] [<- Hin]].
    exact (proj1 (R _ _ Hin)).
  - rewrite <- (sum_counts_perm _ _ P), S. unfold keys. now rewrite length_map.
  - apply desc_counts_sorted.
  - intros k n Hin. destruct (R k n Hin) as [R1 R2]. split; [exact R1|].
    rewrite R2. unfold keys. apply occurrences_map.
Qed.

(** ** Location visit history *)

Lemma strftime_day_compare :
  forall a b, valid_ts a -> valid_ts b ->
    String.compare (strftime_day a) (strftime_day b) = (day_key a ?= day_key b).
Proof.
  intros a b Va Vb.
  destruct Va as [Ay [Am [Ad _]]]. destruct Vb as [By [Bm [Bd _]]].
  pose proof (days_in_month_bounds (year a) (month a)) as Da.
  pose proof (days_in_month_bounds (year b) (month b)) as Db.
  unfold strftime_day, day_key, pad4, pad2. cbn [append String.compare].
  destruct (digits4 (year a) ltac:(lia)) as [Ey [Y3 [Y2 [Y1 Y0]]]].
  destruct (digits4 (year b) ltac:(lia)) as [Fy [Z3 [Z2 [Z1 Z0]]]].
  destruct (digits2 (month a) ltac:(lia)) as [Em [M1 M0]].
  destruct (digits2 (month b) ltac:(lia)) as [Fm [N1 N0]].
  destruct (digits2 (day a) ltac:(lia)) as [Ed [D1 D0]].
  destruct (digits2 (day b) ltac:(lia)) as [Fd [E1 E0]].
  rewrite !digit_char_compare by assumption.
  change (Ascii.compare "-" "-") with Eq. cbv iota.
  set (y3 := year a / 1000 mod 10) in *. set (y2 := year a / 100 mod 10) in *.
  set (y1 := year a / 10 mod 10) in *. set (y0 := year a mod 10) in *.
  set (z3 := year b / 1000 mod 10) in *. set (z2 := year b / 100 mod 10) in *.
  set (z1 := year b / 10 mod 10) in *. set (z0 := year b mod 10) in *.
  set (m1 := month a / 10 mod 10) in *. set (m0 := month a mod 10) in *.
  set (n1 := month b / 10 mod 10) in *. set (n0 := month b mod 10) in *.
  set (d1 := day a / 10 mod 10) in *. set (d0 := day a mod 10) in *.
  set (e1 := day b / 10 mod 10) in *. set (e0 := day b mod 10) in *.
  rewrite Ey, Fy, Em, Fm, Ed, Fd.
  clearbody y3 y2 y1 y0 z3 z2 z1 z0 m1 m0 n1 n0 d1 d0 e1 e0.
  clear Ey Fy Em Fm Ed Fd Ay Am Ad By Bm Bd Da Db.
  symmetry.
  destruct (Z.compare_spec y3 z3);
    [|apply Z.compare_lt_iff; lia|apply Z.compare_gt_iff; lia].
  destruct (Z.compare_spec y2 z2);
    [|apply Z.compare_lt_iff; lia|apply Z.compare_gt_iff; lia].
  destruct (Z.compare_spec y1 z1);
    [|apply Z.compare_lt_iff; lia|apply Z.compare_gt_iff; lia].
  destruct (Z.compare_spec y0 z0);
    [|apply Z.compare_lt_iff; lia|apply Z.compare_gt_iff; lia].
  destruct (Z.compare_spec m1 n1);
    [|apply Z.compare_lt_iff; lia|apply Z.compare_gt_iff; lia].
  destruct (Z.compare_spec m0 n0);
    [|apply Z.compare_lt_iff; lia|apply Z.compare_gt_iff; lia].
  destruct (Z.compare_spec d1 e1);
    [|apply Z.compare_lt_iff; lia|apply Z.compare_gt_iff; lia].
  destruct (Z.compare_spec d0 e0);
    [apply Z.compare_eq_iff|apply Z.compare_lt_iff|apply Z.compare_gt_iff]; lia.
Qed.

Lemma day_key_date_le :
  forall a b, valid_ts a -> valid_ts b ->
    (date_le (date_of a) (date_of b) <-> day_key a <= day_key b).
Proof.
  intros a b Va Vb.
  destruct Va as [Ay [Am [Ad _]]]. destruct Vb as [By [Bm [Bd _]]].
  pose proof (days_in_month_bounds (year a) (month a)) as Da.
  pose proof (days_in_month_bounds (year b) (month b)) as Db.
  unfold date_le, date_of, day_key. cbn [d_year d_month d_day]. lia.
Qed.

Lemma strftime_day_leb :
  forall a b, valid_ts a -> valid_ts b -> ts_key a <= ts_key b ->
    String.leb (strftime_day a) (strftime_day b) = true.
Proof.
  intros a b Va Vb H. unfold String.leb.
  rewrite (strftime_day_compare a b Va Vb).
  apply ts_key_date_le in H; auto. apply day_key_date_le in H; auto.
  destruct (Z.compare_spec (day_key a) (day_key b)); auto; lia.
Qed.

(** X19.  The visit-history table of a cleaned table has at most 15 rows,
    each for a location that occurs.  "Total Visits" counts the rows of
    the location that have a Date.  When it is 0 both dates are missing;
    otherwise "First Visit" and "Last Visit" are the formatted days of the
    earliest and of the latest dated trip at the location, every other
    trip there falls on a day between them, and the first text is not
    after the last. *)
Theorem location_stats_visits :
  forall raw df, clean_raw_data raw = Returned df ->
    (List.length (location_stats df) <= 15)%nat
    /\ forall loc s, In (loc, s) (location_stats df) ->
         let g := filter (fun t => cell_is loc (Location t)) df in
         g <> []
         /\ Total_Visits s = dated_rows g
         /\ (Total_Visits s = 0 ->
             First_Visit s = None /\ Last_Visit s = None)
         /\ (0 < Total_Visits s ->
             exists t1 lo t2 hi,
               In t1 g /\ Date t1 = Some lo /\ In t2 g /\ Date t2 = Some hi
               /\ First_Visit s = Some (strftime_day lo)
               /\ Last_Visit s = Some (strftime_day hi)
               /\ String.leb (strftime_day lo) (strftime_day hi) = true
               /\ forall t d, In t g -> Date t = Some d ->
                    date_le (date_of lo) (date_of d)
                    /\ date_le (date_of d) (date_of hi)).
Proof.
  intros raw df H.
  pose proof (clean_table_columns raw df H) as W. rewrite Forall_forall in W.
  unfold location_stats. split.
  - rewrite length_map. apply firstn_le_length.
  - intros loc s Hin. cbv zeta.
    set (g := filter (fun t => cell_is loc (Location t)) df).
    apply in_map_iff in Hin.
    destruct Hin as [[loc' [[mn mx] n]] [E Hin]]. cbn [fst snd] in E.
    injection E as -> <-. cbn [First_Visit Last_Visit Total_Visits].
    apply firstn_In, sort_by_In in Hin. unfold location_agg in Hin.
    apply in_map_iff in Hin. destruct Hin as [loc' [E Hloc]]. cbv zeta in E.
    injection E as -> <- <- <-. fold g.
    apply sort_by_In, (distinct_In String.eqb string_eqb_eq), dropna_In,
      in_map_iff in Hloc.
    destruct Hloc as [t0 [E0 Ht0]].
    assert (G0 : In t0 g).
    { apply filter_In. split; [exact Ht0|]. rewrite E0. apply String.eqb_refl. }
    assert (V : forall t d, In t g -> Date t = Some d -> valid_ts d).
    { intros t d Ht Hd. apply filter_In in Ht.
      destruct (W t (proj1 Ht)) as [Vt _]. now apply Vt. }
    split; [intros Eg; rewrite Eg in G0; contradiction|].
    split; [reflexivity|].
    rewrite dated_rows_dropna. unfold Date_min, Date_max.
    assert (D : forall d, In d (dropna (map Date g)) ->
                          exists t, In t g /\ Date t = Some d).
    { intros d Hd. apply dropna_In, in_map_iff in Hd.
      destruct Hd as [t [Hd Ht]]. exists t. auto. }
    assert (D' : forall t d, In t g -> Date t = Some d ->
                             In d (dropna (map Date g))).
    { intros t d Ht Hd. apply dropna_In. rewrite <- Hd. now apply in_map. }
    destruct (dropna (map Date g)) as [|x xs].
    + split; [auto|]. cbn [List.length]. lia.
    + split; [cbn [List.length]; lia|]. intros _.
      destruct (fold_min_ts xs x) as [Lin Lle].
      destruct (fold_max_ts xs x) as [Hin Hle].
      cbv zeta in Lin, Lle, Hin, Hle.
      set (lo := fold_left (fun m y => if ts_key y <? ts_key m then y else m) xs x) in *.
      set (hi := fold_left (fun m y => if ts_key m <? ts_key y then y else m) xs x) in *.
      destruct (D lo Lin) as [t1 [T1 E1]]. destruct (D hi Hin) as [t2 [T2 E2]].
      pose proof (V t1 lo T1 E1) as Vlo. pose proof (V t2 hi T2 E2) as Vhi.
      exists t1, lo, t2, hi. repeat (split; [assumption || reflexivity|]).
      split.
      * apply strftime_day_leb; auto.
      * intros t d Ht Hd. pose proof (V t d Ht Hd) as Vd.
        pose proof (D' t d Ht Hd) as Hd'.
        split; apply ts_key_date_le; auto.
Qed.

Lemma location_stats_visits_witness :
  (List.length (location_stats sample_df) <= 15)%nat.
Proof.
  apply (proj1 (location_stats_visits
                  [mkRaw "01/05/2024 08:15:00 AM" "Zone17" "$3.25" "GO";
                   mkRaw "01/05/2024 05:40:00 PM" "Union Station" "-$3.25" "GO";
                   mkRaw "03/09/2024 09:00:00 AM" "Square One" "$10" "MiWay";
                   mkRaw "05/20/2024 07:30:00 PM" "Union Station" "$20" "TTC"]
                  sample_df ltac:(vm_compute; reflexivity))).
Defined.
